(** * Frontapp MCP server: tool dispatch, parameter partition and error
      normalisation

    A shallow embedding of [src/index.ts].  The server owns no state between
    calls; the only effect of a tool call is the outbound HTTP request issued
    through the pre-configured axios instance.  That effect is modelled by a
    small monad threading the log of issued requests and reading a [remote]
    oracle that answers each request either with the decoded response body or
    with the error axios throws. *)

From Stdlib Require Import ZArith DecimalString.
From stdpp Require Import base option strings list gmap fin_maps.

Local Open Scope string_scope.

(** ** JavaScript values

    The loosely typed tool arguments and the decoded JSON bodies.  The
    program never computes with a number: it only tests it for truth and
    prints it, and both depend on nothing but the text ECMAScript's
    [Number::toString] gives for it.  A number is therefore kept as that
    text ([20], [0.5], [-3], [1e+21]); both zeros share the text [0].
    Objects are finite maps from own property names to values, where a
    property holding [VUndefined] is distinct from a missing property, as in
    JavaScript. *)

#[warnings="-register-all"] Inductive value : Type :=
  | VUndefined
  | VNull
  | VBool (b : bool)
  | VNum (text : string)
  | VStr (s : string)
  | VArr (l : list value)
  | VObj (o : gmap string value).

Abbreviation obj := (gmap string value).

(** [o.k]: reading a missing property yields [undefined]. *)
Definition prop (o : obj) (k : string) : value :=
  default VUndefined (o !! k).

(** Truthiness, as used by [||] and [!]. *)
Definition truthy (v : value) : bool :=
  match v with
  | VUndefined | VNull => false
  | VBool b => b
  | VNum text => negb (String.eqb text "0") && negb (String.eqb text "NaN")
  | VStr s => negb (String.eqb s "")
  | VArr _ | VObj _ => true
  end.

(** [a || b] *)
Definition js_or (a b : value) : value := if truthy a then a else b.

(** [v === 'lit'] for a string literal. *)
Definition strict_eq_str (v : value) (lit : string) : bool :=
  match v with
  | VStr s => String.eqb s lit
  | _ => false
  end.

(** String conversion, as performed by template literals [`${v}`]; [None]
    when the conversion throws a [TypeError].  Arrays are joined with
    commas, [null] and [undefined] elements printing as the empty string.
    An object prints as [[object Object]] through the inherited [toString];
    an own [toString] property, which in decoded JSON is never callable,
    hides it, and the conversion throws. *)
Fixpoint to_string (v : value) : option string :=
  match v with
  | VUndefined => Some "undefined"
  | VNull => Some "null"
  | VBool true => Some "true"
  | VBool false => Some "false"
  | VNum text => Some text
  | VStr s => Some s
  | VArr l =>
      String.concat "," <$>
        (fix join (l : list value) : option (list string) :=
           match l with
           | [] => Some []
           | e :: rest =>
               match match e with
                     | VUndefined | VNull => Some ""
                     | _ => to_string e
                     end with
               | Some s => cons s <$> join rest
               | None => None
               end
           end) l
  | VObj o =>
      match o !! "toString" with
      | Some _ => None
      | None => Some "[object Object]"
      end
  end.

(** [v?.k]: optional chaining on a value that may be nullish.  Strings,
    numbers, booleans and arrays carry no own property of the names used
    in this file. *)
Definition opt_member (v : value) (k : string) : value :=
  match v with
  | VObj o => prop o k
  | _ => VUndefined
  end.

(** ** Outbound requests and thrown values *)

Inductive http_method : Type := GET | POST | PATCH | PUT | DELETE.

(** One call on the axios instance: [params] is the query-string object of
    the request configuration, [data] the request body; [VUndefined] when the
    call site passes none. *)
Record request : Type := Request {
  req_method : http_method;
  req_url : string;
  req_params : value;
  req_data : value;
}.

(** [error.response] of an axios error. *)
Record axios_response : Type := AxiosResponse {
  status : Z;
  data : value;
}.

(** What a [catch (error: any)] can receive: an axios error, whose
    [response] is missing when the request never completed, or a plain
    [Error] (also standing for the engine's [TypeError]). *)
Inductive thrown : Type :=
  | AxiosError (message : string) (response : option axios_response)
  | JsError (message : string).

Definition error_message (e : thrown) : string :=
  match e with
  | AxiosError m _ => m
  | JsError m => m
  end.

Definition error_response (e : thrown) : option axios_response :=
  match e with
  | AxiosError _ r => r
  | JsError _ => None
  end.

(** The remote API together with the transport: the answer to one request. *)
Definition remote_api : Type := request → thrown + value.

(** ** The effect monad: request log, remote oracle, exceptions *)

Definition M (A : Type) : Type :=
  remote_api → list request → (thrown + A) * list request.

Definition ret {A} (a : A) : M A := fun _ log => (inr a, log).

Definition throw {A} (e : thrown) : M A := fun _ log => (inl e, log).

Definition bind {A B} (m : M A) (f : A → M B) : M B :=
  fun remote log =>
    match m remote log with
    | (inl e, log') => (inl e, log')
    | (inr a, log') => f a remote log'
    end.

(** [try { body } catch (error) { handler }] *)
Definition try_catch {A} (body : M A) (handler : thrown → M A) : M A :=
  fun remote log =>
    match body remote log with
    | (inl e, log') => handler e remote log'
    | (inr a, log') => (inr a, log')
    end.

(** stdpp's monad notation [x ← m; k] for [M]. *)
#[global] Instance M_ret : MRet M := @ret.
#[global] Instance M_bind : MBind M := λ A B f m, bind m f.

(** [await axiosInstance.request(r)], then [response.data]. *)
Definition send (r : request) : M value :=
  fun remote log => (remote r, (log ++ [r])%list).

(** Run a handler against a remote with an empty log. *)
Definition run {A} (m : M A) (remote : remote_api) : (thrown + A) * list request :=
  m remote [].

(** ** Argument access *)

(** The tool arguments as the protocol delivers them: an object, or
    [undefined] when the request carries none. *)
Definition arg_value (typedArgs : option obj) : value :=
  match typedArgs with
  | Some o => VObj o
  | None => VUndefined
  end.

(** The engine's wording of the two [TypeError]s raised on [undefined]. *)
Definition cannot_read (k : string) : string :=
  "Cannot read properties of undefined (reading '" ++ k ++ "')".

Definition cannot_destructure (k : string) : string :=
  "Cannot destructure property '" ++ k ++ "' of 'params' as it is undefined.".

Definition cannot_convert : string :=
  "Cannot convert object to primitive value".

(** A substitution [${v}] of a template literal. *)
Definition subst (v : value) : M string :=
  match to_string v with
  | Some s => ret s
  | None => throw (JsError cannot_convert)
  end.

(** [typedArgs.k] *)
Definition member (typedArgs : option obj) (k : string) : M value :=
  match typedArgs with
  | Some o => ret (prop o k)
  | None => throw (JsError (cannot_read k))
  end.

(** [const { k, ... } = params]: the pattern needs an object to take apart;
    [k] is the first property the pattern names. *)
Definition destructure (params : option obj) (k : string) : M obj :=
  match params with
  | Some o => ret o
  | None => throw (JsError (cannot_destructure k))
  end.

(** ** The axios instance

    [axios_get url] is [get(url)], [axios_get_params url q] is
    [get(url, { params: q })], [axios_post_data url d] is [post(url, d)],
    [axios_delete_data url d] is [delete(url, { data: d })]. *)

Definition axios_get (url : string) : M value :=
  send (Request GET url VUndefined VUndefined).

Definition axios_get_params (url : string) (params : value) : M value :=
  send (Request GET url params VUndefined).

Definition axios_post (url : string) : M value :=
  send (Request POST url VUndefined VUndefined).

Definition axios_post_data (url : string) (body : value) : M value :=
  send (Request POST url VUndefined body).

Definition axios_patch_data (url : string) (body : value) : M value :=
  send (Request PATCH url VUndefined body).

Definition axios_put_data (url : string) (body : value) : M value :=
  send (Request PUT url VUndefined body).

Definition axios_delete (url : string) : M value :=
  send (Request DELETE url VUndefined VUndefined).

Definition axios_delete_data (url : string) (body : value) : M value :=
  send (Request DELETE url VUndefined body).

(** ** Remote call adapters

    One definition per private method of [FrontappMCPServer], in source
    order.  Each returns [response.data].  The substitutions of a URL
    template are converted left to right before the request is made. *)

Definition listConversations (params : option obj) : M value :=
  axios_get_params "/conversations" (arg_value params).

Definition getConversation (conversationId : value) : M value :=
  conversationId_text ← subst conversationId;
  axios_get ("/conversations/" ++ conversationId_text).

Definition searchConversations (query limit : value) : M value :=
  axios_get_params "/conversations/search"
    (VObj (<[ "limit" := limit ]> {[ "q" := query ]})).

Definition updateConversation (params : option obj) : M value :=
  p ← destructure params "conversation_id";
  let conversation_id := prop p "conversation_id" in
  let data := delete "conversation_id" p in
  conversation_id_text ← subst conversation_id;
  axios_patch_data ("/conversations/" ++ conversation_id_text) (VObj data).

Definition listConversationMessages (params : option obj) : M value :=
  p ← destructure params "conversation_id";
  let conversation_id := prop p "conversation_id" in
  let queryParams := delete "conversation_id" p in
  conversation_id_text ← subst conversation_id;
  axios_get_params ("/conversations/" ++ conversation_id_text ++ "/messages")
    (VObj queryParams).

Definition getMessage (messageId : value) : M value :=
  messageId_text ← subst messageId;
  axios_get ("/messages/" ++ messageId_text).

Definition sendMessage (params : option obj) : M value :=
  p ← destructure params "channel_id";
  let channel_id := prop p "channel_id" in
  let data := delete "channel_id" p in
  channel_id_text ← subst channel_id;
  axios_post_data ("/channels/" ++ channel_id_text ++ "/messages")
    (VObj data).

Definition replyToConversation (params : option obj) : M value :=
  p ← destructure params "conversation_id";
  let conversation_id := prop p "conversation_id" in
  let type := prop p "type" in
  let data := delete "type" (delete "conversation_id" p) in
  let endpoint := if strict_eq_str type "comment" then "comments" else "messages" in
  conversation_id_text ← subst conversation_id;
  axios_post_data ("/conversations/" ++ conversation_id_text ++ "/" ++ endpoint)
    (VObj data).

Definition listContacts (params : option obj) : M value :=
  axios_get_params "/contacts" (arg_value params).

Definition getContact (contactId : value) : M value :=
  contactId_text ← subst contactId;
  axios_get ("/contacts/" ++ contactId_text).

Definition createContact (params : option obj) : M value :=
  axios_post_data "/contacts" (arg_value params).

Definition updateContact (params : option obj) : M value :=
  p ← destructure params "contact_id";
  let contact_id := prop p "contact_id" in
  let data := delete "contact_id" p in
  contact_id_text ← subst contact_id;
  axios_patch_data ("/contacts/" ++ contact_id_text) (VObj data).

Definition listTeammates (params : option obj) : M value :=
  axios_get_params "/teammates" (arg_value params).

Definition getTeammate (teammateId : value) : M value :=
  teammateId_text ← subst teammateId;
  axios_get ("/teammates/" ++ teammateId_text).

Definition listTags (params : option obj) : M value :=
  axios_get_params "/tags" (arg_value params).

Definition createTag (params : option obj) : M value :=
  axios_post_data "/tags" (arg_value params).

Definition listInboxes (params : option obj) : M value :=
  axios_get_params "/inboxes" (arg_value params).

Definition getInbox (inboxId : value) : M value :=
  inboxId_text ← subst inboxId;
  axios_get ("/inboxes/" ++ inboxId_text).

Definition listConversationComments (conversationId : value) : M value :=
  conversationId_text ← subst conversationId;
  axios_get ("/conversations/" ++ conversationId_text ++ "/comments").

Definition addComment (params : option obj) : M value :=
  p ← destructure params "conversation_id";
  let conversation_id := prop p "conversation_id" in
  let data := delete "conversation_id" p in
  conversation_id_text ← subst conversation_id;
  axios_post_data ("/conversations/" ++ conversation_id_text ++ "/comments")
    (VObj data).

Definition getAnalytics (params : option obj) : M value :=
  axios_get_params "/analytics" (arg_value params).

Definition listAccounts (params : option obj) : M value :=
  axios_get_params "/accounts" (arg_value params).

Definition createAccount (params : option obj) : M value :=
  axios_post_data "/accounts" (arg_value params).

Definition getAccount (accountId : value) : M value :=
  accountId_text ← subst accountId;
  axios_get ("/accounts/" ++ accountId_text).

Definition updateAccount (params : option obj) : M value :=
  p ← destructure params "account_id";
  let account_id := prop p "account_id" in
  let data := delete "account_id" p in
  account_id_text ← subst account_id;
  axios_patch_data ("/accounts/" ++ account_id_text) (VObj data).

Definition deleteAccount (accountId : value) : M value :=
  accountId_text ← subst accountId;
  axios_delete ("/accounts/" ++ accountId_text).

Definition listAccountContacts (params : option obj) : M value :=
  p ← destructure params "account_id";
  let account_id := prop p "account_id" in
  let queryParams := delete "account_id" p in
  account_id_text ← subst account_id;
  axios_get_params ("/accounts/" ++ account_id_text ++ "/contacts")
    (VObj queryParams).

Definition addContactToAccount (params : option obj) : M value :=
  p ← destructure params "account_id";
  let account_id := prop p "account_id" in
  let contact_ids := prop p "contact_ids" in
  account_id_text ← subst account_id;
  axios_post_data ("/accounts/" ++ account_id_text ++ "/contacts")
    (VObj {[ "contact_ids" := contact_ids ]}).

Definition removeContactFromAccount (params : option obj) : M value :=
  p ← destructure params "account_id";
  let account_id := prop p "account_id" in
  let contact_ids := prop p "contact_ids" in
  account_id_text ← subst account_id;
  axios_delete_data ("/accounts/" ++ account_id_text ++ "/contacts")
    (VObj {[ "contact_ids" := contact_ids ]}).

Definition deleteContact (contactId : value) : M value :=
  contactId_text ← subst contactId;
  axios_delete ("/contacts/" ++ contactId_text).

Definition mergeContacts (params : option obj) : M value :=
  p ← destructure params "source_contact_id";
  let source_contact_id := prop p "source_contact_id" in
  let target_contact_id := prop p "target_contact_id" in
  axios_post_data "/contacts/merge"
    (VObj (<[ "target_contact_id" := target_contact_id ]> {[ "source_contact_id" := source_contact_id ]})).

Definition listContactConversations (params : option obj) : M value :=
  p ← destructure params "contact_id";
  let contact_id := prop p "contact_id" in
  let queryParams := delete "contact_id" p in
  contact_id_text ← subst contact_id;
  axios_get_params ("/contacts/" ++ contact_id_text ++ "/conversations")
    (VObj queryParams).

Definition listContactNotes (contactId : value) : M value :=
  contactId_text ← subst contactId;
  axios_get ("/contacts/" ++ contactId_text ++ "/notes").

Definition addContactNote (params : option obj) : M value :=
  p ← destructure params "contact_id";
  let contact_id := prop p "contact_id" in
  let data := delete "contact_id" p in
  contact_id_text ← subst contact_id;
  axios_post_data ("/contacts/" ++ contact_id_text ++ "/notes") (VObj data).

Definition addContactHandle (params : option obj) : M value :=
  p ← destructure params "contact_id";
  let contact_id := prop p "contact_id" in
  let handle := prop p "handle" in
  let source := prop p "source" in
  contact_id_text ← subst contact_id;
  axios_post_data ("/contacts/" ++ contact_id_text ++ "/handles")
    (VObj (<[ "source" := source ]> {[ "handle" := handle ]})).

Definition deleteContactHandle (params : option obj) : M value :=
  p ← destructure params "contact_id";
  let contact_id := prop p "contact_id" in
  let handle := prop p "handle" in
  let source := prop p "source" in
  contact_id_text ← subst contact_id;
  axios_delete_data ("/contacts/" ++ contact_id_text ++ "/handles")
    (VObj (<[ "source" := source ]> {[ "handle" := handle ]})).

Definition listTeammateContacts (params : option obj) : M value :=
  p ← destructure params "teammate_id";
  let teammate_id := prop p "teammate_id" in
  let queryParams := delete "teammate_id" p in
  teammate_id_text ← subst teammate_id;
  axios_get_params ("/teammates/" ++ teammate_id_text ++ "/contacts")
    (VObj queryParams).

Definition createTeammateContact (params : option obj) : M value :=
  p ← destructure params "teammate_id";
  let teammate_id := prop p "teammate_id" in
  let data := delete "teammate_id" p in
  teammate_id_text ← subst teammate_id;
  axios_post_data ("/teammates/" ++ teammate_id_text ++ "/contacts")
    (VObj data).

Definition listTeamContacts (params : option obj) : M value :=
  p ← destructure params "team_id";
  let team_id := prop p "team_id" in
  let queryParams := delete "team_id" p in
  team_id_text ← subst team_id;
  axios_get_params ("/teams/" ++ team_id_text ++ "/contacts")
    (VObj queryParams).

Definition listChannels (params : option obj) : M value :=
  axios_get_params "/channels" (arg_value params).

Definition createChannel (params : option obj) : M value :=
  axios_post_data "/channels" (arg_value params).

Definition getChannel (channelId : value) : M value :=
  channelId_text ← subst channelId;
  axios_get ("/channels/" ++ channelId_text).

Definition updateChannel (params : option obj) : M value :=
  p ← destructure params "channel_id";
  let channel_id := prop p "channel_id" in
  let data := delete "channel_id" p in
  channel_id_text ← subst channel_id;
  axios_patch_data ("/channels/" ++ channel_id_text) (VObj data).

Definition validateChannel (channelId : value) : M value :=
  channelId_text ← subst channelId;
  axios_post ("/channels/" ++ channelId_text ++ "/validate").

Definition listTeammateChannels (teammateId : value) : M value :=
  teammateId_text ← subst teammateId;
  axios_get ("/teammates/" ++ teammateId_text ++ "/channels").

Definition listTeamChannels (teamId : value) : M value :=
  teamId_text ← subst teamId;
  axios_get ("/teams/" ++ teamId_text ++ "/channels").

Definition syncInboundMessage (params : option obj) : M value :=
  p ← destructure params "channel_id";
  let channel_id := prop p "channel_id" in
  let data := delete "channel_id" p in
  channel_id_text ← subst channel_id;
  axios_post_data ("/channels/" ++ channel_id_text ++ "/inbound_messages")
    (VObj data).

Definition syncOutboundMessage (params : option obj) : M value :=
  p ← destructure params "channel_id";
  let channel_id := prop p "channel_id" in
  let data := delete "channel_id" p in
  channel_id_text ← subst channel_id;
  axios_post_data ("/channels/" ++ channel_id_text ++ "/outbound_messages")
    (VObj data).

Definition updateExternalMessageStatus (params : option obj) : M value :=
  p ← destructure params "channel_id";
  let channel_id := prop p "channel_id" in
  let message_id := prop p "message_id" in
  let status := prop p "status" in
  channel_id_text ← subst channel_id;
  message_id_text ← subst message_id;
  axios_put_data ("/channels/" ++ channel_id_text ++ "/messages/" ++ message_id_text ++ "/status")
    (VObj {[ "status" := status ]}).

Definition syncApplicationMessageTemplate (params : option obj) : M value :=
  p ← destructure params "channel_id";
  let channel_id := prop p "channel_id" in
  let template := prop p "template" in
  channel_id_text ← subst channel_id;
  axios_put_data ("/channels/" ++ channel_id_text ++ "/application_message_templates")
    template.

Definition getComment (commentId : value) : M value :=
  commentId_text ← subst commentId;
  axios_get ("/comments/" ++ commentId_text).

Definition updateComment (params : option obj) : M value :=
  p ← destructure params "comment_id";
  let comment_id := prop p "comment_id" in
  let body := prop p "body" in
  comment_id_text ← subst comment_id;
  axios_patch_data ("/comments/" ++ comment_id_text)
    (VObj {[ "body" := body ]}).

Definition listCommentMentions (commentId : value) : M value :=
  commentId_text ← subst commentId;
  axios_get ("/comments/" ++ commentId_text ++ "/mentions").

Definition addCommentReply (params : option obj) : M value :=
  p ← destructure params "comment_id";
  let comment_id := prop p "comment_id" in
  let data := delete "comment_id" p in
  comment_id_text ← subst comment_id;
  axios_post_data ("/comments/" ++ comment_id_text ++ "/replies") (VObj data).

Definition listContactGroups (params : option obj) : M value :=
  axios_get_params "/contact_groups" (arg_value params).

Definition createContactGroup (params : option obj) : M value :=
  axios_post_data "/contact_groups" (arg_value params).

Definition deleteContactGroup (groupId : value) : M value :=
  groupId_text ← subst groupId;
  axios_delete ("/contact_groups/" ++ groupId_text).

Definition listGroupContacts (groupId : value) : M value :=
  groupId_text ← subst groupId;
  axios_get ("/contact_groups/" ++ groupId_text ++ "/contacts").

Definition addContactsToGroup (params : option obj) : M value :=
  p ← destructure params "group_id";
  let group_id := prop p "group_id" in
  let contact_ids := prop p "contact_ids" in
  group_id_text ← subst group_id;
  axios_post_data ("/contact_groups/" ++ group_id_text ++ "/contacts")
    (VObj {[ "contact_ids" := contact_ids ]}).

Definition removeContactsFromGroup (params : option obj) : M value :=
  p ← destructure params "group_id";
  let group_id := prop p "group_id" in
  let contact_ids := prop p "contact_ids" in
  group_id_text ← subst group_id;
  axios_delete_data ("/contact_groups/" ++ group_id_text ++ "/contacts")
    (VObj {[ "contact_ids" := contact_ids ]}).

Definition listTeammateGroups (teammateId : value) : M value :=
  teammateId_text ← subst teammateId;
  axios_get ("/teammates/" ++ teammateId_text ++ "/contact_groups").

Definition createTeammateGroup (params : option obj) : M value :=
  p ← destructure params "teammate_id";
  let teammate_id := prop p "teammate_id" in
  let data := delete "teammate_id" p in
  teammate_id_text ← subst teammate_id;
  axios_post_data ("/teammates/" ++ teammate_id_text ++ "/contact_groups")
    (VObj data).

Definition listTeamGroups (teamId : value) : M value :=
  teamId_text ← subst teamId;
  axios_get ("/teams/" ++ teamId_text ++ "/contact_groups").

Definition createTeamGroup (params : option obj) : M value :=
  p ← destructure params "team_id";
  let team_id := prop p "team_id" in
  let data := delete "team_id" p in
  team_id_text ← subst team_id;
  axios_post_data ("/teams/" ++ team_id_text ++ "/contact_groups")
    (VObj data).

Definition listContactLists (params : option obj) : M value :=
  axios_get_params "/contact_lists" (arg_value params).

Definition createContactList (params : option obj) : M value :=
  axios_post_data "/contact_lists" (arg_value params).

Definition deleteContactList (listId : value) : M value :=
  listId_text ← subst listId;
  axios_delete ("/contact_lists/" ++ listId_text).

Definition listContactListContacts (params : option obj) : M value :=
  p ← destructure params "list_id";
  let list_id := prop p "list_id" in
  let queryParams := delete "list_id" p in
  list_id_text ← subst list_id;
  axios_get_params ("/contact_lists/" ++ list_id_text ++ "/contacts")
    (VObj queryParams).

Definition addContactsToList (params : option obj) : M value :=
  p ← destructure params "list_id";
  let list_id := prop p "list_id" in
  let contact_ids := prop p "contact_ids" in
  list_id_text ← subst list_id;
  axios_post_data ("/contact_lists/" ++ list_id_text ++ "/contacts")
    (VObj {[ "contact_ids" := contact_ids ]}).

Definition removeContactsFromList (params : option obj) : M value :=
  p ← destructure params "list_id";
  let list_id := prop p "list_id" in
  let contact_ids := prop p "contact_ids" in
  list_id_text ← subst list_id;
  axios_delete_data ("/contact_lists/" ++ list_id_text ++ "/contacts")
    (VObj {[ "contact_ids" := contact_ids ]}).

Definition listTeammateContactLists (teammateId : value) : M value :=
  teammateId_text ← subst teammateId;
  axios_get ("/teammates/" ++ teammateId_text ++ "/contact_lists").

Definition createTeammateContactList (params : option obj) : M value :=
  p ← destructure params "teammate_id";
  let teammate_id := prop p "teammate_id" in
  let data := delete "teammate_id" p in
  teammate_id_text ← subst teammate_id;
  axios_post_data ("/teammates/" ++ teammate_id_text ++ "/contact_lists")
    (VObj data).

Definition listTeamContactLists (teamId : value) : M value :=
  teamId_text ← subst teamId;
  axios_get ("/teams/" ++ teamId_text ++ "/contact_lists").

Definition createTeamContactList (params : option obj) : M value :=
  p ← destructure params "team_id";
  let team_id := prop p "team_id" in
  let data := delete "team_id" p in
  team_id_text ← subst team_id;
  axios_post_data ("/teams/" ++ team_id_text ++ "/contact_lists") (VObj data).

Definition createDiscussionConversation (params : option obj) : M value :=
  axios_post_data "/conversations" (arg_value params).

Definition updateConversationAssignee (params : option obj) : M value :=
  p ← destructure params "conversation_id";
  let conversation_id := prop p "conversation_id" in
  let assignee_id := prop p "assignee_id" in
  conversation_id_text ← subst conversation_id;
  axios_put_data ("/conversations/" ++ conversation_id_text ++ "/assignee")
    (VObj {[ "assignee_id" := assignee_id ]}).

Definition listConversationEvents (params : option obj) : M value :=
  p ← destructure params "conversation_id";
  let conversation_id := prop p "conversation_id" in
  let queryParams := delete "conversation_id" p in
  conversation_id_text ← subst conversation_id;
  axios_get_params ("/conversations/" ++ conversation_id_text ++ "/events")
    (VObj queryParams).

Definition listConversationFollowers (conversationId : value) : M value :=
  conversationId_text ← subst conversationId;
  axios_get ("/conversations/" ++ conversationId_text ++ "/followers").

Definition addConversationFollowers (params : option obj) : M value :=
  p ← destructure params "conversation_id";
  let conversation_id := prop p "conversation_id" in
  let teammate_ids := prop p "teammate_ids" in
  conversation_id_text ← subst conversation_id;
  axios_post_data ("/conversations/" ++ conversation_id_text ++ "/followers")
    (VObj {[ "teammate_ids" := teammate_ids ]}).

Definition deleteConversationFollowers (params : option obj) : M value :=
  p ← destructure params "conversation_id";
  let conversation_id := prop p "conversation_id" in
  let teammate_ids := prop p "teammate_ids" in
  conversation_id_text ← subst conversation_id;
  axios_delete_data ("/conversations/" ++ conversation_id_text ++ "/followers")
    (VObj {[ "teammate_ids" := teammate_ids ]}).

Definition listConversationInboxes (conversationId : value) : M value :=
  conversationId_text ← subst conversationId;
  axios_get ("/conversations/" ++ conversationId_text ++ "/inboxes").

Definition addConversationLink (params : option obj) : M value :=
  p ← destructure params "conversation_id";
  let conversation_id := prop p "conversation_id" in
  let link_ids := prop p "link_ids" in
  conversation_id_text ← subst conversation_id;
  axios_post_data ("/conversations/" ++ conversation_id_text ++ "/links")
    (VObj {[ "link_ids" := link_ids ]}).

Definition removeConversationLinks (params : option obj) : M value :=
  p ← destructure params "conversation_id";
  let conversation_id := prop p "conversation_id" in
  let link_ids := prop p "link_ids" in
  conversation_id_text ← subst conversation_id;
  axios_delete_data ("/conversations/" ++ conversation_id_text ++ "/links")
    (VObj {[ "link_ids" := link_ids ]}).

Definition updateConversationReminders (params : option obj) : M value :=
  p ← destructure params "conversation_id";
  let conversation_id := prop p "conversation_id" in
  let data := delete "conversation_id" p in
  conversation_id_text ← subst conversation_id;
  axios_patch_data ("/conversations/" ++ conversation_id_text ++ "/reminders")
    (VObj data).

Definition addConversationTag (params : option obj) : M value :=
  p ← destructure params "conversation_id";
  let conversation_id := prop p "conversation_id" in
  let tag_ids := prop p "tag_ids" in
  conversation_id_text ← subst conversation_id;
  axios_post_data ("/conversations/" ++ conversation_id_text ++ "/tags")
    (VObj {[ "tag_ids" := tag_ids ]}).

Definition removeConversationTag (params : option obj) : M value :=
  p ← destructure params "conversation_id";
  let conversation_id := prop p "conversation_id" in
  let tag_ids := prop p "tag_ids" in
  conversation_id_text ← subst conversation_id;
  axios_delete_data ("/conversations/" ++ conversation_id_text ++ "/tags")
    (VObj {[ "tag_ids" := tag_ids ]}).

Definition listAccountCustomFields : M value :=
  axios_get "/accounts/custom_fields".

Definition listContactCustomFields : M value :=
  axios_get "/contacts/custom_fields".

Definition listConversationCustomFields : M value :=
  axios_get "/conversations/custom_fields".

Definition listCustomFields : M value :=
  axios_get "/custom_fields".

Definition listInboxCustomFields : M value :=
  axios_get "/inboxes/custom_fields".

Definition listLinkCustomFields : M value :=
  axios_get "/links/custom_fields".

Definition listTeammateCustomFields : M value :=
  axios_get "/teammates/custom_fields".

Definition createDraft (params : option obj) : M value :=
  axios_post_data "/drafts" (arg_value params).

Definition listConversationDrafts (conversationId : value) : M value :=
  conversationId_text ← subst conversationId;
  axios_get ("/conversations/" ++ conversationId_text ++ "/drafts").

Definition createDraftReply (params : option obj) : M value :=
  p ← destructure params "channel_id";
  let channel_id := prop p "channel_id" in
  let data := delete "channel_id" p in
  channel_id_text ← subst channel_id;
  axios_post_data ("/channels/" ++ channel_id_text ++ "/drafts") (VObj data).

Definition deleteDraft (params : option obj) : M value :=
  p ← destructure params "draft_id";
  let draft_id := prop p "draft_id" in
  let version := prop p "version" in
  draft_id_text ← subst draft_id;
  axios_delete_data ("/drafts/" ++ draft_id_text)
    (VObj {[ "version" := version ]}).

Definition editDraft (params : option obj) : M value :=
  p ← destructure params "draft_id";
  let draft_id := prop p "draft_id" in
  let version := prop p "version" in
  let data := delete "version" (delete "draft_id" p) in
  draft_id_text ← subst draft_id;
  axios_patch_data ("/drafts/" ++ draft_id_text)
    (VObj (data ∪ {[ "version" := version ]})).

Definition listEvents (params : option obj) : M value :=
  axios_get_params "/events" (arg_value params).

Definition getEvent (eventId : value) : M value :=
  eventId_text ← subst eventId;
  axios_get ("/events/" ++ eventId_text).

Definition createInbox (params : option obj) : M value :=
  axios_post_data "/inboxes" (arg_value params).

Definition listInboxChannels (inboxId : value) : M value :=
  inboxId_text ← subst inboxId;
  axios_get ("/inboxes/" ++ inboxId_text ++ "/channels").

Definition listInboxConversations (params : option obj) : M value :=
  p ← destructure params "inbox_id";
  let inbox_id := prop p "inbox_id" in
  let queryParams := delete "inbox_id" p in
  inbox_id_text ← subst inbox_id;
  axios_get_params ("/inboxes/" ++ inbox_id_text ++ "/conversations")
    (VObj queryParams).

Definition listInboxAccess (inboxId : value) : M value :=
  inboxId_text ← subst inboxId;
  axios_get ("/inboxes/" ++ inboxId_text ++ "/access").

Definition addInboxAccess (params : option obj) : M value :=
  p ← destructure params "inbox_id";
  let inbox_id := prop p "inbox_id" in
  let teammate_ids := prop p "teammate_ids" in
  inbox_id_text ← subst inbox_id;
  axios_post_data ("/inboxes/" ++ inbox_id_text ++ "/access")
    (VObj {[ "teammate_ids" := teammate_ids ]}).

Definition removeInboxAccess (params : option obj) : M value :=
  p ← destructure params "inbox_id";
  let inbox_id := prop p "inbox_id" in
  let teammate_ids := prop p "teammate_ids" in
  inbox_id_text ← subst inbox_id;
  axios_delete_data ("/inboxes/" ++ inbox_id_text ++ "/access")
    (VObj {[ "teammate_ids" := teammate_ids ]}).

Definition listTeamInboxes (teamId : value) : M value :=
  teamId_text ← subst teamId;
  axios_get ("/teams/" ++ teamId_text ++ "/inboxes").

Definition createTeamInbox (params : option obj) : M value :=
  p ← destructure params "team_id";
  let team_id := prop p "team_id" in
  let data := delete "team_id" p in
  team_id_text ← subst team_id;
  axios_post_data ("/teams/" ++ team_id_text ++ "/inboxes") (VObj data).

Definition receiveCustomMessage (params : option obj) : M value :=
  p ← destructure params "channel_id";
  let channel_id := prop p "channel_id" in
  let data := delete "channel_id" p in
  channel_id_text ← subst channel_id;
  axios_post_data ("/channels/" ++ channel_id_text ++ "/incoming_messages")
    (VObj data).

Definition importMessage (params : option obj) : M value :=
  p ← destructure params "channel_id";
  let channel_id := prop p "channel_id" in
  let data := delete "channel_id" p in
  channel_id_text ← subst channel_id;
  axios_post_data ("/channels/" ++ channel_id_text ++ "/import") (VObj data).

Definition getMessageSeenStatus (messageId : value) : M value :=
  messageId_text ← subst messageId;
  axios_get ("/messages/" ++ messageId_text ++ "/seen").

Definition markMessageSeen (messageId : value) : M value :=
  messageId_text ← subst messageId;
  axios_post ("/messages/" ++ messageId_text ++ "/seen").

Definition listMessageTemplateFolders (params : option obj) : M value :=
  axios_get_params "/message_template_folders" (arg_value params).

Definition createMessageTemplateFolder (params : option obj) : M value :=
  axios_post_data "/message_template_folders" (arg_value params).

Definition getMessageTemplateFolder (folderId : value) : M value :=
  folderId_text ← subst folderId;
  axios_get ("/message_template_folders/" ++ folderId_text).

Definition updateMessageTemplateFolder (params : option obj) : M value :=
  p ← destructure params "folder_id";
  let folder_id := prop p "folder_id" in
  let data := delete "folder_id" p in
  folder_id_text ← subst folder_id;
  axios_patch_data ("/message_template_folders/" ++ folder_id_text)
    (VObj data).

Definition deleteMessageTemplateFolder (folderId : value) : M value :=
  folderId_text ← subst folderId;
  axios_delete ("/message_template_folders/" ++ folderId_text).

Definition listChildFolders (folderId : value) : M value :=
  folderId_text ← subst folderId;
  axios_get ("/message_template_folders/" ++ folderId_text ++ "/children").

Definition createChildFolder (params : option obj) : M value :=
  p ← destructure params "folder_id";
  let folder_id := prop p "folder_id" in
  let data := delete "folder_id" p in
  folder_id_text ← subst folder_id;
  axios_post_data ("/message_template_folders/" ++ folder_id_text ++ "/children")
    (VObj data).

Definition listTeammateFolders (teammateId : value) : M value :=
  teammateId_text ← subst teammateId;
  axios_get ("/teammates/" ++ teammateId_text ++ "/message_template_folders").

Definition createTeammateFolder (params : option obj) : M value :=
  p ← destructure params "teammate_id";
  let teammate_id := prop p "teammate_id" in
  let data := delete "teammate_id" p in
  teammate_id_text ← subst teammate_id;
  axios_post_data ("/teammates/" ++ teammate_id_text ++ "/message_template_folders")
    (VObj data).

Definition listTeamFolders (teamId : value) : M value :=
  teamId_text ← subst teamId;
  axios_get ("/teams/" ++ teamId_text ++ "/message_template_folders").

Definition listMessageTemplates (params : option obj) : M value :=
  axios_get_params "/message_templates" (arg_value params).

Definition createMessageTemplate (params : option obj) : M value :=
  axios_post_data "/message_templates" (arg_value params).

Definition getMessageTemplate (templateId : value) : M value :=
  templateId_text ← subst templateId;
  axios_get ("/message_templates/" ++ templateId_text).

Definition updateMessageTemplate (params : option obj) : M value :=
  p ← destructure params "template_id";
  let template_id := prop p "template_id" in
  let data := delete "template_id" p in
  template_id_text ← subst template_id;
  axios_patch_data ("/message_templates/" ++ template_id_text) (VObj data).

Definition deleteMessageTemplate (templateId : value) : M value :=
  templateId_text ← subst templateId;
  axios_delete ("/message_templates/" ++ templateId_text).

Definition listChildTemplates (templateId : value) : M value :=
  templateId_text ← subst templateId;
  axios_get ("/message_templates/" ++ templateId_text ++ "/children").

Definition createChildTemplate (params : option obj) : M value :=
  p ← destructure params "template_id";
  let template_id := prop p "template_id" in
  let data := delete "template_id" p in
  template_id_text ← subst template_id;
  axios_post_data ("/message_templates/" ++ template_id_text ++ "/children")
    (VObj data).

Definition getTag (tagId : value) : M value :=
  tagId_text ← subst tagId;
  axios_get ("/tags/" ++ tagId_text).

Definition updateTag (params : option obj) : M value :=
  p ← destructure params "tag_id";
  let tag_id := prop p "tag_id" in
  let data := delete "tag_id" p in
  tag_id_text ← subst tag_id;
  axios_patch_data ("/tags/" ++ tag_id_text) (VObj data).

Definition deleteTag (tagId : value) : M value :=
  tagId_text ← subst tagId;
  axios_delete ("/tags/" ++ tagId_text).

Definition listTagChildren (tagId : value) : M value :=
  tagId_text ← subst tagId;
  axios_get ("/tags/" ++ tagId_text ++ "/children").

Definition createChildTag (params : option obj) : M value :=
  p ← destructure params "tag_id";
  let tag_id := prop p "tag_id" in
  let data := delete "tag_id" p in
  tag_id_text ← subst tag_id;
  axios_post_data ("/tags/" ++ tag_id_text ++ "/children") (VObj data).

Definition listTaggedConversations (params : option obj) : M value :=
  p ← destructure params "tag_id";
  let tag_id := prop p "tag_id" in
  let queryParams := delete "tag_id" p in
  tag_id_text ← subst tag_id;
  axios_get_params ("/tags/" ++ tag_id_text ++ "/conversations")
    (VObj queryParams).

Definition listTeammateTags (teammateId : value) : M value :=
  teammateId_text ← subst teammateId;
  axios_get ("/teammates/" ++ teammateId_text ++ "/tags").

Definition createTeammateTag (params : option obj) : M value :=
  p ← destructure params "teammate_id";
  let teammate_id := prop p "teammate_id" in
  let data := delete "teammate_id" p in
  teammate_id_text ← subst teammate_id;
  axios_post_data ("/teammates/" ++ teammate_id_text ++ "/tags") (VObj data).

Definition listTeamTags (teamId : value) : M value :=
  teamId_text ← subst teamId;
  axios_get ("/teams/" ++ teamId_text ++ "/tags").

Definition createTeamTag (params : option obj) : M value :=
  p ← destructure params "team_id";
  let team_id := prop p "team_id" in
  let data := delete "team_id" p in
  team_id_text ← subst team_id;
  axios_post_data ("/teams/" ++ team_id_text ++ "/tags") (VObj data).

Definition updateTeammate (params : option obj) : M value :=
  p ← destructure params "teammate_id";
  let teammate_id := prop p "teammate_id" in
  let data := delete "teammate_id" p in
  teammate_id_text ← subst teammate_id;
  axios_patch_data ("/teammates/" ++ teammate_id_text) (VObj data).

Definition listTeammateConversations (params : option obj) : M value :=
  p ← destructure params "teammate_id";
  let teammate_id := prop p "teammate_id" in
  let queryParams := delete "teammate_id" p in
  teammate_id_text ← subst teammate_id;
  axios_get_params ("/teammates/" ++ teammate_id_text ++ "/conversations")
    (VObj queryParams).

Definition listTeammateInboxes (teammateId : value) : M value :=
  teammateId_text ← subst teammateId;
  axios_get ("/teammates/" ++ teammateId_text ++ "/inboxes").

(** ** The capability catalog

    The names of the descriptors returned by the [ListTools] handler, in
    declaration order.  Descriptions and input schemas are metadata for the
    client; the call handler never consults them. *)

Definition tool_names : list string :=
  [ "list_conversations"; "get_conversation"; "search_conversations";
    "update_conversation"; "list_conversation_messages"; "get_message";
    "send_message"; "reply_to_conversation"; "list_contacts"; "get_contact";
    "create_contact"; "update_contact"; "list_teammates"; "get_teammate";
    "list_tags"; "create_tag"; "list_inboxes"; "get_inbox";
    "list_conversation_comments"; "add_comment"; "get_analytics";
    "list_accounts"; "create_account"; "get_account"; "update_account";
    "delete_account"; "list_account_contacts"; "add_contact_to_account";
    "remove_contact_from_account"; "delete_contact"; "merge_contacts";
    "list_contact_conversations"; "list_contact_notes"; "add_contact_note";
    "add_contact_handle"; "delete_contact_handle"; "list_teammate_contacts";
    "create_teammate_contact"; "list_team_contacts"; "list_channels";
    "create_channel"; "get_channel"; "update_channel"; "validate_channel";
    "list_teammate_channels"; "list_team_channels"; "sync_inbound_message";
    "sync_outbound_message"; "update_external_message_status";
    "sync_application_message_template"; "get_comment"; "update_comment";
    "list_comment_mentions"; "add_comment_reply"; "list_contact_groups";
    "create_contact_group"; "delete_contact_group"; "list_group_contacts";
    "add_contacts_to_group"; "remove_contacts_from_group";
    "list_teammate_groups"; "create_teammate_group"; "list_team_groups";
    "create_team_group"; "list_contact_lists"; "create_contact_list";
    "delete_contact_list"; "list_contact_list_contacts";
    "add_contacts_to_list"; "remove_contacts_from_list";
    "list_teammate_contact_lists"; "create_teammate_contact_list";
    "list_team_contact_lists"; "create_team_contact_list";
    "create_discussion_conversation"; "update_conversation_assignee";
    "list_conversation_events"; "list_conversation_followers";
    "add_conversation_followers"; "delete_conversation_followers";
    "list_conversation_inboxes"; "add_conversation_link";
    "remove_conversation_links"; "update_conversation_reminders";
    "add_conversation_tag"; "remove_conversation_tag";
    "list_account_custom_fields"; "list_contact_custom_fields";
    "list_conversation_custom_fields"; "list_custom_fields";
    "list_inbox_custom_fields"; "list_link_custom_fields";
    "list_teammate_custom_fields"; "create_draft"; "list_conversation_drafts";
    "create_draft_reply"; "delete_draft"; "edit_draft"; "list_events";
    "get_event"; "create_inbox"; "list_inbox_channels";
    "list_inbox_conversations"; "list_inbox_access"; "add_inbox_access";
    "remove_inbox_access"; "list_team_inboxes"; "create_team_inbox";
    "receive_custom_message"; "import_message"; "get_message_seen_status";
    "mark_message_seen"; "list_message_template_folders";
    "create_message_template_folder"; "get_message_template_folder";
    "update_message_template_folder"; "delete_message_template_folder";
    "list_child_folders"; "create_child_folder"; "list_teammate_folders";
    "create_teammate_folder"; "list_team_folders"; "list_message_templates";
    "create_message_template"; "get_message_template";
    "update_message_template"; "delete_message_template";
    "list_child_templates"; "create_child_template"; "get_tag"; "update_tag";
    "delete_tag"; "list_tag_children"; "create_child_tag";
    "list_tagged_conversations"; "list_teammate_tags"; "create_teammate_tag";
    "list_team_tags"; "create_team_tag"; "update_teammate";
    "list_teammate_conversations"; "list_teammate_inboxes" ].

(** ** Dispatch

    The [switch (name)] of the call handler: every case ends in [break],
    so the statement is a first-match table from names to adapter calls,
    with the [default] branch throwing. *)

Definition tool_cases : list (string * (option obj → M value)) :=
  [ ("list_conversations", listConversations);
    ("get_conversation",
      (fun typedArgs =>
         conversation_id ← member typedArgs "conversation_id"; getConversation conversation_id));
    ("search_conversations",
      (fun typedArgs =>
         query ← member typedArgs "query"; limit ← member typedArgs "limit"; searchConversations query limit));
    ("update_conversation", updateConversation);
    ("list_conversation_messages", listConversationMessages);
    ("get_message",
      (fun typedArgs =>
         message_id ← member typedArgs "message_id"; getMessage message_id));
    ("send_message", sendMessage);
    ("reply_to_conversation", replyToConversation);
    ("list_contacts", listContacts);
    ("get_contact",
      (fun typedArgs =>
         contact_id ← member typedArgs "contact_id"; getContact contact_id));
    ("create_contact", createContact);
    ("update_contact", updateContact);
    ("list_teammates", listTeammates);
    ("get_teammate",
      (fun typedArgs =>
         teammate_id ← member typedArgs "teammate_id"; getTeammate teammate_id));
    ("list_tags", listTags);
    ("create_tag", createTag);
    ("list_inboxes", listInboxes);
    ("get_inbox",
      (fun typedArgs =>
         inbox_id ← member typedArgs "inbox_id"; getInbox inbox_id));
    ("list_conversation_comments",
      (fun typedArgs =>
         conversation_id ← member typedArgs "conversation_id"; listConversationComments conversation_id));
    ("add_comment", addComment);
    ("get_analytics", getAnalytics);
    ("list_accounts", listAccounts);
    ("create_account", createAccount);
    ("get_account",
      (fun typedArgs =>
         account_id ← member typedArgs "account_id"; getAccount account_id));
    ("update_account", updateAccount);
    ("delete_account",
      (fun typedArgs =>
         account_id ← member typedArgs "account_id"; deleteAccount account_id));
    ("list_account_contacts", listAccountContacts);
    ("add_contact_to_account", addContactToAccount);
    ("remove_contact_from_account", removeContactFromAccount);
    ("delete_contact",
      (fun typedArgs =>
         contact_id ← member typedArgs "contact_id"; deleteContact contact_id));
    ("merge_contacts", mergeContacts);
    ("list_contact_conversations", listContactConversations);
    ("list_contact_notes",
      (fun typedArgs =>
         contact_id ← member typedArgs "contact_id"; listContactNotes contact_id));
    ("add_contact_note", addContactNote);
    ("add_contact_handle", addContactHandle);
    ("delete_contact_handle", deleteContactHandle);
    ("list_teammate_contacts", listTeammateContacts);
    ("create_teammate_contact", createTeammateContact);
    ("list_team_contacts", listTeamContacts);
    ("list_channels", listChannels);
    ("create_channel", createChannel);
    ("get_channel",
      (fun typedArgs =>
         channel_id ← member typedArgs "channel_id"; getChannel channel_id));
    ("update_channel", updateChannel);
    ("validate_channel",
      (fun typedArgs =>
         channel_id ← member typedArgs "channel_id"; validateChannel channel_id));
    ("list_teammate_channels",
      (fun typedArgs =>
         teammate_id ← member typedArgs "teammate_id"; listTeammateChannels teammate_id));
    ("list_team_channels",
      (fun typedArgs =>
         team_id ← member typedArgs "team_id"; listTeamChannels team_id));
    ("sync_inbound_message", syncInboundMessage);
    ("sync_outbound_message", syncOutboundMessage);
    ("update_external_message_status", updateExternalMessageStatus);
    ("sync_application_message_template", syncApplicationMessageTemplate);
    ("get_comment",
      (fun typedArgs =>
         comment_id ← member typedArgs "comment_id"; getComment comment_id));
    ("update_comment", updateComment);
    ("list_comment_mentions",
      (fun typedArgs =>
         comment_id ← member typedArgs "comment_id"; listCommentMentions comment_id));
    ("add_comment_reply", addCommentReply);
    ("list_contact_groups", listContactGroups);
    ("create_contact_group", createContactGroup);
    ("delete_contact_group",
      (fun typedArgs =>
         group_id ← member typedArgs "group_id"; deleteContactGroup group_id));
    ("list_group_contacts",
      (fun typedArgs =>
         group_id ← member typedArgs "group_id"; listGroupContacts group_id));
    ("add_contacts_to_group", addContactsToGroup);
    ("remove_contacts_from_group", removeContactsFromGroup);
    ("list_teammate_groups",
      (fun typedArgs =>
         teammate_id ← member typedArgs "teammate_id"; listTeammateGroups teammate_id));
    ("create_teammate_group", createTeammateGroup);
    ("list_team_groups",
      (fun typedArgs =>
         team_id ← member typedArgs "team_id"; listTeamGroups team_id));
    ("create_team_group", createTeamGroup);
    ("list_contact_lists", listContactLists);
    ("create_contact_list", createContactList);
    ("delete_contact_list",
      (fun typedArgs =>
         list_id ← member typedArgs "list_id"; deleteContactList list_id));
    ("list_contact_list_contacts", listContactListContacts);
    ("add_contacts_to_list", addContactsToList);
    ("remove_contacts_from_list", removeContactsFromList);
    ("list_teammate_contact_lists",
      (fun typedArgs =>
         teammate_id ← member typedArgs "teammate_id"; listTeammateContactLists teammate_id));
    ("create_teammate_contact_list", createTeammateContactList);
    ("list_team_contact_lists",
      (fun typedArgs =>
         team_id ← member typedArgs "team_id"; listTeamContactLists team_id));
    ("create_team_contact_list", createTeamContactList);
    ("create_discussion_conversation", createDiscussionConversation);
    ("update_conversation_assignee", updateConversationAssignee);
    ("list_conversation_events", listConversationEvents);
    ("list_conversation_followers",
      (fun typedArgs =>
         conversation_id ← member typedArgs "conversation_id"; listConversationFollowers conversation_id));
    ("add_conversation_followers", addConversationFollowers);
    ("delete_conversation_followers", deleteConversationFollowers);
    ("list_conversation_inboxes",
      (fun typedArgs =>
         conversation_id ← member typedArgs "conversation_id"; listConversationInboxes conversation_id));
    ("add_conversation_link", addConversationLink);
    ("remove_conversation_links", removeConversationLinks);
    ("update_conversation_reminders", updateConversationReminders);
    ("add_conversation_tag", addConversationTag);
    ("remove_conversation_tag", removeConversationTag);
    ("list_account_custom_fields", (fun _ => listAccountCustomFields));
    ("list_contact_custom_fields", (fun _ => listContactCustomFields));
    ("list_conversation_custom_fields",
      (fun _ =>
         listConversationCustomFields));
    ("list_custom_fields", (fun _ => listCustomFields));
    ("list_inbox_custom_fields", (fun _ => listInboxCustomFields));
    ("list_link_custom_fields", (fun _ => listLinkCustomFields));
    ("list_teammate_custom_fields", (fun _ => listTeammateCustomFields));
    ("create_draft", createDraft);
    ("list_conversation_drafts",
      (fun typedArgs =>
         conversation_id ← member typedArgs "conversation_id"; listConversationDrafts conversation_id));
    ("create_draft_reply", createDraftReply);
    ("delete_draft", deleteDraft);
    ("edit_draft", editDraft);
    ("list_events", listEvents);
    ("get_event",
      (fun typedArgs =>
         event_id ← member typedArgs "event_id"; getEvent event_id));
    ("create_inbox", createInbox);
    ("list_inbox_channels",
      (fun typedArgs =>
         inbox_id ← member typedArgs "inbox_id"; listInboxChannels inbox_id));
    ("list_inbox_conversations", listInboxConversations);
    ("list_inbox_access",
      (fun typedArgs =>
         inbox_id ← member typedArgs "inbox_id"; listInboxAccess inbox_id));
    ("add_inbox_access", addInboxAccess);
    ("remove_inbox_access", removeInboxAccess);
    ("list_team_inboxes",
      (fun typedArgs =>
         team_id ← member typedArgs "team_id"; listTeamInboxes team_id));
    ("create_team_inbox", createTeamInbox);
    ("receive_custom_message", receiveCustomMessage);
    ("import_message", importMessage);
    ("get_message_seen_status",
      (fun typedArgs =>
         message_id ← member typedArgs "message_id"; getMessageSeenStatus message_id));
    ("mark_message_seen",
      (fun typedArgs =>
         message_id ← member typedArgs "message_id"; markMessageSeen message_id));
    ("list_message_template_folders", listMessageTemplateFolders);
    ("create_message_template_folder", createMessageTemplateFolder);
    ("get_message_template_folder",
      (fun typedArgs =>
         folder_id ← member typedArgs "folder_id"; getMessageTemplateFolder folder_id));
    ("update_message_template_folder", updateMessageTemplateFolder);
    ("delete_message_template_folder",
      (fun typedArgs =>
         folder_id ← member typedArgs "folder_id"; deleteMessageTemplateFolder folder_id));
    ("list_child_folders",
      (fun typedArgs =>
         folder_id ← member typedArgs "folder_id"; listChildFolders folder_id));
    ("create_child_folder", createChildFolder);
    ("list_teammate_folders",
      (fun typedArgs =>
         teammate_id ← member typedArgs "teammate_id"; listTeammateFolders teammate_id));
    ("create_teammate_folder", createTeammateFolder);
    ("list_team_folders",
      (fun typedArgs =>
         team_id ← member typedArgs "team_id"; listTeamFolders team_id));
    ("list_message_templates", listMessageTemplates);
    ("create_message_template", createMessageTemplate);
    ("get_message_template",
      (fun typedArgs =>
         template_id ← member typedArgs "template_id"; getMessageTemplate template_id));
    ("update_message_template", updateMessageTemplate);
    ("delete_message_template",
      (fun typedArgs =>
         template_id ← member typedArgs "template_id"; deleteMessageTemplate template_id));
    ("list_child_templates",
      (fun typedArgs =>
         template_id ← member typedArgs "template_id"; listChildTemplates template_id));
    ("create_child_template", createChildTemplate);
    ("get_tag",
      (fun typedArgs =>
         tag_id ← member typedArgs "tag_id"; getTag tag_id));
    ("update_tag", updateTag);
    ("delete_tag",
      (fun typedArgs =>
         tag_id ← member typedArgs "tag_id"; deleteTag tag_id));
    ("list_tag_children",
      (fun typedArgs =>
         tag_id ← member typedArgs "tag_id"; listTagChildren tag_id));
    ("create_child_tag", createChildTag);
    ("list_tagged_conversations", listTaggedConversations);
    ("list_teammate_tags",
      (fun typedArgs =>
         teammate_id ← member typedArgs "teammate_id"; listTeammateTags teammate_id));
    ("create_teammate_tag", createTeammateTag);
    ("list_team_tags",
      (fun typedArgs =>
         team_id ← member typedArgs "team_id"; listTeamTags team_id));
    ("create_team_tag", createTeamTag);
    ("update_teammate", updateTeammate);
    ("list_teammate_conversations", listTeammateConversations);
    ("list_teammate_inboxes",
      (fun typedArgs =>
         teammate_id ← member typedArgs "teammate_id"; listTeammateInboxes teammate_id)) ].

Fixpoint find_case {H : Type} (name : string) (cases : list (string * H)) : option H :=
  match cases with
  | [] => None
  | (n, h) :: rest => if String.eqb name n then Some h else find_case name rest
  end.

Definition dispatch (name : string) (typedArgs : option obj) : M value :=
  match find_case name tool_cases with
  | Some handler => handler typedArgs
  | None => throw (JsError ("Unknown tool: " ++ name))
  end.

(** ** Response envelopes *)

(** The [text] of a content item: a string built by the handler, or the
    text [JSON.stringify(v, null, 2)] of a value.  The engine's encoder is
    kept symbolic. *)
Inductive js_text : Type :=
  | Text (s : string)
  | JSON_stringify (v : value).

(** [{ content: [{ type: 'text', text }], isError }]; [isError] is [None]
    when the property is not set. *)
Record tool_response : Type := ToolResponse {
  content : list js_text;
  isError : option bool;
}.

(** [error.response?.data?.message] *)
Definition response_data_message (error : thrown) : value :=
  match error_response error with
  | Some response => opt_member (data response) "message"
  | None => VUndefined
  end.

(** The [CallToolRequestSchema] handler. *)
Definition call_tool (name : string) (args : option obj) : M tool_response :=
  let typedArgs := args in
  try_catch
    (result ← dispatch name typedArgs;
     ret {| content := [JSON_stringify result]; isError := None |})
    (fun error =>
       let errorMessage :=
         js_or (response_data_message error) (VStr (error_message error)) in
       errorMessage_text ← subst errorMessage;
       ret {| content := [Text ("Error: " ++ errorMessage_text)];
              isError := Some true |}).

(** ** Resources *)

Record resource_content : Type := ResourceContent {
  uri : string;
  mimeType : string;
  text : js_text;
}.

(** The [ReadResourceRequestSchema] handler. *)
Definition read_resource (uri : string) : M (list resource_content) :=
  if String.eqb uri "frontapp://conversations/recent" then
    response_data ← axios_get_params "/conversations" (VObj {[ "limit" := VNum "20" ]});
    ret [ResourceContent uri "application/json" (JSON_stringify response_data)]
  else if String.eqb uri "frontapp://teammates" then
    response_data ← axios_get "/teammates";
    ret [ResourceContent uri "application/json" (JSON_stringify response_data)]
  else if String.eqb uri "frontapp://inboxes" then
    response_data ← axios_get "/inboxes";
    ret [ResourceContent uri "application/json" (JSON_stringify response_data)]
  else if String.eqb uri "frontapp://tags" then
    response_data ← axios_get "/tags";
    ret [ResourceContent uri "application/json" (JSON_stringify response_data)]
  else
    throw (JsError ("Unknown resource: " ++ uri)).

(** The URIs announced by the [ListResources] handler. *)
Definition resource_uris : list string :=
  [ "frontapp://conversations/recent"; "frontapp://teammates";
    "frontapp://inboxes"; "frontapp://tags" ].

(** ** Process start *)

Definition API_BASE_URL : string := "https://api2.frontapp.com".

(** What the constructor fixes for the lifetime of the process: the axios
    base URL and default headers. *)
Record FrontappMCPServer : Type := {
  baseURL : string;
  authorization : string;
  content_type : string;
}.

Definition new_FrontappMCPServer (apiToken : string) : FrontappMCPServer :=
  {| baseURL := API_BASE_URL;
     authorization := "Bearer " ++ apiToken;
     content_type := "application/json" |}.

(** How the top-level script leaves start-up: [process.exit(code)] after
    writing to standard error, or a server connected to the transport. *)
Inductive process : Type :=
  | Exited (code : Z) (stderr : list string)
  | Serving (server : FrontappMCPServer) (stderr : list string).

(** The main execution block; [env] is [process.env].  [!apiToken] holds
    for a missing variable and for the empty string. *)
Definition main (env : gmap string string) : process :=
  let apiToken := env !! "FRONTAPP_API_TOKEN" in
  match apiToken with
  | None =>
      Exited 1 ["Error: FRONTAPP_API_TOKEN environment variable is required"]
  | Some token =>
      if String.eqb token "" then
        Exited 1 ["Error: FRONTAPP_API_TOKEN environment variable is required"]
      else
        Serving (new_FrontappMCPServer token)
                ["Frontapp MCP server running on stdio"]
  end.

(** ** Discovery

    The two listing handlers answer from literals and issue no request. *)

Definition dquote : string := String (Ascii.ascii_of_nat 34) EmptyString.

(** An object literal [{ k1: v1, ..., kn: vn }]: members are set left to
    right, a repeated key keeping its last value. *)
Definition js_object (members : list (string * value)) : value :=
  VObj (foldl (λ o member, <[member.1 := member.2]> o) ∅ members).

(** The descriptors of the [ListTools] handler, in declaration order. *)
Definition tools : list value :=
  [ js_object
      [ ("name", VStr "list_conversations");
        ("description", VStr "List conversations in Front. Returns conversations in reverse chronological order (most recently updated first). Supports pagination and filtering via query parameter.");
        ("inputSchema",
         js_object
          [ ("type", VStr "object");
            ("properties",
             js_object
              [ ("limit",
                 js_object [("type", VStr "number"); ("description", VStr "Number of results (max 100, default 50)")]);
                ("page_token",
                 js_object [("type", VStr "string"); ("description", VStr "Pagination token from previous response")]);
                ("q",
                 js_object [("type", VStr "string"); ("description", VStr ("Query string for filtering (e.g., " ++ dquote ++ "status:archived" ++ dquote ++ ")"))]) ]) ]) ];
    js_object
      [ ("name", VStr "get_conversation");
        ("description", VStr "Get details of a specific conversation by ID");
        ("inputSchema",
         js_object
          [ ("type", VStr "object");
            ("properties",
             js_object
              [ ("conversation_id",
                 js_object [("type", VStr "string"); ("description", VStr "Conversation ID (e.g., cnv_abc123)")]) ]);
            ("required", VArr [VStr "conversation_id"]) ]) ];
    js_object
      [ ("name", VStr "search_conversations");
        ("description", VStr "Search for conversations using Front search syntax. Supports complex queries with status, tags, assignees, etc.");
        ("inputSchema",
         js_object
          [ ("type", VStr "object");
            ("properties",
             js_object
              [ ("query",
                 js_object [("type", VStr "string"); ("description", VStr ("Search query (e.g., " ++ dquote ++ "tag:urgent status:open" ++ dquote ++ ")"))]);
                ("limit",
                 js_object [("type", VStr "number"); ("description", VStr "Number of results (max 100, default 50)")]) ]);
            ("required", VArr [VStr "query"]) ]) ];
    js_object
      [ ("name", VStr "update_conversation");
        ("description", VStr "Update conversation properties like assignee, tags, status");
        ("inputSchema",
         js_object
          [ ("type", VStr "object");
            ("properties",
             js_object
              [ ("conversation_id",
                 js_object [("type", VStr "string"); ("description", VStr "Conversation ID")]);
                ("assignee_id",
                 js_object [("type", VStr "string"); ("description", VStr "Teammate ID to assign")]);
                ("status",
                 js_object
                  [ ("type", VStr "string");
                    ("enum", VArr [VStr "archived"; VStr "deleted"; VStr "open"]);
                    ("description", VStr "Conversation status") ]);
                ("tag_ids",
                 js_object
                  [ ("type", VStr "array");
                    ("items", js_object [("type", VStr "string")]);
                    ("description", VStr "Array of tag IDs") ]) ]);
            ("required", VArr [VStr "conversation_id"]) ]) ];
    js_object
      [ ("name", VStr "list_conversation_messages");
        ("description", VStr "List all messages in a conversation in reverse chronological order (newest first)");
        ("inputSchema",
         js_object
          [ ("type", VStr "object");
            ("properties",
             js_object
              [ ("conversation_id",
                 js_object [("type", VStr "string"); ("description", VStr "Conversation ID")]);
                ("limit",
                 js_object [("type", VStr "number"); ("description", VStr "Number of results (max 100, default 50)")]);
                ("page_token",
                 js_object [("type", VStr "string"); ("description", VStr "Pagination token")]) ]);
            ("required", VArr [VStr "conversation_id"]) ]) ];
    js_object
      [ ("name", VStr "get_message");
        ("description", VStr "Get details of a specific message by ID");
        ("inputSchema",
         js_object
          [ ("type", VStr "object");
            ("properties",
             js_object
              [ ("message_id",
                 js_object [("type", VStr "string"); ("description", VStr "Message ID (e.g., msg_abc123)")]) ]);
            ("required", VArr [VStr "message_id"]) ]) ];
    js_object
      [ ("name", VStr "send_message");
        ("description", VStr "Send a new message to a channel (creates a new conversation)");
        ("inputSchema",
         js_object
          [ ("type", VStr "object");
            ("properties",
             js_object
              [ ("channel_id",
                 js_object [("type", VStr "string"); ("description", VStr "Channel ID to send from")]);
                ("to",
                 js_object
                  [ ("type", VStr "array");
                    ("items", js_object [("type", VStr "string")]);
                    ("description", VStr "Recipient email addresses or handles") ]);
                ("subject",
                 js_object [("type", VStr "string"); ("description", VStr "Message subject")]);
                ("body",
                 js_object [("type", VStr "string"); ("description", VStr "Message body (text or HTML)")]);
                ("text",
                 js_object [("type", VStr "string"); ("description", VStr "Plain text version of body")]);
                ("cc",
                 js_object
                  [ ("type", VStr "array");
                    ("items", js_object [("type", VStr "string")]);
                    ("description", VStr "CC recipients") ]);
                ("bcc",
                 js_object
                  [ ("type", VStr "array");
                    ("items", js_object [("type", VStr "string")]);
                    ("description", VStr "BCC recipients") ]);
                ("tag_ids",
                 js_object
                  [ ("type", VStr "array");
                    ("items", js_object [("type", VStr "string")]);
                    ("description", VStr "Tags to apply") ]) ]);
            ("required", VArr [VStr "channel_id"; VStr "to"; VStr "body"]) ]) ];
    js_object
      [ ("name", VStr "reply_to_conversation");
        ("description", VStr "Send a reply to an existing conversation");
        ("inputSchema",
         js_object
          [ ("type", VStr "object");
            ("properties",
             js_object
              [ ("conversation_id",
                 js_object [("type", VStr "string"); ("description", VStr "Conversation ID to reply to")]);
                ("type",
                 js_object
                  [ ("type", VStr "string");
                    ("enum", VArr [VStr "comment"; VStr "reply"]);
                    ("description", VStr "Type of reply") ]);
                ("body",
                 js_object [("type", VStr "string"); ("description", VStr "Reply body")]);
                ("text",
                 js_object [("type", VStr "string"); ("description", VStr "Plain text version")]);
                ("author_id",
                 js_object [("type", VStr "string"); ("description", VStr "Teammate ID sending the reply")]);
                ("channel_id",
                 js_object [("type", VStr "string"); ("description", VStr "Channel to send from (required for reply type)")]) ]);
            ("required", VArr [VStr "conversation_id"; VStr "type"; VStr "body"]) ]) ];
    js_object
      [ ("name", VStr "list_contacts");
        ("description", VStr "List contacts in Front with pagination support");
        ("inputSchema",
         js_object
          [ ("type", VStr "object");
            ("properties",
             js_object
              [ ("limit",
                 js_object [("type", VStr "number"); ("description", VStr "Number of results (max 100, default 50)")]);
                ("page_token",
                 js_object [("type", VStr "string"); ("description", VStr "Pagination token")]);
                ("sort_by",
                 js_object [("type", VStr "string"); ("description", VStr "Sort field")]);
                ("sort_order",
                 js_object
                  [ ("type", VStr "string");
                    ("enum", VArr [VStr "asc"; VStr "desc"]);
                    ("description", VStr "Sort order") ]) ]) ]) ];
    js_object
      [ ("name", VStr "get_contact");
        ("description", VStr "Get details of a specific contact by ID");
        ("inputSchema",
         js_object
          [ ("type", VStr "object");
            ("properties",
             js_object
              [ ("contact_id",
                 js_object [("type", VStr "string"); ("description", VStr "Contact ID (e.g., crd_abc123)")]) ]);
            ("required", VArr [VStr "contact_id"]) ]) ];
    js_object
      [ ("name", VStr "create_contact");
        ("description", VStr "Create a new contact in Front");
        ("inputSchema",
         js_object
          [ ("type", VStr "object");
            ("properties",
             js_object
              [ ("name",
                 js_object [("type", VStr "string"); ("description", VStr "Contact name")]);
                ("description",
                 js_object [("type", VStr "string"); ("description", VStr "Contact description")]);
                ("handles",
                 js_object
                  [ ("type", VStr "array");
                    ("items",
                     js_object
                      [ ("type", VStr "object");
                        ("properties",
                         js_object
                          [ ("handle",
                             js_object [("type", VStr "string"); ("description", VStr "Email, phone, or social handle")]);
                            ("source",
                             js_object [("type", VStr "string"); ("description", VStr "Source type (email, phone, twitter, etc.)")]) ]) ]);
                    ("description", VStr "Contact handles (email, phone, etc.)") ]);
                ("custom_fields",
                 js_object [("type", VStr "object"); ("description", VStr "Custom field key-value pairs")]) ]);
            ("required", VArr [VStr "handles"]) ]) ];
    js_object
      [ ("name", VStr "update_contact");
        ("description", VStr "Update an existing contact");
        ("inputSchema",
         js_object
          [ ("type", VStr "object");
            ("properties",
             js_object
              [ ("contact_id",
                 js_object [("type", VStr "string"); ("description", VStr "Contact ID")]);
                ("name",
                 js_object [("type", VStr "string"); ("description", VStr "Updated name")]);
                ("description",
                 js_object [("type", VStr "string"); ("description", VStr "Updated description")]);
                ("handles",
                 js_object
                  [ ("type", VStr "array");
                    ("items", js_object [("type", VStr "object")]);
                    ("description", VStr "Updated handles") ]);
                ("custom_fields",
                 js_object [("type", VStr "object"); ("description", VStr "Updated custom fields")]) ]);
            ("required", VArr [VStr "contact_id"]) ]) ];
    js_object
      [ ("name", VStr "list_teammates");
        ("description", VStr "List all teammates in the Front account");
        ("inputSchema",
         js_object
          [ ("type", VStr "object");
            ("properties",
             js_object
              [ ("limit",
                 js_object [("type", VStr "number"); ("description", VStr "Number of results")]);
                ("page_token",
                 js_object [("type", VStr "string"); ("description", VStr "Pagination token")]) ]) ]) ];
    js_object
      [ ("name", VStr "get_teammate");
        ("description", VStr "Get details of a specific teammate by ID");
        ("inputSchema",
         js_object
          [ ("type", VStr "object");
            ("properties",
             js_object
              [ ("teammate_id",
                 js_object [("type", VStr "string"); ("description", VStr "Teammate ID (e.g., tea_abc123)")]) ]);
            ("required", VArr [VStr "teammate_id"]) ]) ];
    js_object
      [ ("name", VStr "list_tags");
        ("description", VStr "List all tags in the Front account");
        ("inputSchema",
         js_object
          [ ("type", VStr "object");
            ("properties",
             js_object
              [ ("limit",
                 js_object [("type", VStr "number"); ("description", VStr "Number of results")]);
                ("page_token",
                 js_object [("type", VStr "string"); ("description", VStr "Pagination token")]) ]) ]) ];
    js_object
      [ ("name", VStr "create_tag");
        ("description", VStr "Create a new tag");
        ("inputSchema",
         js_object
          [ ("type", VStr "object");
            ("properties",
             js_object
              [ ("name",
                 js_object [("type", VStr "string"); ("description", VStr "Tag name")]);
                ("highlight",
                 js_object
                  [ ("type", VStr "string");
                    ("enum",
                     VArr
                      [ VStr "grey";
                        VStr "pink";
                        VStr "red";
                        VStr "orange";
                        VStr "yellow";
                        VStr "green";
                        VStr "light-blue";
                        VStr "blue";
                        VStr "purple" ]);
                    ("description", VStr "Tag color") ]);
                ("is_private",
                 js_object [("type", VStr "boolean"); ("description", VStr "Whether tag is private")]) ]);
            ("required", VArr [VStr "name"]) ]) ];
    js_object
      [ ("name", VStr "list_inboxes");
        ("description", VStr "List all inboxes accessible to the API token");
        ("inputSchema",
         js_object
          [ ("type", VStr "object");
            ("properties",
             js_object
              [ ("limit",
                 js_object [("type", VStr "number"); ("description", VStr "Number of results")]);
                ("page_token",
                 js_object [("type", VStr "string"); ("description", VStr "Pagination token")]) ]) ]) ];
    js_object
      [ ("name", VStr "get_inbox");
        ("description", VStr "Get details of a specific inbox by ID");
        ("inputSchema",
         js_object
          [ ("type", VStr "object");
            ("properties",
             js_object
              [ ("inbox_id",
                 js_object [("type", VStr "string"); ("description", VStr "Inbox ID (e.g., inb_abc123)")]) ]);
            ("required", VArr [VStr "inbox_id"]) ]) ];
    js_object
      [ ("name", VStr "list_conversation_comments");
        ("description", VStr "List all comments (internal discussions) in a conversation");
        ("inputSchema",
         js_object
          [ ("type", VStr "object");
            ("properties",
             js_object
              [ ("conversation_id",
                 js_object [("type", VStr "string"); ("description", VStr "Conversation ID")]) ]);
            ("required", VArr [VStr "conversation_id"]) ]) ];
    js_object
      [ ("name", VStr "add_comment");
        ("description", VStr "Add an internal comment to a conversation");
        ("inputSchema",
         js_object
          [ ("type", VStr "object");
            ("properties",
             js_object
              [ ("conversation_id",
                 js_object [("type", VStr "string"); ("description", VStr "Conversation ID")]);
                ("body",
                 js_object [("type", VStr "string"); ("description", VStr "Comment body")]);
                ("author_id",
                 js_object [("type", VStr "string"); ("description", VStr "Teammate ID posting the comment")]) ]);
            ("required", VArr [VStr "conversation_id"; VStr "body"]) ]) ];
    js_object
      [ ("name", VStr "get_analytics");
        ("description", VStr "Get analytics data for conversations, messages, or teammates");
        ("inputSchema",
         js_object
          [ ("type", VStr "object");
            ("properties",
             js_object
              [ ("start",
                 js_object [("type", VStr "number"); ("description", VStr "Start timestamp (Unix time)")]);
                ("end",
                 js_object [("type", VStr "number"); ("description", VStr "End timestamp (Unix time)")]);
                ("metrics",
                 js_object
                  [ ("type", VStr "array");
                    ("items", js_object [("type", VStr "string")]);
                    ("description", VStr "Metrics to retrieve (e.g., avg_first_response_time)") ]);
                ("filters",
                 js_object [("type", VStr "object"); ("description", VStr "Filters to apply")]) ]);
            ("required", VArr [VStr "start"; VStr "end"]) ]) ];
    js_object
      [ ("name", VStr "list_accounts");
        ("description", VStr "List all accounts in Front");
        ("inputSchema",
         js_object
          [ ("type", VStr "object");
            ("properties",
             js_object
              [ ("limit",
                 js_object [("type", VStr "number"); ("description", VStr "Number of results (max 100, default 50)")]);
                ("page_token",
                 js_object [("type", VStr "string"); ("description", VStr "Pagination token")]) ]) ]) ];
    js_object
      [ ("name", VStr "create_account");
        ("description", VStr "Create a new account");
        ("inputSchema",
         js_object
          [ ("type", VStr "object");
            ("properties",
             js_object
              [ ("name",
                 js_object [("type", VStr "string"); ("description", VStr "Account name")]);
                ("description",
                 js_object [("type", VStr "string"); ("description", VStr "Account description")]);
                ("domains",
                 js_object
                  [ ("type", VStr "array");
                    ("items", js_object [("type", VStr "string")]);
                    ("description", VStr "Account domains") ]);
                ("custom_fields",
                 js_object [("type", VStr "object"); ("description", VStr "Custom field key-value pairs")]) ]);
            ("required", VArr [VStr "name"]) ]) ];
    js_object
      [ ("name", VStr "get_account");
        ("description", VStr "Get details of a specific account by ID");
        ("inputSchema",
         js_object
          [ ("type", VStr "object");
            ("properties",
             js_object
              [ ("account_id",
                 js_object [("type", VStr "string"); ("description", VStr "Account ID")]) ]);
            ("required", VArr [VStr "account_id"]) ]) ];
    js_object
      [ ("name", VStr "update_account");
        ("description", VStr "Update an existing account");
        ("inputSchema",
         js_object
          [ ("type", VStr "object");
            ("properties",
             js_object
              [ ("account_id",
                 js_object [("type", VStr "string"); ("description", VStr "Account ID")]);
                ("name",
                 js_object [("type", VStr "string"); ("description", VStr "Updated name")]);
                ("description",
                 js_object [("type", VStr "string"); ("description", VStr "Updated description")]);
                ("domains",
                 js_object
                  [ ("type", VStr "array");
                    ("items", js_object [("type", VStr "string")]);
                    ("description", VStr "Updated domains") ]);
                ("custom_fields",
                 js_object [("type", VStr "object"); ("description", VStr "Updated custom fields")]) ]);
            ("required", VArr [VStr "account_id"]) ]) ];
    js_object
      [ ("name", VStr "delete_account");
        ("description", VStr "Delete an account");
        ("inputSchema",
         js_object
          [ ("type", VStr "object");
            ("properties",
             js_object
              [ ("account_id",
                 js_object [("type", VStr "string"); ("description", VStr "Account ID")]) ]);
            ("required", VArr [VStr "account_id"]) ]) ];
    js_object
      [ ("name", VStr "list_account_contacts");
        ("description", VStr "List all contacts associated with an account");
        ("inputSchema",
         js_object
          [ ("type", VStr "object");
            ("properties",
             js_object
              [ ("account_id",
                 js_object [("type", VStr "string"); ("description", VStr "Account ID")]);
                ("limit",
                 js_object [("type", VStr "number"); ("description", VStr "Number of results")]);
                ("page_token",
                 js_object [("type", VStr "string"); ("description", VStr "Pagination token")]) ]);
            ("required", VArr [VStr "account_id"]) ]) ];
    js_object
      [ ("name", VStr "add_contact_to_account");
        ("description", VStr "Add a contact to an account");
        ("inputSchema",
         js_object
          [ ("type", VStr "object");
            ("properties",
             js_object
              [ ("account_id",
                 js_object [("type", VStr "string"); ("description", VStr "Account ID")]);
                ("contact_ids",
                 js_object
                  [ ("type", VStr "array");
                    ("items", js_object [("type", VStr "string")]);
                    ("description", VStr "Contact IDs to add") ]) ]);
            ("required", VArr [VStr "account_id"; VStr "contact_ids"]) ]) ];
    js_object
      [ ("name", VStr "remove_contact_from_account");
        ("description", VStr "Remove a contact from an account");
        ("inputSchema",
         js_object
          [ ("type", VStr "object");
            ("properties",
             js_object
              [ ("account_id",
                 js_object [("type", VStr "string"); ("description", VStr "Account ID")]);
                ("contact_ids",
                 js_object
                  [ ("type", VStr "array");
                    ("items", js_object [("type", VStr "string")]);
                    ("description", VStr "Contact IDs to remove") ]) ]);
            ("required", VArr [VStr "account_id"; VStr "contact_ids"]) ]) ];
    js_object
      [ ("name", VStr "delete_contact");
        ("description", VStr "Delete a contact");
        ("inputSchema",
         js_object
          [ ("type", VStr "object");
            ("properties",
             js_object
              [ ("contact_id",
                 js_object [("type", VStr "string"); ("description", VStr "Contact ID")]) ]);
            ("required", VArr [VStr "contact_id"]) ]) ];
    js_object
      [ ("name", VStr "merge_contacts");
        ("description", VStr "Merge two contacts into one");
        ("inputSchema",
         js_object
          [ ("type", VStr "object");
            ("properties",
             js_object
              [ ("source_contact_id",
                 js_object [("type", VStr "string"); ("description", VStr "Contact ID to merge from (will be deleted)")]);
                ("target_contact_id",
                 js_object [("type", VStr "string"); ("description", VStr "Contact ID to merge into (will be kept)")]) ]);
            ("required", VArr [VStr "source_contact_id"; VStr "target_contact_id"]) ]) ];
    js_object
      [ ("name", VStr "list_contact_conversations");
        ("description", VStr "List all conversations for a contact");
        ("inputSchema",
         js_object
          [ ("type", VStr "object");
            ("properties",
             js_object
              [ ("contact_id",
                 js_object [("type", VStr "string"); ("description", VStr "Contact ID")]);
                ("limit",
                 js_object [("type", VStr "number"); ("description", VStr "Number of results")]);
                ("page_token",
                 js_object [("type", VStr "string"); ("description", VStr "Pagination token")]) ]);
            ("required", VArr [VStr "contact_id"]) ]) ];
    js_object
      [ ("name", VStr "list_contact_notes");
        ("description", VStr "List all notes for a contact");
        ("inputSchema",
         js_object
          [ ("type", VStr "object");
            ("properties",
             js_object
              [ ("contact_id",
                 js_object [("type", VStr "string"); ("description", VStr "Contact ID")]) ]);
            ("required", VArr [VStr "contact_id"]) ]) ];
    js_object
      [ ("name", VStr "add_contact_note");
        ("description", VStr "Add a note to a contact");
        ("inputSchema",
         js_object
          [ ("type", VStr "object");
            ("properties",
             js_object
              [ ("contact_id",
                 js_object [("type", VStr "string"); ("description", VStr "Contact ID")]);
                ("body",
                 js_object [("type", VStr "string"); ("description", VStr "Note content")]);
                ("author_id",
                 js_object [("type", VStr "string"); ("description", VStr "Teammate ID creating the note")]) ]);
            ("required", VArr [VStr "contact_id"; VStr "body"]) ]) ];
    js_object
      [ ("name", VStr "add_contact_handle");
        ("description", VStr "Add a handle (email, phone, etc.) to a contact");
        ("inputSchema",
         js_object
          [ ("type", VStr "object");
            ("properties",
             js_object
              [ ("contact_id",
                 js_object [("type", VStr "string"); ("description", VStr "Contact ID")]);
                ("handle",
                 js_object [("type", VStr "string"); ("description", VStr "Handle value (email, phone, etc.)")]);
                ("source",
                 js_object [("type", VStr "string"); ("description", VStr "Handle source type (email, phone, twitter, etc.)")]) ]);
            ("required", VArr [VStr "contact_id"; VStr "handle"; VStr "source"]) ]) ];
    js_object
      [ ("name", VStr "delete_contact_handle");
        ("description", VStr "Delete a handle from a contact");
        ("inputSchema",
         js_object
          [ ("type", VStr "object");
            ("properties",
             js_object
              [ ("contact_id",
                 js_object [("type", VStr "string"); ("description", VStr "Contact ID")]);
                ("handle",
                 js_object [("type", VStr "string"); ("description", VStr "Handle to remove")]);
                ("source",
                 js_object [("type", VStr "string"); ("description", VStr "Handle source type")]) ]);
            ("required", VArr [VStr "contact_id"; VStr "handle"; VStr "source"]) ]) ];
    js_object
      [ ("name", VStr "list_teammate_contacts");
        ("description", VStr "List contacts for a specific teammate");
        ("inputSchema",
         js_object
          [ ("type", VStr "object");
            ("properties",
             js_object
              [ ("teammate_id",
                 js_object [("type", VStr "string"); ("description", VStr "Teammate ID")]);
                ("limit",
                 js_object [("type", VStr "number"); ("description", VStr "Number of results")]);
                ("page_token",
                 js_object [("type", VStr "string"); ("description", VStr "Pagination token")]) ]);
            ("required", VArr [VStr "teammate_id"]) ]) ];
    js_object
      [ ("name", VStr "create_teammate_contact");
        ("description", VStr "Create a contact scoped to a teammate");
        ("inputSchema",
         js_object
          [ ("type", VStr "object");
            ("properties",
             js_object
              [ ("teammate_id",
                 js_object [("type", VStr "string"); ("description", VStr "Teammate ID")]);
                ("name",
                 js_object [("type", VStr "string"); ("description", VStr "Contact name")]);
                ("handles",
                 js_object
                  [ ("type", VStr "array");
                    ("items", js_object [("type", VStr "object")]);
                    ("description", VStr "Contact handles") ]) ]);
            ("required", VArr [VStr "teammate_id"; VStr "handles"]) ]) ];
    js_object
      [ ("name", VStr "list_team_contacts");
        ("description", VStr "List contacts for a specific team");
        ("inputSchema",
         js_object
          [ ("type", VStr "object");
            ("properties",
             js_object
              [ ("team_id",
                 js_object [("type", VStr "string"); ("description", VStr "Team ID")]);
                ("limit",
                 js_object [("type", VStr "number"); ("description", VStr "Number of results")]);
                ("page_token",
                 js_object [("type", VStr "string"); ("description", VStr "Pagination token")]) ]);
            ("required", VArr [VStr "team_id"]) ]) ];
    js_object
      [ ("name", VStr "list_channels");
        ("description", VStr "List all channels");
        ("inputSchema",
         js_object
          [ ("type", VStr "object");
            ("properties",
             js_object
              [ ("limit",
                 js_object [("type", VStr "number"); ("description", VStr "Number of results")]);
                ("page_token",
                 js_object [("type", VStr "string"); ("description", VStr "Pagination token")]) ]) ]) ];
    js_object
      [ ("name", VStr "create_channel");
        ("description", VStr "Create a new channel");
        ("inputSchema",
         js_object
          [ ("type", VStr "object");
            ("properties",
             js_object
              [ ("type",
                 js_object [("type", VStr "string"); ("description", VStr "Channel type (smtp, imap, twilio, custom, etc.)")]);
                ("settings",
                 js_object [("type", VStr "object"); ("description", VStr "Channel-specific settings")]);
                ("inbox_id",
                 js_object [("type", VStr "string"); ("description", VStr "Inbox ID to associate with")]) ]);
            ("required", VArr [VStr "type"; VStr "settings"]) ]) ];
    js_object
      [ ("name", VStr "get_channel");
        ("description", VStr "Get details of a specific channel");
        ("inputSchema",
         js_object
          [ ("type", VStr "object");
            ("properties",
             js_object
              [ ("channel_id",
                 js_object [("type", VStr "string"); ("description", VStr "Channel ID")]) ]);
            ("required", VArr [VStr "channel_id"]) ]) ];
    js_object
      [ ("name", VStr "update_channel");
        ("description", VStr "Update a channel");
        ("inputSchema",
         js_object
          [ ("type", VStr "object");
            ("properties",
             js_object
              [ ("channel_id",
                 js_object [("type", VStr "string"); ("description", VStr "Channel ID")]);
                ("settings",
                 js_object [("type", VStr "object"); ("description", VStr "Updated channel settings")]) ]);
            ("required", VArr [VStr "channel_id"]) ]) ];
    js_object
      [ ("name", VStr "validate_channel");
        ("description", VStr "Validate channel configuration");
        ("inputSchema",
         js_object
          [ ("type", VStr "object");
            ("properties",
             js_object
              [ ("channel_id",
                 js_object [("type", VStr "string"); ("description", VStr "Channel ID")]) ]);
            ("required", VArr [VStr "channel_id"]) ]) ];
    js_object
      [ ("name", VStr "list_teammate_channels");
        ("description", VStr "List channels for a specific teammate");
        ("inputSchema",
         js_object
          [ ("type", VStr "object");
            ("properties",
             js_object
              [ ("teammate_id",
                 js_object [("type", VStr "string"); ("description", VStr "Teammate ID")]) ]);
            ("required", VArr [VStr "teammate_id"]) ]) ];
    js_object
      [ ("name", VStr "list_team_channels");
        ("description", VStr "List channels for a specific team");
        ("inputSchema",
         js_object
          [ ("type", VStr "object");
            ("properties",
             js_object
              [ ("team_id",
                 js_object [("type", VStr "string"); ("description", VStr "Team ID")]) ]);
            ("required", VArr [VStr "team_id"]) ]) ];
    js_object
      [ ("name", VStr "sync_inbound_message");
        ("description", VStr "Sync an inbound message to a custom channel");
        ("inputSchema",
         js_object
          [ ("type", VStr "object");
            ("properties",
             js_object
              [ ("channel_id",
                 js_object [("type", VStr "string"); ("description", VStr "Channel ID")]);
                ("sender",
                 js_object [("type", VStr "object"); ("description", VStr "Sender information")]);
                ("subject",
                 js_object [("type", VStr "string"); ("description", VStr "Message subject")]);
                ("body",
                 js_object [("type", VStr "string"); ("description", VStr "Message body")]);
                ("body_format",
                 js_object
                  [ ("type", VStr "string");
                    ("enum", VArr [VStr "html"; VStr "markdown"]);
                    ("description", VStr "Body format") ]);
                ("metadata",
                 js_object [("type", VStr "object"); ("description", VStr "Message metadata")]) ]);
            ("required", VArr [VStr "channel_id"; VStr "sender"; VStr "body"]) ]) ];
    js_object
      [ ("name", VStr "sync_outbound_message");
        ("description", VStr "Sync an outbound message to a custom channel");
        ("inputSchema",
         js_object
          [ ("type", VStr "object");
            ("properties",
             js_object
              [ ("channel_id",
                 js_object [("type", VStr "string"); ("description", VStr "Channel ID")]);
                ("to",
                 js_object
                  [ ("type", VStr "array");
                    ("items", js_object [("type", VStr "string")]);
                    ("description", VStr "Recipients") ]);
                ("subject",
                 js_object [("type", VStr "string"); ("description", VStr "Message subject")]);
                ("body",
                 js_object [("type", VStr "string"); ("description", VStr "Message body")]);
                ("metadata",
                 js_object [("type", VStr "object"); ("description", VStr "Message metadata")]) ]);
            ("required", VArr [VStr "channel_id"; VStr "to"; VStr "body"]) ]) ];
    js_object
      [ ("name", VStr "update_external_message_status");
        ("description", VStr "Update the status of an external message");
        ("inputSchema",
         js_object
          [ ("type", VStr "object");
            ("properties",
             js_object
              [ ("channel_id",
                 js_object [("type", VStr "string"); ("description", VStr "Channel ID")]);
                ("message_id",
                 js_object [("type", VStr "string"); ("description", VStr "Message ID")]);
                ("status",
                 js_object
                  [ ("type", VStr "string");
                    ("enum", VArr [VStr "delivered"; VStr "bounced"; VStr "opened"]);
                    ("description", VStr "Message status") ]) ]);
            ("required", VArr [VStr "channel_id"; VStr "message_id"; VStr "status"]) ]) ];
    js_object
      [ ("name", VStr "sync_application_message_template");
        ("description", VStr "Sync an application message template");
        ("inputSchema",
         js_object
          [ ("type", VStr "object");
            ("properties",
             js_object
              [ ("channel_id",
                 js_object [("type", VStr "string"); ("description", VStr "Channel ID")]);
                ("template",
                 js_object [("type", VStr "object"); ("description", VStr "Template data")]) ]);
            ("required", VArr [VStr "channel_id"; VStr "template"]) ]) ];
    js_object
      [ ("name", VStr "get_comment");
        ("description", VStr "Get a specific comment by ID");
        ("inputSchema",
         js_object
          [ ("type", VStr "object");
            ("properties",
             js_object
              [ ("comment_id",
                 js_object [("type", VStr "string"); ("description", VStr "Comment ID")]) ]);
            ("required", VArr [VStr "comment_id"]) ]) ];
    js_object
      [ ("name", VStr "update_comment");
        ("description", VStr "Update a comment");
        ("inputSchema",
         js_object
          [ ("type", VStr "object");
            ("properties",
             js_object
              [ ("comment_id",
                 js_object [("type", VStr "string"); ("description", VStr "Comment ID")]);
                ("body",
                 js_object [("type", VStr "string"); ("description", VStr "Updated comment body")]) ]);
            ("required", VArr [VStr "comment_id"; VStr "body"]) ]) ];
    js_object
      [ ("name", VStr "list_comment_mentions");
        ("description", VStr "List all mentions in a comment");
        ("inputSchema",
         js_object
          [ ("type", VStr "object");
            ("properties",
             js_object
              [ ("comment_id",
                 js_object [("type", VStr "string"); ("description", VStr "Comment ID")]) ]);
            ("required", VArr [VStr "comment_id"]) ]) ];
    js_object
      [ ("name", VStr "add_comment_reply");
        ("description", VStr "Add a reply to a comment");
        ("inputSchema",
         js_object
          [ ("type", VStr "object");
            ("properties",
             js_object
              [ ("comment_id",
                 js_object [("type", VStr "string"); ("description", VStr "Comment ID to reply to")]);
                ("body",
                 js_object [("type", VStr "string"); ("description", VStr "Reply body")]);
                ("author_id",
                 js_object [("type", VStr "string"); ("description", VStr "Teammate ID posting the reply")]) ]);
            ("required", VArr [VStr "comment_id"; VStr "body"]) ]) ];
    js_object
      [ ("name", VStr "list_contact_groups");
        ("description", VStr "List all contact groups (deprecated - use contact lists)");
        ("inputSchema",
         js_object
          [ ("type", VStr "object");
            ("properties",
             js_object
              [ ("limit",
                 js_object [("type", VStr "number"); ("description", VStr "Number of results")]);
                ("page_token",
                 js_object [("type", VStr "string"); ("description", VStr "Pagination token")]) ]) ]) ];
    js_object
      [ ("name", VStr "create_contact_group");
        ("description", VStr "Create a new contact group (deprecated - use contact lists)");
        ("inputSchema",
         js_object
          [ ("type", VStr "object");
            ("properties",
             js_object
              [ ("name",
                 js_object [("type", VStr "string"); ("description", VStr "Group name")]) ]);
            ("required", VArr [VStr "name"]) ]) ];
    js_object
      [ ("name", VStr "delete_contact_group");
        ("description", VStr "Delete a contact group");
        ("inputSchema",
         js_object
          [ ("type", VStr "object");
            ("properties",
             js_object
              [ ("group_id",
                 js_object [("type", VStr "string"); ("description", VStr "Group ID")]) ]);
            ("required", VArr [VStr "group_id"]) ]) ];
    js_object
      [ ("name", VStr "list_group_contacts");
        ("description", VStr "List contacts in a contact group");
        ("inputSchema",
         js_object
          [ ("type", VStr "object");
            ("properties",
             js_object
              [ ("group_id",
                 js_object [("type", VStr "string"); ("description", VStr "Group ID")]) ]);
            ("required", VArr [VStr "group_id"]) ]) ];
    js_object
      [ ("name", VStr "add_contacts_to_group");
        ("description", VStr "Add contacts to a contact group");
        ("inputSchema",
         js_object
          [ ("type", VStr "object");
            ("properties",
             js_object
              [ ("group_id",
                 js_object [("type", VStr "string"); ("description", VStr "Group ID")]);
                ("contact_ids",
                 js_object
                  [ ("type", VStr "array");
                    ("items", js_object [("type", VStr "string")]);
                    ("description", VStr "Contact IDs to add") ]) ]);
            ("required", VArr [VStr "group_id"; VStr "contact_ids"]) ]) ];
    js_object
      [ ("name", VStr "remove_contacts_from_group");
        ("description", VStr "Remove contacts from a contact group");
        ("inputSchema",
         js_object
          [ ("type", VStr "object");
            ("properties",
             js_object
              [ ("group_id",
                 js_object [("type", VStr "string"); ("description", VStr "Group ID")]);
                ("contact_ids",
                 js_object
                  [ ("type", VStr "array");
                    ("items", js_object [("type", VStr "string")]);
                    ("description", VStr "Contact IDs to remove") ]) ]);
            ("required", VArr [VStr "group_id"; VStr "contact_ids"]) ]) ];
    js_object
      [ ("name", VStr "list_teammate_groups");
        ("description", VStr "List contact groups for a teammate");
        ("inputSchema",
         js_object
          [ ("type", VStr "object");
            ("properties",
             js_object
              [ ("teammate_id",
                 js_object [("type", VStr "string"); ("description", VStr "Teammate ID")]) ]);
            ("required", VArr [VStr "teammate_id"]) ]) ];
    js_object
      [ ("name", VStr "create_teammate_group");
        ("description", VStr "Create a contact group for a teammate");
        ("inputSchema",
         js_object
          [ ("type", VStr "object");
            ("properties",
             js_object
              [ ("teammate_id",
                 js_object [("type", VStr "string"); ("description", VStr "Teammate ID")]);
                ("name",
                 js_object [("type", VStr "string"); ("description", VStr "Group name")]) ]);
            ("required", VArr [VStr "teammate_id"; VStr "name"]) ]) ];
    js_object
      [ ("name", VStr "list_team_groups");
        ("description", VStr "List contact groups for a team");
        ("inputSchema",
         js_object
          [ ("type", VStr "object");
            ("properties",
             js_object
              [ ("team_id",
                 js_object [("type", VStr "string"); ("description", VStr "Team ID")]) ]);
            ("required", VArr [VStr "team_id"]) ]) ];
    js_object
      [ ("name", VStr "create_team_group");
        ("description", VStr "Create a contact group for a team");
        ("inputSchema",
         js_object
          [ ("type", VStr "object");
            ("properties",
             js_object
              [ ("team_id",
                 js_object [("type", VStr "string"); ("description", VStr "Team ID")]);
                ("name",
                 js_object [("type", VStr "string"); ("description", VStr "Group name")]) ]);
            ("required", VArr [VStr "team_id"; VStr "name"]) ]) ];
    js_object
      [ ("name", VStr "list_contact_lists");
        ("description", VStr "List all contact lists");
        ("inputSchema",
         js_object
          [ ("type", VStr "object");
            ("properties",
             js_object
              [ ("limit",
                 js_object [("type", VStr "number"); ("description", VStr "Number of results")]);
                ("page_token",
                 js_object [("type", VStr "string"); ("description", VStr "Pagination token")]) ]) ]) ];
    js_object
      [ ("name", VStr "create_contact_list");
        ("description", VStr "Create a new contact list");
        ("inputSchema",
         js_object
          [ ("type", VStr "object");
            ("properties",
             js_object
              [ ("name",
                 js_object [("type", VStr "string"); ("description", VStr "List name")]);
                ("is_private",
                 js_object [("type", VStr "boolean"); ("description", VStr "Whether list is private")]) ]);
            ("required", VArr [VStr "name"]) ]) ];
    js_object
      [ ("name", VStr "delete_contact_list");
        ("description", VStr "Delete a contact list");
        ("inputSchema",
         js_object
          [ ("type", VStr "object");
            ("properties",
             js_object
              [ ("list_id",
                 js_object [("type", VStr "string"); ("description", VStr "List ID")]) ]);
            ("required", VArr [VStr "list_id"]) ]) ];
    js_object
      [ ("name", VStr "list_contact_list_contacts");
        ("description", VStr "List contacts in a contact list");
        ("inputSchema",
         js_object
          [ ("type", VStr "object");
            ("properties",
             js_object
              [ ("list_id",
                 js_object [("type", VStr "string"); ("description", VStr "List ID")]);
                ("limit",
                 js_object [("type", VStr "number"); ("description", VStr "Number of results")]);
                ("page_token",
                 js_object [("type", VStr "string"); ("description", VStr "Pagination token")]) ]);
            ("required", VArr [VStr "list_id"]) ]) ];
    js_object
      [ ("name", VStr "add_contacts_to_list");
        ("description", VStr "Add contacts to a contact list");
        ("inputSchema",
         js_object
          [ ("type", VStr "object");
            ("properties",
             js_object
              [ ("list_id",
                 js_object [("type", VStr "string"); ("description", VStr "List ID")]);
                ("contact_ids",
                 js_object
                  [ ("type", VStr "array");
                    ("items", js_object [("type", VStr "string")]);
                    ("description", VStr "Contact IDs to add") ]) ]);
            ("required", VArr [VStr "list_id"; VStr "contact_ids"]) ]) ];
    js_object
      [ ("name", VStr "remove_contacts_from_list");
        ("description", VStr "Remove contacts from a contact list");
        ("inputSchema",
         js_object
          [ ("type", VStr "object");
            ("properties",
             js_object
              [ ("list_id",
                 js_object [("type", VStr "string"); ("description", VStr "List ID")]);
                ("contact_ids",
                 js_object
                  [ ("type", VStr "array");
                    ("items", js_object [("type", VStr "string")]);
                    ("description", VStr "Contact IDs to remove") ]) ]);
            ("required", VArr [VStr "list_id"; VStr "contact_ids"]) ]) ];
    js_object
      [ ("name", VStr "list_teammate_contact_lists");
        ("description", VStr "List contact lists for a teammate");
        ("inputSchema",
         js_object
          [ ("type", VStr "object");
            ("properties",
             js_object
              [ ("teammate_id",
                 js_object [("type", VStr "string"); ("description", VStr "Teammate ID")]) ]);
            ("required", VArr [VStr "teammate_id"]) ]) ];
    js_object
      [ ("name", VStr "create_teammate_contact_list");
        ("description", VStr "Create a contact list for a teammate");
        ("inputSchema",
         js_object
          [ ("type", VStr "object");
            ("properties",
             js_object
              [ ("teammate_id",
                 js_object [("type", VStr "string"); ("description", VStr "Teammate ID")]);
                ("name",
                 js_object [("type", VStr "string"); ("description", VStr "List name")]) ]);
            ("required", VArr [VStr "teammate_id"; VStr "name"]) ]) ];
    js_object
      [ ("name", VStr "list_team_contact_lists");
        ("description", VStr "List contact lists for a team");
        ("inputSchema",
         js_object
          [ ("type", VStr "object");
            ("properties",
             js_object
              [ ("team_id",
                 js_object [("type", VStr "string"); ("description", VStr "Team ID")]) ]);
            ("required", VArr [VStr "team_id"]) ]) ];
    js_object
      [ ("name", VStr "create_team_contact_list");
        ("description", VStr "Create a contact list for a team");
        ("inputSchema",
         js_object
          [ ("type", VStr "object");
            ("properties",
             js_object
              [ ("team_id",
                 js_object [("type", VStr "string"); ("description", VStr "Team ID")]);
                ("name",
                 js_object [("type", VStr "string"); ("description", VStr "List name")]) ]);
            ("required", VArr [VStr "team_id"; VStr "name"]) ]) ];
    js_object
      [ ("name", VStr "create_discussion_conversation");
        ("description", VStr "Create a new discussion conversation");
        ("inputSchema",
         js_object
          [ ("type", VStr "object");
            ("properties",
             js_object
              [ ("teammate_ids",
                 js_object
                  [ ("type", VStr "array");
                    ("items", js_object [("type", VStr "string")]);
                    ("description", VStr "Teammate IDs to include") ]);
                ("subject",
                 js_object [("type", VStr "string"); ("description", VStr "Discussion subject")]);
                ("comment_body",
                 js_object [("type", VStr "string"); ("description", VStr "Initial comment body")]) ]);
            ("required", VArr [VStr "teammate_ids"; VStr "comment_body"]) ]) ];
    js_object
      [ ("name", VStr "update_conversation_assignee");
        ("description", VStr "Update the assignee of a conversation");
        ("inputSchema",
         js_object
          [ ("type", VStr "object");
            ("properties",
             js_object
              [ ("conversation_id",
                 js_object [("type", VStr "string"); ("description", VStr "Conversation ID")]);
                ("assignee_id",
                 js_object [("type", VStr "string"); ("description", VStr "Teammate ID to assign (null to unassign)")]) ]);
            ("required", VArr [VStr "conversation_id"; VStr "assignee_id"]) ]) ];
    js_object
      [ ("name", VStr "list_conversation_events");
        ("description", VStr "List all events for a conversation");
        ("inputSchema",
         js_object
          [ ("type", VStr "object");
            ("properties",
             js_object
              [ ("conversation_id",
                 js_object [("type", VStr "string"); ("description", VStr "Conversation ID")]);
                ("limit",
                 js_object [("type", VStr "number"); ("description", VStr "Number of results")]);
                ("page_token",
                 js_object [("type", VStr "string"); ("description", VStr "Pagination token")]) ]);
            ("required", VArr [VStr "conversation_id"]) ]) ];
    js_object
      [ ("name", VStr "list_conversation_followers");
        ("description", VStr "List all followers of a conversation");
        ("inputSchema",
         js_object
          [ ("type", VStr "object");
            ("properties",
             js_object
              [ ("conversation_id",
                 js_object [("type", VStr "string"); ("description", VStr "Conversation ID")]) ]);
            ("required", VArr [VStr "conversation_id"]) ]) ];
    js_object
      [ ("name", VStr "add_conversation_followers");
        ("description", VStr "Add followers to a conversation");
        ("inputSchema",
         js_object
          [ ("type", VStr "object");
            ("properties",
             js_object
              [ ("conversation_id",
                 js_object [("type", VStr "string"); ("description", VStr "Conversation ID")]);
                ("teammate_ids",
                 js_object
                  [ ("type", VStr "array");
                    ("items", js_object [("type", VStr "string")]);
                    ("description", VStr "Teammate IDs to add as followers") ]) ]);
            ("required", VArr [VStr "conversation_id"; VStr "teammate_ids"]) ]) ];
    js_object
      [ ("name", VStr "delete_conversation_followers");
        ("description", VStr "Remove followers from a conversation");
        ("inputSchema",
         js_object
          [ ("type", VStr "object");
            ("properties",
             js_object
              [ ("conversation_id",
                 js_object [("type", VStr "string"); ("description", VStr "Conversation ID")]);
                ("teammate_ids",
                 js_object
                  [ ("type", VStr "array");
                    ("items", js_object [("type", VStr "string")]);
                    ("description", VStr "Teammate IDs to remove") ]) ]);
            ("required", VArr [VStr "conversation_id"; VStr "teammate_ids"]) ]) ];
    js_object
      [ ("name", VStr "list_conversation_inboxes");
        ("description", VStr "List all inboxes associated with a conversation");
        ("inputSchema",
         js_object
          [ ("type", VStr "object");
            ("properties",
             js_object
              [ ("conversation_id",
                 js_object [("type", VStr "string"); ("description", VStr "Conversation ID")]) ]);
            ("required", VArr [VStr "conversation_id"]) ]) ];
    js_object
      [ ("name", VStr "add_conversation_link");
        ("description", VStr "Add a link to a conversation");
        ("inputSchema",
         js_object
          [ ("type", VStr "object");
            ("properties",
             js_object
              [ ("conversation_id",
                 js_object [("type", VStr "string"); ("description", VStr "Conversation ID")]);
                ("link_ids",
                 js_object
                  [ ("type", VStr "array");
                    ("items", js_object [("type", VStr "string")]);
                    ("description", VStr "Link IDs to add") ]) ]);
            ("required", VArr [VStr "conversation_id"; VStr "link_ids"]) ]) ];
    js_object
      [ ("name", VStr "remove_conversation_links");
        ("description", VStr "Remove links from a conversation");
        ("inputSchema",
         js_object
          [ ("type", VStr "object");
            ("properties",
             js_object
              [ ("conversation_id",
                 js_object [("type", VStr "string"); ("description", VStr "Conversation ID")]);
                ("link_ids",
                 js_object
                  [ ("type", VStr "array");
                    ("items", js_object [("type", VStr "string")]);
                    ("description", VStr "Link IDs to remove") ]) ]);
            ("required", VArr [VStr "conversation_id"; VStr "link_ids"]) ]) ];
    js_object
      [ ("name", VStr "update_conversation_reminders");
        ("description", VStr "Update reminders for a conversation");
        ("inputSchema",
         js_object
          [ ("type", VStr "object");
            ("properties",
             js_object
              [ ("conversation_id",
                 js_object [("type", VStr "string"); ("description", VStr "Conversation ID")]);
                ("scheduled_at",
                 js_object [("type", VStr "number"); ("description", VStr "Unix timestamp for reminder")]) ]);
            ("required", VArr [VStr "conversation_id"]) ]) ];
    js_object
      [ ("name", VStr "add_conversation_tag");
        ("description", VStr "Add a tag to a conversation");
        ("inputSchema",
         js_object
          [ ("type", VStr "object");
            ("properties",
             js_object
              [ ("conversation_id",
                 js_object [("type", VStr "string"); ("description", VStr "Conversation ID")]);
                ("tag_ids",
                 js_object
                  [ ("type", VStr "array");
                    ("items", js_object [("type", VStr "string")]);
                    ("description", VStr "Tag IDs to add") ]) ]);
            ("required", VArr [VStr "conversation_id"; VStr "tag_ids"]) ]) ];
    js_object
      [ ("name", VStr "remove_conversation_tag");
        ("description", VStr "Remove a tag from a conversation");
        ("inputSchema",
         js_object
          [ ("type", VStr "object");
            ("properties",
             js_object
              [ ("conversation_id",
                 js_object [("type", VStr "string"); ("description", VStr "Conversation ID")]);
                ("tag_ids",
                 js_object
                  [ ("type", VStr "array");
                    ("items", js_object [("type", VStr "string")]);
                    ("description", VStr "Tag IDs to remove") ]) ]);
            ("required", VArr [VStr "conversation_id"; VStr "tag_ids"]) ]) ];
    js_object
      [ ("name", VStr "list_account_custom_fields");
        ("description", VStr "List all custom fields for accounts");
        ("inputSchema", js_object [("type", VStr "object"); ("properties", js_object [])]) ];
    js_object
      [ ("name", VStr "list_contact_custom_fields");
        ("description", VStr "List all custom fields for contacts");
        ("inputSchema", js_object [("type", VStr "object"); ("properties", js_object [])]) ];
    js_object
      [ ("name", VStr "list_conversation_custom_fields");
        ("description", VStr "List all custom fields for conversations");
        ("inputSchema", js_object [("type", VStr "object"); ("properties", js_object [])]) ];
    js_object
      [ ("name", VStr "list_custom_fields");
        ("description", VStr "List all custom fields");
        ("inputSchema", js_object [("type", VStr "object"); ("properties", js_object [])]) ];
    js_object
      [ ("name", VStr "list_inbox_custom_fields");
        ("description", VStr "List all custom fields for inboxes");
        ("inputSchema", js_object [("type", VStr "object"); ("properties", js_object [])]) ];
    js_object
      [ ("name", VStr "list_link_custom_fields");
        ("description", VStr "List all custom fields for links");
        ("inputSchema", js_object [("type", VStr "object"); ("properties", js_object [])]) ];
    js_object
      [ ("name", VStr "list_teammate_custom_fields");
        ("description", VStr "List all custom fields for teammates");
        ("inputSchema", js_object [("type", VStr "object"); ("properties", js_object [])]) ];
    js_object
      [ ("name", VStr "create_draft");
        ("description", VStr "Create a new draft message");
        ("inputSchema",
         js_object
          [ ("type", VStr "object");
            ("properties",
             js_object
              [ ("author_id",
                 js_object [("type", VStr "string"); ("description", VStr "Teammate ID creating the draft")]);
                ("to",
                 js_object
                  [ ("type", VStr "array");
                    ("items", js_object [("type", VStr "string")]);
                    ("description", VStr "Recipients") ]);
                ("subject",
                 js_object [("type", VStr "string"); ("description", VStr "Draft subject")]);
                ("body",
                 js_object [("type", VStr "string"); ("description", VStr "Draft body")]);
                ("channel_id",
                 js_object [("type", VStr "string"); ("description", VStr "Channel ID")]) ]);
            ("required", VArr [VStr "author_id"; VStr "body"]) ]) ];
    js_object
      [ ("name", VStr "list_conversation_drafts");
        ("description", VStr "List all drafts for a conversation");
        ("inputSchema",
         js_object
          [ ("type", VStr "object");
            ("properties",
             js_object
              [ ("conversation_id",
                 js_object [("type", VStr "string"); ("description", VStr "Conversation ID")]) ]);
            ("required", VArr [VStr "conversation_id"]) ]) ];
    js_object
      [ ("name", VStr "create_draft_reply");
        ("description", VStr "Create a draft reply to a conversation");
        ("inputSchema",
         js_object
          [ ("type", VStr "object");
            ("properties",
             js_object
              [ ("channel_id",
                 js_object [("type", VStr "string"); ("description", VStr "Channel ID")]);
                ("conversation_id",
                 js_object [("type", VStr "string"); ("description", VStr "Conversation ID")]);
                ("author_id",
                 js_object [("type", VStr "string"); ("description", VStr "Teammate ID")]);
                ("body",
                 js_object [("type", VStr "string"); ("description", VStr "Draft body")]) ]);
            ("required", VArr [VStr "channel_id"; VStr "author_id"; VStr "body"]) ]) ];
    js_object
      [ ("name", VStr "delete_draft");
        ("description", VStr "Delete a draft");
        ("inputSchema",
         js_object
          [ ("type", VStr "object");
            ("properties",
             js_object
              [ ("draft_id",
                 js_object [("type", VStr "string"); ("description", VStr "Draft ID")]);
                ("version",
                 js_object [("type", VStr "string"); ("description", VStr "Draft version for conflict prevention")]) ]);
            ("required", VArr [VStr "draft_id"; VStr "version"]) ]) ];
    js_object
      [ ("name", VStr "edit_draft");
        ("description", VStr "Edit an existing draft");
        ("inputSchema",
         js_object
          [ ("type", VStr "object");
            ("properties",
             js_object
              [ ("draft_id",
                 js_object [("type", VStr "string"); ("description", VStr "Draft ID")]);
                ("version",
                 js_object [("type", VStr "string"); ("description", VStr "Draft version for conflict prevention")]);
                ("body",
                 js_object [("type", VStr "string"); ("description", VStr "Updated draft body")]);
                ("subject",
                 js_object [("type", VStr "string"); ("description", VStr "Updated subject")]) ]);
            ("required", VArr [VStr "draft_id"; VStr "version"]) ]) ];
    js_object
      [ ("name", VStr "list_events");
        ("description", VStr "List events with optional filtering by type, date range, and inbox");
        ("inputSchema",
         js_object
          [ ("type", VStr "object");
            ("properties",
             js_object
              [ ("q",
                 js_object [("type", VStr "string"); ("description", VStr "Query string for filtering events")]);
                ("limit",
                 js_object [("type", VStr "number"); ("description", VStr "Number of results")]);
                ("page_token",
                 js_object [("type", VStr "string"); ("description", VStr "Pagination token")]) ]) ]) ];
    js_object
      [ ("name", VStr "get_event");
        ("description", VStr "Get details of a specific event");
        ("inputSchema",
         js_object
          [ ("type", VStr "object");
            ("properties",
             js_object
              [ ("event_id",
                 js_object [("type", VStr "string"); ("description", VStr "Event ID")]) ]);
            ("required", VArr [VStr "event_id"]) ]) ];
    js_object
      [ ("name", VStr "create_inbox");
        ("description", VStr "Create a new inbox");
        ("inputSchema",
         js_object
          [ ("type", VStr "object");
            ("properties",
             js_object
              [ ("name",
                 js_object [("type", VStr "string"); ("description", VStr "Inbox name")]);
                ("teammate_ids",
                 js_object
                  [ ("type", VStr "array");
                    ("items", js_object [("type", VStr "string")]);
                    ("description", VStr "Teammate IDs with access") ]) ]);
            ("required", VArr [VStr "name"]) ]) ];
    js_object
      [ ("name", VStr "list_inbox_channels");
        ("description", VStr "List all channels for an inbox");
        ("inputSchema",
         js_object
          [ ("type", VStr "object");
            ("properties",
             js_object
              [ ("inbox_id",
                 js_object [("type", VStr "string"); ("description", VStr "Inbox ID")]) ]);
            ("required", VArr [VStr "inbox_id"]) ]) ];
    js_object
      [ ("name", VStr "list_inbox_conversations");
        ("description", VStr "List all conversations in an inbox");
        ("inputSchema",
         js_object
          [ ("type", VStr "object");
            ("properties",
             js_object
              [ ("inbox_id",
                 js_object [("type", VStr "string"); ("description", VStr "Inbox ID")]);
                ("limit",
                 js_object [("type", VStr "number"); ("description", VStr "Number of results")]);
                ("page_token",
                 js_object [("type", VStr "string"); ("description", VStr "Pagination token")]) ]);
            ("required", VArr [VStr "inbox_id"]) ]) ];
    js_object
      [ ("name", VStr "list_inbox_access");
        ("description", VStr "List all teammates with access to an inbox");
        ("inputSchema",
         js_object
          [ ("type", VStr "object");
            ("properties",
             js_object
              [ ("inbox_id",
                 js_object [("type", VStr "string"); ("description", VStr "Inbox ID")]) ]);
            ("required", VArr [VStr "inbox_id"]) ]) ];
    js_object
      [ ("name", VStr "add_inbox_access");
        ("description", VStr "Grant teammates access to an inbox");
        ("inputSchema",
         js_object
          [ ("type", VStr "object");
            ("properties",
             js_object
              [ ("inbox_id",
                 js_object [("type", VStr "string"); ("description", VStr "Inbox ID")]);
                ("teammate_ids",
                 js_object
                  [ ("type", VStr "array");
                    ("items", js_object [("type", VStr "string")]);
                    ("description", VStr "Teammate IDs to grant access") ]) ]);
            ("required", VArr [VStr "inbox_id"; VStr "teammate_ids"]) ]) ];
    js_object
      [ ("name", VStr "remove_inbox_access");
        ("description", VStr "Remove teammates access from an inbox");
        ("inputSchema",
         js_object
          [ ("type", VStr "object");
            ("properties",
             js_object
              [ ("inbox_id",
                 js_object [("type", VStr "string"); ("description", VStr "Inbox ID")]);
                ("teammate_ids",
                 js_object
                  [ ("type", VStr "array");
                    ("items", js_object [("type", VStr "string")]);
                    ("description", VStr "Teammate IDs to remove") ]) ]);
            ("required", VArr [VStr "inbox_id"; VStr "teammate_ids"]) ]) ];
    js_object
      [ ("name", VStr "list_team_inboxes");
        ("description", VStr "List all inboxes for a team");
        ("inputSchema",
         js_object
          [ ("type", VStr "object");
            ("properties",
             js_object
              [ ("team_id",
                 js_object [("type", VStr "string"); ("description", VStr "Team ID")]) ]);
            ("required", VArr [VStr "team_id"]) ]) ];
    js_object
      [ ("name", VStr "create_team_inbox");
        ("description", VStr "Create an inbox for a team");
        ("inputSchema",
         js_object
          [ ("type", VStr "object");
            ("properties",
             js_object
              [ ("team_id",
                 js_object [("type", VStr "string"); ("description", VStr "Team ID")]);
                ("name",
                 js_object [("type", VStr "string"); ("description", VStr "Inbox name")]) ]);
            ("required", VArr [VStr "team_id"; VStr "name"]) ]) ];
    js_object
      [ ("name", VStr "receive_custom_message");
        ("description", VStr "Receive a custom message on a channel");
        ("inputSchema",
         js_object
          [ ("type", VStr "object");
            ("properties",
             js_object
              [ ("channel_id",
                 js_object [("type", VStr "string"); ("description", VStr "Channel ID")]);
                ("sender",
                 js_object [("type", VStr "object"); ("description", VStr "Sender information")]);
                ("body",
                 js_object [("type", VStr "string"); ("description", VStr "Message body")]);
                ("subject",
                 js_object [("type", VStr "string"); ("description", VStr "Message subject")]);
                ("metadata",
                 js_object [("type", VStr "object"); ("description", VStr "Message metadata")]) ]);
            ("required", VArr [VStr "channel_id"; VStr "sender"; VStr "body"]) ]) ];
    js_object
      [ ("name", VStr "import_message");
        ("description", VStr "Import a historical message to an inbox");
        ("inputSchema",
         js_object
          [ ("type", VStr "object");
            ("properties",
             js_object
              [ ("channel_id",
                 js_object [("type", VStr "string"); ("description", VStr "Channel ID")]);
                ("sender",
                 js_object [("type", VStr "object"); ("description", VStr "Sender information")]);
                ("to",
                 js_object
                  [ ("type", VStr "array");
                    ("items", js_object [("type", VStr "string")]);
                    ("description", VStr "Recipients") ]);
                ("body",
                 js_object [("type", VStr "string"); ("description", VStr "Message body")]);
                ("subject",
                 js_object [("type", VStr "string"); ("description", VStr "Message subject")]);
                ("created_at",
                 js_object [("type", VStr "number"); ("description", VStr "Unix timestamp of original message")]);
                ("metadata",
                 js_object [("type", VStr "object"); ("description", VStr "Message metadata")]) ]);
            ("required",
             VArr
              [ VStr "channel_id";
                VStr "sender";
                VStr "to";
                VStr "body";
                VStr "created_at" ]) ]) ];
    js_object
      [ ("name", VStr "get_message_seen_status");
        ("description", VStr "Get the seen status of a message");
        ("inputSchema",
         js_object
          [ ("type", VStr "object");
            ("properties",
             js_object
              [ ("message_id",
                 js_object [("type", VStr "string"); ("description", VStr "Message ID")]) ]);
            ("required", VArr [VStr "message_id"]) ]) ];
    js_object
      [ ("name", VStr "mark_message_seen");
        ("description", VStr "Mark a message as seen by a teammate");
        ("inputSchema",
         js_object
          [ ("type", VStr "object");
            ("properties",
             js_object
              [ ("message_id",
                 js_object [("type", VStr "string"); ("description", VStr "Message ID")]) ]);
            ("required", VArr [VStr "message_id"]) ]) ];
    js_object
      [ ("name", VStr "list_message_template_folders");
        ("description", VStr "List all message template folders");
        ("inputSchema",
         js_object
          [ ("type", VStr "object");
            ("properties",
             js_object
              [ ("limit",
                 js_object [("type", VStr "number"); ("description", VStr "Number of results")]);
                ("page_token",
                 js_object [("type", VStr "string"); ("description", VStr "Pagination token")]) ]) ]) ];
    js_object
      [ ("name", VStr "create_message_template_folder");
        ("description", VStr "Create a new message template folder");
        ("inputSchema",
         js_object
          [ ("type", VStr "object");
            ("properties",
             js_object
              [ ("name",
                 js_object [("type", VStr "string"); ("description", VStr "Folder name")]);
                ("parent_folder_id",
                 js_object [("type", VStr "string"); ("description", VStr "Parent folder ID (optional)")]) ]);
            ("required", VArr [VStr "name"]) ]) ];
    js_object
      [ ("name", VStr "get_message_template_folder");
        ("description", VStr "Get details of a message template folder");
        ("inputSchema",
         js_object
          [ ("type", VStr "object");
            ("properties",
             js_object
              [ ("folder_id",
                 js_object [("type", VStr "string"); ("description", VStr "Folder ID")]) ]);
            ("required", VArr [VStr "folder_id"]) ]) ];
    js_object
      [ ("name", VStr "update_message_template_folder");
        ("description", VStr "Update a message template folder");
        ("inputSchema",
         js_object
          [ ("type", VStr "object");
            ("properties",
             js_object
              [ ("folder_id",
                 js_object [("type", VStr "string"); ("description", VStr "Folder ID")]);
                ("name",
                 js_object [("type", VStr "string"); ("description", VStr "Updated folder name")]) ]);
            ("required", VArr [VStr "folder_id"; VStr "name"]) ]) ];
    js_object
      [ ("name", VStr "delete_message_template_folder");
        ("description", VStr "Delete a message template folder");
        ("inputSchema",
         js_object
          [ ("type", VStr "object");
            ("properties",
             js_object
              [ ("folder_id",
                 js_object [("type", VStr "string"); ("description", VStr "Folder ID")]) ]);
            ("required", VArr [VStr "folder_id"]) ]) ];
    js_object
      [ ("name", VStr "list_child_folders");
        ("description", VStr "List child folders of a message template folder");
        ("inputSchema",
         js_object
          [ ("type", VStr "object");
            ("properties",
             js_object
              [ ("folder_id",
                 js_object [("type", VStr "string"); ("description", VStr "Folder ID")]) ]);
            ("required", VArr [VStr "folder_id"]) ]) ];
    js_object
      [ ("name", VStr "create_child_folder");
        ("description", VStr "Create a child folder within a message template folder");
        ("inputSchema",
         js_object
          [ ("type", VStr "object");
            ("properties",
             js_object
              [ ("folder_id",
                 js_object [("type", VStr "string"); ("description", VStr "Parent folder ID")]);
                ("name",
                 js_object [("type", VStr "string"); ("description", VStr "Child folder name")]) ]);
            ("required", VArr [VStr "folder_id"; VStr "name"]) ]) ];
    js_object
      [ ("name", VStr "list_teammate_folders");
        ("description", VStr "List message template folders for a teammate");
        ("inputSchema",
         js_object
          [ ("type", VStr "object");
            ("properties",
             js_object
              [ ("teammate_id",
                 js_object [("type", VStr "string"); ("description", VStr "Teammate ID")]) ]);
            ("required", VArr [VStr "teammate_id"]) ]) ];
    js_object
      [ ("name", VStr "create_teammate_folder");
        ("description", VStr "Create a message template folder for a teammate");
        ("inputSchema",
         js_object
          [ ("type", VStr "object");
            ("properties",
             js_object
              [ ("teammate_id",
                 js_object [("type", VStr "string"); ("description", VStr "Teammate ID")]);
                ("name",
                 js_object [("type", VStr "string"); ("description", VStr "Folder name")]) ]);
            ("required", VArr [VStr "teammate_id"; VStr "name"]) ]) ];
    js_object
      [ ("name", VStr "list_team_folders");
        ("description", VStr "List message template folders for a team");
        ("inputSchema",
         js_object
          [ ("type", VStr "object");
            ("properties",
             js_object
              [ ("team_id",
                 js_object [("type", VStr "string"); ("description", VStr "Team ID")]) ]);
            ("required", VArr [VStr "team_id"]) ]) ];
    js_object
      [ ("name", VStr "list_message_templates");
        ("description", VStr "List all message templates");
        ("inputSchema",
         js_object
          [ ("type", VStr "object");
            ("properties",
             js_object
              [ ("limit",
                 js_object [("type", VStr "number"); ("description", VStr "Number of results")]);
                ("page_token",
                 js_object [("type", VStr "string"); ("description", VStr "Pagination token")]) ]) ]) ];
    js_object
      [ ("name", VStr "create_message_template");
        ("description", VStr "Create a new message template");
        ("inputSchema",
         js_object
          [ ("type", VStr "object");
            ("properties",
             js_object
              [ ("name",
                 js_object [("type", VStr "string"); ("description", VStr "Template name")]);
                ("subject",
                 js_object [("type", VStr "string"); ("description", VStr "Template subject")]);
                ("body",
                 js_object [("type", VStr "string"); ("description", VStr "Template body")]);
                ("folder_id",
                 js_object [("type", VStr "string"); ("description", VStr "Folder ID (optional)")]) ]);
            ("required", VArr [VStr "name"; VStr "body"]) ]) ];
    js_object
      [ ("name", VStr "get_message_template");
        ("description", VStr "Get details of a message template");
        ("inputSchema",
         js_object
          [ ("type", VStr "object");
            ("properties",
             js_object
              [ ("template_id",
                 js_object [("type", VStr "string"); ("description", VStr "Template ID")]) ]);
            ("required", VArr [VStr "template_id"]) ]) ];
    js_object
      [ ("name", VStr "update_message_template");
        ("description", VStr "Update a message template");
        ("inputSchema",
         js_object
          [ ("type", VStr "object");
            ("properties",
             js_object
              [ ("template_id",
                 js_object [("type", VStr "string"); ("description", VStr "Template ID")]);
                ("name",
                 js_object [("type", VStr "string"); ("description", VStr "Updated name")]);
                ("subject",
                 js_object [("type", VStr "string"); ("description", VStr "Updated subject")]);
                ("body",
                 js_object [("type", VStr "string"); ("description", VStr "Updated body")]) ]);
            ("required", VArr [VStr "template_id"]) ]) ];
    js_object
      [ ("name", VStr "delete_message_template");
        ("description", VStr "Delete a message template");
        ("inputSchema",
         js_object
          [ ("type", VStr "object");
            ("properties",
             js_object
              [ ("template_id",
                 js_object [("type", VStr "string"); ("description", VStr "Template ID")]) ]);
            ("required", VArr [VStr "template_id"]) ]) ];
    js_object
      [ ("name", VStr "list_child_templates");
        ("description", VStr "List child templates of a message template");
        ("inputSchema",
         js_object
          [ ("type", VStr "object");
            ("properties",
             js_object
              [ ("template_id",
                 js_object [("type", VStr "string"); ("description", VStr "Template ID")]) ]);
            ("required", VArr [VStr "template_id"]) ]) ];
    js_object
      [ ("name", VStr "create_child_template");
        ("description", VStr "Create a child template within a message template");
        ("inputSchema",
         js_object
          [ ("type", VStr "object");
            ("properties",
             js_object
              [ ("template_id",
                 js_object [("type", VStr "string"); ("description", VStr "Parent template ID")]);
                ("name",
                 js_object [("type", VStr "string"); ("description", VStr "Child template name")]);
                ("body",
                 js_object [("type", VStr "string"); ("description", VStr "Template body")]) ]);
            ("required", VArr [VStr "template_id"; VStr "name"; VStr "body"]) ]) ];
    js_object
      [ ("name", VStr "get_tag");
        ("description", VStr "Get details of a specific tag");
        ("inputSchema",
         js_object
          [ ("type", VStr "object");
            ("properties",
             js_object
              [ ("tag_id",
                 js_object [("type", VStr "string"); ("description", VStr "Tag ID")]) ]);
            ("required", VArr [VStr "tag_id"]) ]) ];
    js_object
      [ ("name", VStr "update_tag");
        ("description", VStr "Update a tag");
        ("inputSchema",
         js_object
          [ ("type", VStr "object");
            ("properties",
             js_object
              [ ("tag_id",
                 js_object [("type", VStr "string"); ("description", VStr "Tag ID")]);
                ("name",
                 js_object [("type", VStr "string"); ("description", VStr "Updated tag name")]);
                ("highlight",
                 js_object [("type", VStr "string"); ("description", VStr "Updated tag color")]) ]);
            ("required", VArr [VStr "tag_id"]) ]) ];
    js_object
      [ ("name", VStr "delete_tag");
        ("description", VStr "Delete a tag");
        ("inputSchema",
         js_object
          [ ("type", VStr "object");
            ("properties",
             js_object
              [ ("tag_id",
                 js_object [("type", VStr "string"); ("description", VStr "Tag ID")]) ]);
            ("required", VArr [VStr "tag_id"]) ]) ];
    js_object
      [ ("name", VStr "list_tag_children");
        ("description", VStr "List child tags of a tag");
        ("inputSchema",
         js_object
          [ ("type", VStr "object");
            ("properties",
             js_object
              [ ("tag_id",
                 js_object [("type", VStr "string"); ("description", VStr "Tag ID")]) ]);
            ("required", VArr [VStr "tag_id"]) ]) ];
    js_object
      [ ("name", VStr "create_child_tag");
        ("description", VStr "Create a child tag");
        ("inputSchema",
         js_object
          [ ("type", VStr "object");
            ("properties",
             js_object
              [ ("tag_id",
                 js_object [("type", VStr "string"); ("description", VStr "Parent tag ID")]);
                ("name",
                 js_object [("type", VStr "string"); ("description", VStr "Child tag name")]);
                ("highlight",
                 js_object [("type", VStr "string"); ("description", VStr "Tag color")]) ]);
            ("required", VArr [VStr "tag_id"; VStr "name"]) ]) ];
    js_object
      [ ("name", VStr "list_tagged_conversations");
        ("description", VStr "List all conversations with a specific tag");
        ("inputSchema",
         js_object
          [ ("type", VStr "object");
            ("properties",
             js_object
              [ ("tag_id",
                 js_object [("type", VStr "string"); ("description", VStr "Tag ID")]);
                ("limit",
                 js_object [("type", VStr "number"); ("description", VStr "Number of results")]);
                ("page_token",
                 js_object [("type", VStr "string"); ("description", VStr "Pagination token")]) ]);
            ("required", VArr [VStr "tag_id"]) ]) ];
    js_object
      [ ("name", VStr "list_teammate_tags");
        ("description", VStr "List tags for a specific teammate");
        ("inputSchema",
         js_object
          [ ("type", VStr "object");
            ("properties",
             js_object
              [ ("teammate_id",
                 js_object [("type", VStr "string"); ("description", VStr "Teammate ID")]) ]);
            ("required", VArr [VStr "teammate_id"]) ]) ];
    js_object
      [ ("name", VStr "create_teammate_tag");
        ("description", VStr "Create a tag for a teammate");
        ("inputSchema",
         js_object
          [ ("type", VStr "object");
            ("properties",
             js_object
              [ ("teammate_id",
                 js_object [("type", VStr "string"); ("description", VStr "Teammate ID")]);
                ("name",
                 js_object [("type", VStr "string"); ("description", VStr "Tag name")]);
                ("highlight",
                 js_object [("type", VStr "string"); ("description", VStr "Tag color")]) ]);
            ("required", VArr [VStr "teammate_id"; VStr "name"]) ]) ];
    js_object
      [ ("name", VStr "list_team_tags");
        ("description", VStr "List tags for a specific team");
        ("inputSchema",
         js_object
          [ ("type", VStr "object");
            ("properties",
             js_object
              [ ("team_id",
                 js_object [("type", VStr "string"); ("description", VStr "Team ID")]) ]);
            ("required", VArr [VStr "team_id"]) ]) ];
    js_object
      [ ("name", VStr "create_team_tag");
        ("description", VStr "Create a tag for a team");
        ("inputSchema",
         js_object
          [ ("type", VStr "object");
            ("properties",
             js_object
              [ ("team_id",
                 js_object [("type", VStr "string"); ("description", VStr "Team ID")]);
                ("name",
                 js_object [("type", VStr "string"); ("description", VStr "Tag name")]);
                ("highlight",
                 js_object [("type", VStr "string"); ("description", VStr "Tag color")]) ]);
            ("required", VArr [VStr "team_id"; VStr "name"]) ]) ];
    js_object
      [ ("name", VStr "update_teammate");
        ("description", VStr "Update a teammate");
        ("inputSchema",
         js_object
          [ ("type", VStr "object");
            ("properties",
             js_object
              [ ("teammate_id",
                 js_object [("type", VStr "string"); ("description", VStr "Teammate ID")]);
                ("username",
                 js_object [("type", VStr "string"); ("description", VStr "Updated username")]);
                ("first_name",
                 js_object [("type", VStr "string"); ("description", VStr "Updated first name")]);
                ("last_name",
                 js_object [("type", VStr "string"); ("description", VStr "Updated last name")]);
                ("is_available",
                 js_object [("type", VStr "boolean"); ("description", VStr "Updated availability status")]) ]);
            ("required", VArr [VStr "teammate_id"]) ]) ];
    js_object
      [ ("name", VStr "list_teammate_conversations");
        ("description", VStr "List conversations assigned to a teammate");
        ("inputSchema",
         js_object
          [ ("type", VStr "object");
            ("properties",
             js_object
              [ ("teammate_id",
                 js_object [("type", VStr "string"); ("description", VStr "Teammate ID")]);
                ("limit",
                 js_object [("type", VStr "number"); ("description", VStr "Number of results")]);
                ("page_token",
                 js_object [("type", VStr "string"); ("description", VStr "Pagination token")]) ]);
            ("required", VArr [VStr "teammate_id"]) ]) ];
    js_object
      [ ("name", VStr "list_teammate_inboxes");
        ("description", VStr "List inboxes accessible to a teammate");
        ("inputSchema",
         js_object
          [ ("type", VStr "object");
            ("properties",
             js_object
              [ ("teammate_id",
                 js_object [("type", VStr "string"); ("description", VStr "Teammate ID")]) ]);
            ("required", VArr [VStr "teammate_id"]) ]) ] ].

(** The [ListToolsRequestSchema] handler. *)
Definition list_tools : M value :=
  mret (js_object [("tools", VArr tools)]).

(** The resources of the [ListResources] handler. *)
Definition resources : list value :=
  [ js_object
      [ ("uri", VStr "frontapp://conversations/recent");
        ("name", VStr "Recent Conversations");
        ("description", VStr "Most recently updated conversations");
        ("mimeType", VStr "application/json") ];
    js_object
      [ ("uri", VStr "frontapp://teammates");
        ("name", VStr "Teammates");
        ("description", VStr "List of all teammates");
        ("mimeType", VStr "application/json") ];
    js_object
      [ ("uri", VStr "frontapp://inboxes");
        ("name", VStr "Inboxes");
        ("description", VStr "List of all inboxes");
        ("mimeType", VStr "application/json") ];
    js_object
      [ ("uri", VStr "frontapp://tags");
        ("name", VStr "Tags");
        ("description", VStr "List of all tags");
        ("mimeType", VStr "application/json") ] ].

(** The [ListResourcesRequestSchema] handler. *)
Definition list_resources : M value :=
  mret (js_object [("resources", VArr resources)]).

(** * Observations and properties *)

(** What one tool call shows to the outside: the requests it issues and the
    value the handler resolves with. *)
Definition outbound (name : string) (args : option obj) (remote : remote_api)
  : list request :=
  (run (call_tool name args) remote).2.

Definition response (name : string) (args : option obj) (remote : remote_api)
  : thrown + tool_response :=
  (run (call_tool name args) remote).1.

(** The payload of a request: query object and body, and the properties
    they carry at top level. *)
Definition payload (r : request) : value * value := (req_params r, req_data r).

Definition fields (v : value) : obj :=
  match v with
  | VObj o => o
  | _ => ∅
  end.

Definition payload_fields (r : request) : obj :=
  fields (req_params r) ∪ fields (req_data r).

(** An argument is substituted into the path when the request URL can change
    with its value. *)
Definition path_field (name k : string) : Prop :=
  ∃ params v remote,
    req_url <$> outbound name (Some (<[k:=v]> params)) remote
    ≠ req_url <$> outbound name (Some params) remote.

(** The decimal numeral of an HTTP status code. *)
Definition decimal (n : Z) : string := NilZero.string_of_int (Z.to_int n).

(** A remote that rejects every request with the same axios error, worded as
    axios words a non-2xx answer. *)
Definition axios_failure (st : Z) (body : value) : thrown :=
  AxiosError ("Request failed with status code " ++ decimal st)
             (Some (AxiosResponse st body)).

Definition rejecting (st : Z) (body : value) : remote_api :=
  fun _ => inl (axios_failure st body).

(** The error taxonomy of the specification; the source declares no such
    type. *)
Inductive failure_kind : Type :=
  | UnknownOperation
  | RemoteFailure
  | TransportFailure
  | VersionConflict.

(** The requests one row of the dispatch table issues when given an
    arguments object. *)
Definition requests_of (h : option obj → M value) (params : obj)
    (remote : remote_api) : list request :=
  (run (h (Some params)) remote).2.

(** Each adapter call either fails locally before any request, or issues
    exactly one request and resolves with the remote's answer to it. *)
Definition one_call (h : option obj → M value) : Prop :=
  ∀ args remote,
    (∃ r, run (h args) remote = (remote r, [r]))
    ∨ (∃ m, run (h args) remote = (inl (JsError m), [])).

Definition url_varies (h : option obj → M value) (k : string) : Prop :=
  ∃ params v remote,
    req_url <$> requests_of h (<[k:=v]> params) remote
    ≠ req_url <$> requests_of h params remote.

Definition request_varies (h : option obj → M value) (k : string) : Prop :=
  ∃ params v remote,
    requests_of h (<[k:=v]> params) remote ≠ requests_of h params remote.

(** For one row of the dispatch table: an argument the URL varies with has
    no influence on the payload, and is no top-level member of it unless the
    body is another argument, sent whole. *)
Definition handler_partition (h : option obj → M value) : Prop :=
  ∀ k,
    url_varies h k →
    (∀ params v remote r r',
        r ∈ requests_of h params remote →
        r' ∈ requests_of h (<[k:=v]> params) remote →
        payload r' = payload r)
    ∧ (∀ params remote r,
         r ∈ requests_of h params remote →
         payload_fields r !! k = None
         ∨ ∃ k', k' ≠ k ∧ req_data r = default VUndefined (params !! k')).

(** ** Further observations *)

(** The string a string value holds; the literals of the two listing
    handlers hold strings wherever this is applied. *)
Definition string_of (v : value) : string :=
  match v with
  | VStr s => s
  | _ => ""
  end.

(** The names discovery announces. *)
Definition announced_names : list string :=
  (λ d, string_of (opt_member d "name")) <$> tools.

(** The descriptor announced under a name, and the argument names its input
    schema declares and requires. *)
Definition descriptor (name : string) : value :=
  default VUndefined
    (List.find (λ d, strict_eq_str (opt_member d "name") name) tools).

Definition declared (d : value) : list string :=
  (map_to_list (fields (opt_member (opt_member d "inputSchema") "properties"))).*1.

Definition required (d : value) : list string :=
  match opt_member (opt_member d "inputSchema") "required" with
  | VArr names => string_of <$> names
  | _ => []
  end.

(** An argument influences an operation when some request can change with
    its value. *)
Definition influences (name k : string) : Prop :=
  ∃ params v remote,
    outbound name (Some (<[k:=v]> params)) remote
    ≠ outbound name (Some params) remote.

(** Reading and removing operations, by the prefix of their name. *)
Definition read_only (name : string) : bool :=
  String.prefix "list_" name || String.prefix "get_" name
  || String.prefix "search_" name.

Definition removal (name : string) : bool :=
  String.prefix "delete_" name || String.prefix "remove_" name.

(** The resource shortcuts: a URI, and the tool call it stands for. *)
Definition shortcuts : list (string * (string * option obj)) :=
  [ ("frontapp://conversations/recent",
     ("list_conversations", Some {[ "limit" := VNum "20" ]}));
    ("frontapp://teammates", ("list_teammates", None));
    ("frontapp://inboxes", ("list_inboxes", None));
    ("frontapp://tags", ("list_tags", None)) ].

(** Handler-level forms of the above, for one row of the dispatch table. *)
Definition handler_method (name : string) (h : option obj → M value) : Prop :=
  ∀ args remote r,
    r ∈ (run (h args) remote).2 →
    (req_method r = GET ↔ read_only name = true)
    ∧ (req_method r = DELETE ↔ removal name = true)
    ∧ (req_method r = GET → req_data r = VUndefined)
    ∧ (req_method r ≠ GET → req_params r = VUndefined).

Definition handler_required (name : string) (h : option obj → M value) : Prop :=
  ∀ k, url_varies h k → k ∈ required (descriptor name).

Definition handler_declared (name : string) (h : option obj → M value) : Prop :=
  (∀ k, request_varies h k)
  ∨ (∀ k, request_varies h k ↔ k ∈ declared (descriptor name)).

Definition handler_missing (name : string) (h : option obj → M value) : Prop :=
  ∀ remote,
    (∃ k, k ∈ required (descriptor name)
          ∧ (run (h None) remote = (inl (JsError (cannot_read k)), [])
             ∨ run (h None) remote = (inl (JsError (cannot_destructure k)), [])))
    ∨ (∃ r, run (h None) remote = (remote r, [r])
            ∧ req_params r = VUndefined ∧ req_data r = VUndefined).

Definition handler_forwarding (name : string) (h : option obj → M value) : Prop :=
  (∀ k, request_varies h k) →
  ∀ k params remote r,
    ¬ url_varies h k →
    (name, k) ≠ ("edit_draft", "version") →
    r ∈ requests_of h params remote →
    payload_fields r !! k = params !! k.


(** The one DELETE of a remove-style operation: issued when the path
    argument has a string form, with [body] as its body. *)
Definition removal_request (params : obj) (path_key before after : string)
    (body : obj) : list request :=
  match to_string (default VUndefined (params !! path_key)) with
  | Some id => [Request DELETE (before ++ id ++ after) VUndefined (VObj body)]
  | None => []
  end.

(** * Verification *)

(** ** Unfolding the adapters *)

Create HintDb adapters discriminated.

#[local] Hint Unfold
  listConversations getConversation searchConversations updateConversation 
  listConversationMessages getMessage sendMessage replyToConversation 
  listContacts getContact createContact updateContact listTeammates 
  getTeammate listTags createTag listInboxes getInbox 
  listConversationComments addComment getAnalytics listAccounts 
  createAccount getAccount updateAccount deleteAccount listAccountContacts 
  addContactToAccount removeContactFromAccount deleteContact mergeContacts 
  listContactConversations listContactNotes addContactNote addContactHandle 
  deleteContactHandle listTeammateContacts createTeammateContact 
  listTeamContacts listChannels createChannel getChannel updateChannel 
  validateChannel listTeammateChannels listTeamChannels syncInboundMessage 
  syncOutboundMessage updateExternalMessageStatus 
  syncApplicationMessageTemplate getComment updateComment 
  listCommentMentions addCommentReply listContactGroups createContactGroup 
  deleteContactGroup listGroupContacts addContactsToGroup 
  removeContactsFromGroup listTeammateGroups createTeammateGroup 
  listTeamGroups createTeamGroup listContactLists createContactList 
  deleteContactList listContactListContacts addContactsToList 
  removeContactsFromList listTeammateContactLists createTeammateContactList 
  listTeamContactLists createTeamContactList createDiscussionConversation 
  updateConversationAssignee listConversationEvents 
  listConversationFollowers addConversationFollowers 
  deleteConversationFollowers listConversationInboxes addConversationLink 
  removeConversationLinks updateConversationReminders addConversationTag 
  removeConversationTag listAccountCustomFields listContactCustomFields 
  listConversationCustomFields listCustomFields listInboxCustomFields 
  listLinkCustomFields listTeammateCustomFields createDraft 
  listConversationDrafts createDraftReply deleteDraft editDraft listEvents 
  getEvent createInbox listInboxChannels listInboxConversations 
  listInboxAccess addInboxAccess removeInboxAccess listTeamInboxes 
  createTeamInbox receiveCustomMessage importMessage getMessageSeenStatus 
  markMessageSeen listMessageTemplateFolders createMessageTemplateFolder 
  getMessageTemplateFolder updateMessageTemplateFolder 
  deleteMessageTemplateFolder listChildFolders createChildFolder 
  listTeammateFolders createTeammateFolder listTeamFolders 
  listMessageTemplates createMessageTemplate getMessageTemplate 
  updateMessageTemplate deleteMessageTemplate listChildTemplates 
  createChildTemplate getTag updateTag deleteTag listTagChildren 
  createChildTag listTaggedConversations listTeammateTags createTeammateTag 
  listTeamTags createTeamTag updateTeammate listTeammateConversations 
  listTeammateInboxes : adapters.

Ltac unfold_call :=
  autounfold with adapters;
  cbv [run mbind M_bind bind destructure member subst ret throw send
       axios_get axios_get_params axios_post axios_post_data axios_patch_data
       axios_put_data axios_delete axios_delete_data arg_value
       fst snd app fmap list_fmap payload payload_fields fields
       req_method req_url req_params req_data].

Ltac unfold_call_in H :=
  autounfold with adapters in H;
  cbv [run mbind M_bind bind destructure member subst ret throw send
       axios_get axios_get_params axios_post axios_post_data axios_patch_data
       axios_put_data axios_delete axios_delete_data arg_value
       fst snd app fmap list_fmap payload payload_fields fields
       req_method req_url req_params req_data] in H.

(** Case analysis on the conversions a call performs. *)
Ltac split_conversions :=
  repeat match goal with
         | |- context [match to_string ?v with _ => _ end] =>
             destruct (to_string v) eqn:?
         end.

Ltac split_conversions_in H :=
  repeat match type of H with
         | context [match to_string ?v with _ => _ end] =>
             destruct (to_string v) eqn:?
         end.

(** ** The dispatch table *)

Lemma find_case_None {H : Type} (name : string) (cases : list (string * H)) :
  name ∉ cases.*1 → find_case name cases = None.
Proof.
  induction cases as [|[n h] cases IH]; intros Hnot; [reflexivity|].
  cbn in *. apply not_elem_of_cons in Hnot as [Hne Hnot].
  destruct (String.eqb_spec name n) as [->|_]; [done|]. by apply IH.
Qed.

Lemma find_case_Some {H : Type} (name : string) (cases : list (string * H)) h :
  find_case name cases = Some h → (name, h) ∈ cases.
Proof.
  induction cases as [|[n h'] cases IH]; cbn; [done|].
  destruct (String.eqb_spec name n) as [->|_].
  - intros [= ->]. apply list_elem_of_here.
  - intros Hfind. apply list_elem_of_further. by apply IH.
Qed.

(** Every [case] label is the name of a catalog descriptor, and conversely,
    in the same order. *)
Lemma tool_cases_names : tool_cases.*1 = tool_names.
Proof. reflexivity. Qed.

Lemma tool_cases_elim (P : string → (option obj → M value) → Prop) :
  Forall (λ c, P c.1 c.2) tool_cases →
  ∀ name h, find_case name tool_cases = Some h → P name h.
Proof.
  intros Hall name h Hfind. rewrite List.Forall_forall in Hall.
  apply find_case_Some, list_elem_of_In in Hfind. exact (Hall _ Hfind).
Qed.

Lemma run_call_tool (name : string) (args : option obj) (remote : remote_api) :
  run (call_tool name args) remote =
  match run (dispatch name args) remote with
  | (inr result, log) =>
      (inr {| content := [JSON_stringify result]; isError := None |}, log)
  | (inl error, log) =>
      (match to_string (js_or (response_data_message error)
                              (VStr (error_message error))) with
       | Some message =>
           inr {| content := [Text ("Error: " ++ message)];
                  isError := Some true |}
       | None => inl (JsError cannot_convert)
       end, log)
  end.
Proof.
  unfold call_tool, run, try_catch, mbind, M_bind, bind, subst.
  destruct (dispatch name args remote []) as [[e|v] log]; [|reflexivity].
  by destruct (to_string _).
Qed.

Lemma run_dispatch (name : string) (h : option obj → M value) args remote :
  find_case name tool_cases = Some h →
  run (dispatch name args) remote = run (h args) remote.
Proof. intros Hfind. unfold dispatch. by rewrite Hfind. Qed.

Lemma outbound_dispatch (name : string) args remote :
  outbound name args remote = (run (dispatch name args) remote).2.
Proof.
  unfold outbound. rewrite run_call_tool.
  by destruct (run (dispatch name args) remote) as [[e|v] log].
Qed.

Lemma outbound_unknown (name : string) args remote :
  find_case name tool_cases = None → outbound name args remote = [].
Proof. intros Hfind. rewrite outbound_dispatch. unfold dispatch. by rewrite Hfind. Qed.

Lemma tool_cases_one_call : Forall (λ c, one_call c.2) tool_cases.
Proof.
  unfold tool_cases.
  repeat (apply List.Forall_cons;
          [ intros [p|] remote; cbn [snd]; unfold_call; split_conversions;
            eauto |]).
  apply List.Forall_nil.
Qed.

Lemma dispatch_one_call (name : string) args remote :
  (∃ r, run (dispatch name args) remote = (remote r, [r]))
  ∨ (∃ m, run (dispatch name args) remote = (inl (JsError m), [])).
Proof.
  destruct (find_case name tool_cases) as [h|] eqn:Hfind.
  - rewrite (run_dispatch _ _ _ _ Hfind).
    exact (tool_cases_elim (λ _ h, one_call h) tool_cases_one_call
             _ _ Hfind args remote).
  - right. unfold dispatch. rewrite Hfind. eauto.
Qed.

Lemma requests_of_outbound (name : string) (h : option obj → M value) params remote :
  find_case name tool_cases = Some h →
  outbound name (Some params) remote = requests_of h params remote.
Proof.
  intros Hfind. rewrite outbound_dispatch.
  by rewrite (run_dispatch _ _ _ _ Hfind).
Qed.

Lemma url_varies_path_field (name : string) (h : option obj → M value) k :
  find_case name tool_cases = Some h → path_field name k ↔ url_varies h k.
Proof.
  intros Hfind. unfold path_field, url_varies.
  split; intros (p & v & rm & Hne); exists p, v, rm.
  - by rewrite <- !(requests_of_outbound _ _ _ _ Hfind).
  - by rewrite !(requests_of_outbound _ _ _ _ Hfind).
Qed.

Lemma request_varies_influences (name : string) (h : option obj → M value) k :
  find_case name tool_cases = Some h → influences name k ↔ request_varies h k.
Proof.
  intros Hfind. unfold influences, request_varies.
  split; intros (p & v & rm & Hne); exists p, v, rm.
  - by rewrite <- !(requests_of_outbound _ _ _ _ Hfind).
  - by rewrite !(requests_of_outbound _ _ _ _ Hfind).
Qed.

Lemma announced_names_cases : announced_names = tool_cases.*1.
Proof. vm_compute. reflexivity. Qed.

Lemma announced_find_case (name : string) :
  name ∈ announced_names → ∃ h, find_case name tool_cases = Some h.
Proof.
  rewrite announced_names_cases. generalize tool_cases. intros cases.
  induction cases as [|[n h] cases IH]; cbn.
  - by intros ?%elem_of_nil.
  - destruct (String.eqb_spec name n); [eauto|].
    intros [?|?]%elem_of_cons; [done|]. by apply IH.
Qed.

Lemma outbound_singleton (name : string) args remote r :
  r ∈ outbound name args remote →
  run (dispatch name args) remote = (remote r, [r]).
Proof.
  rewrite outbound_dispatch.
  destruct (dispatch_one_call name args remote) as [[r' Hrun]|[m Hrun]];
    rewrite Hrun; cbn [snd].
  - by intros ->%list_elem_of_singleton.
  - by intros ?%elem_of_nil.
Qed.

(** What the [catch] block makes of the error a request was answered with. *)
Lemma response_of_failed_call (name : string) args remote r (e : thrown) :
  r ∈ outbound name args remote →
  remote r = inl e →
  response name args remote =
    match to_string (js_or (response_data_message e)
                           (VStr (error_message e))) with
    | Some message =>
        inr {| content := [Text ("Error: " ++ message)];
               isError := Some true |}
    | None => inl (JsError cannot_convert)
    end.
Proof.
  intros Hr He. unfold response. rewrite run_call_tool.
  rewrite (outbound_singleton _ _ _ _ Hr), He. reflexivity.
Qed.

(** ** Strings and properties *)

Lemma append_inj_r (s a b : string) : s ++ a = s ++ b → a = b.
Proof. induction s as [|c s IH]; cbn; [done|]. intros [= H]. by apply IH. Qed.

Lemma strict_eq_str_true (v : value) (lit : string) :
  strict_eq_str v lit = true ↔ v = VStr lit.
Proof.
  destruct v; cbn; try (split; [discriminate | intros [=]]).
  rewrite String.eqb_eq. split; [by intros -> | by intros [= ->]].
Qed.

Lemma prop_insert_ne (o : obj) (k s : string) (v : value) :
  k ≠ s → prop (<[k:=v]> o) s = prop o s.
Proof. intros Hne. unfold prop. by rewrite lookup_insert_ne. Qed.

Lemma prop_insert_eq (o : obj) (k : string) (v : value) :
  prop (<[k:=v]> o) k = v.
Proof. unfold prop. by rewrite lookup_insert_eq. Qed.

Ltac decide_member := apply (bool_decide_unpack _); vm_compute; exact I.

(** Two closed request lists that differ. *)
Ltac differ :=
  let Heq := fresh in intros Heq; vm_compute in Heq; discriminate Heq.

(** ** Every row of the dispatch table *)

Lemma prop_empty (s : string) : prop ∅ s = VUndefined.
Proof. unfold prop. by rewrite lookup_empty. Qed.

Ltac forget_path_field :=
  repeat (rewrite delete_insert_eq || (rewrite delete_insert_ne by done)
          || (rewrite prop_insert_ne by done)).

Ltac absent_key :=
  rewrite ?lookup_union;
  repeat (rewrite lookup_delete_eq || (rewrite lookup_delete_ne by done)
          || (rewrite lookup_insert_ne by done)
          || (rewrite lookup_singleton_ne by done) || rewrite lookup_empty);
  reflexivity.

(** The requests of a row, once its conversions are decided: none, or the
    one request named. *)
Ltac no_request H := by apply elem_of_nil in H.

Ltac path_field_excluded :=
  split;
  [ let Hr := fresh "Hr" in
    let Hr' := fresh "Hr'" in
    intros p v rm r r'; unfold requests_of; unfold_call;
    rewrite ?prop_insert_eq; forget_path_field;
    split_conversions; cbv beta iota; intros Hr Hr';
    first [ no_request Hr | no_request Hr'
          | apply list_elem_of_singleton in Hr;
            apply list_elem_of_singleton in Hr'; subst r r';
            cbn [req_params req_data]; forget_path_field; reflexivity ]
  | let Hr := fresh "Hr" in
    intros p rm r; unfold requests_of; unfold_call;
    split_conversions; cbv beta iota; intros Hr;
    first [ no_request Hr
          | apply list_elem_of_singleton in Hr; subst r;
            cbn [req_params req_data];
            first [ left; absent_key
                  | right; eexists; split; [|reflexivity]; done ] ] ].

(** Case analysis on which literal property name [k] is, for a hypothesis
    [Hne] saying that two runs differ: first the properties that are
    converted to strings, then, the conversions decided, the other
    properties still read.  [found] closes the goal when [k] is one of
    them; once [k] differs from all, the two runs coincide. *)
Ltac by_key k Hne found :=
  repeat match type of Hne with
         | context [to_string (prop (<[k:=_]> _) ?s)] =>
             let Hk := fresh "Hk" in
             destruct (decide (k = s)) as [->|Hk];
             [ clear Hne; found
             | rewrite (prop_insert_ne _ _ _ _ Hk) in Hne ]
         end;
  revert Hne; split_conversions; cbv beta iota; intros Hne;
  repeat match type of Hne with
         | context [prop (<[k:=_]> _) ?s] =>
             let Hk := fresh "Hk" in
             destruct (decide (k = s)) as [->|Hk];
             [ clear Hne; found
             | rewrite (prop_insert_ne _ _ _ _ Hk) in Hne ]
         end;
  exfalso; apply Hne; reflexivity.

Ltac partition_case :=
  let Hne := fresh "Hne" in
  intros k (? & ? & ? & Hne); unfold requests_of in Hne; unfold_call_in Hne;
  by_key k Hne path_field_excluded.

Lemma tool_cases_partition : Forall (λ c, handler_partition c.2) tool_cases.
Proof.
  unfold tool_cases.
  repeat (apply List.Forall_cons; [cbn [fst snd]; partition_case |]).
  apply List.Forall_nil.
Qed.

Ltac method_case :=
  let Hr := fresh "Hr" in
  intros [p|] remote r; unfold_call; split_conversions; cbv beta iota;
  intros Hr;
  first [ no_request Hr
        | apply list_elem_of_singleton in Hr; subst r;
          cbn [req_method req_data req_params];
          vm_compute read_only; vm_compute removal;
          repeat split; intros; done ].

Lemma tool_cases_methods : Forall (λ c, handler_method c.1 c.2) tool_cases.
Proof.
  unfold tool_cases.
  repeat (apply List.Forall_cons; [ cbn [fst snd]; method_case |]).
  apply List.Forall_nil.
Qed.

Ltac required_case :=
  let Hne := fresh "Hne" in
  intros k (? & ? & ? & Hne); unfold requests_of in Hne; unfold_call_in Hne;
  by_key k Hne decide_member.

Lemma tool_cases_required : Forall (λ c, handler_required c.1 c.2) tool_cases.
Proof.
  unfold tool_cases.
  repeat (apply List.Forall_cons; [ cbn [fst snd]; required_case |]).
  apply List.Forall_nil.
Qed.

Ltac lookups_in H :=
  repeat (rewrite lookup_union in H || rewrite lookup_empty in H
          || rewrite lookup_insert_eq in H
          || (rewrite lookup_delete_ne in H by done)
          || (rewrite lookup_singleton_ne in H by done)).

(** An adapter that forwards what it is given: every property shows, in
    the URL when the adapter reads it by name, in the payload otherwise. *)
Ltac open_case :=
  intros k; exists ∅, (VStr "comment"), (λ _, inr VNull);
  unfold requests_of; unfold_call;
  repeat match goal with
         | |- context [to_string (prop (<[k:=_]> _) ?s)] =>
             let Hk := fresh "Hk" in
             destruct (decide (k = s)) as [->|Hk];
             [ differ | rewrite (prop_insert_ne _ _ _ _ Hk) ]
         end;
  rewrite ?prop_empty; cbn [to_string]; cbv beta iota;
  repeat match goal with
         | |- context [prop (<[k:=_]> _) ?s] =>
             let Hk := fresh "Hk" in
             destruct (decide (k = s)) as [->|Hk];
             [ differ | rewrite (prop_insert_ne _ _ _ _ Hk) ]
         end;
  let Heq := fresh in
  intros Heq; apply (f_equal (fmap (λ r, payload_fields r !! k))) in Heq;
  cbv [fmap list_fmap payload_fields fields req_params req_data] in Heq;
  lookups_in Heq; discriminate Heq.

(** An adapter that reads a fixed set of properties. *)
Ltac closed_case :=
  intros k; split;
  [ let Hne := fresh "Hne" in
    intros (? & ? & ? & Hne); unfold requests_of in Hne; unfold_call_in Hne;
    by_key k Hne decide_member
  | let Hin := fresh "Hin" in
    intros Hin;
    match type of Hin with
    | _ ∈ ?l =>
        let l' := eval vm_compute in l in
        let Hl := fresh in
        assert (Hl : l = l') by (vm_compute; reflexivity);
        rewrite Hl in Hin; clear Hl
    end;
    repeat (apply elem_of_cons in Hin as [->|Hin];
            [ exists ∅, (VStr "comment"), (λ _, inr VNull);
              unfold requests_of; differ |]);
    by apply elem_of_nil in Hin ].

Lemma tool_cases_declared : Forall (λ c, handler_declared c.1 c.2) tool_cases.
Proof.
  unfold tool_cases.
  repeat (apply List.Forall_cons;
          [ cbn [fst snd]; first [ right; closed_case | left; open_case ] |]).
  apply List.Forall_nil.
Qed.

Ltac missing_case :=
  intros remote; unfold_call;
  first
    [ right; eexists; split; [reflexivity|]; split; reflexivity
    | left; eexists; split; [| first [left; reflexivity | right; reflexivity]];
      decide_member ].

Lemma tool_cases_missing : Forall (λ c, handler_missing c.1 c.2) tool_cases.
Proof.
  unfold tool_cases.
  repeat (apply List.Forall_cons; [ cbn [fst snd]; missing_case |]).
  apply List.Forall_nil.
Qed.

Ltac not_forwarding Hopen :=
  let Hne := fresh "Hne" in
  destruct (Hopen "") as (? & ? & ? & Hne);
  unfold requests_of in Hne; unfold_call_in Hne;
  repeat (rewrite prop_insert_ne in Hne by done);
  exfalso; apply Hne; reflexivity.

Ltac forwarding_case :=
  let Hopen := fresh "Hopen" in
  intros Hopen;
  first
    [ not_forwarding Hopen
    | let Hnp := fresh "Hnp" in
      let Hnk := fresh "Hnk" in
      let Hr := fresh "Hr" in
      clear Hopen; intros k params remote r Hnp Hnk;
      unfold requests_of; unfold_call; split_conversions; cbv beta iota;
      intros Hr;
      first
        [ no_request Hr
        | apply list_elem_of_singleton in Hr; subst r;
          cbv [payload_fields fields req_params req_data];
          repeat match goal with
                 | |- context [delete ?s _] =>
                     lazymatch goal with
                     | _ : k ≠ s |- _ => fail
                     | _ => idtac
                     end;
                     destruct (decide (k = s)) as [->|?];
                     [ exfalso;
                       first [ by apply Hnk
                             | apply Hnp;
                               exists ∅, (VStr "comment"), (λ _, inr VNull);
                               unfold requests_of; differ ]
                     | ]
                 end;
          rewrite ?lookup_union, ?lookup_empty;
          repeat ((rewrite lookup_delete_ne by done)
                  || (rewrite lookup_singleton_ne by congruence));
          by destruct (params !! k) ] ].

Lemma tool_cases_forwarding : Forall (λ c, handler_forwarding c.1 c.2) tool_cases.
Proof.
  unfold tool_cases.
  repeat (apply List.Forall_cons; [ cbn [fst snd]; forwarding_case |]).
  apply List.Forall_nil.
Qed.



(** * The claims *)

(** ** Unknown operations *)

(** C2.  A name with no descriptor in the catalog is answered locally: the
    response is error-flagged, its text names the unknown operation, and no
    request is issued. *)
Theorem unknown_operation_is_local
    (name : string) (args : option obj) (remote : remote_api) :
  name ∉ tool_names →
  run (call_tool name args) remote =
    (inr {| content := [Text ("Error: Unknown tool: " ++ name)];
            isError := Some true |},
     []).
Proof.
  rewrite <- tool_cases_names. intros Hnot.
  rewrite run_call_tool. unfold dispatch.
  by rewrite (find_case_None _ _ Hnot).
Qed.

Lemma unknown_operation_is_local_witness :
  ("does_not_exist" ∉ tool_names)
  ∧ (run (call_tool "does_not_exist" (Some ∅)) (λ _, inr VNull) =
       (inr {| content := [Text "Error: Unknown tool: does_not_exist"];
               isError := Some true |},
        [])).
Proof.
  assert (Hnot : "does_not_exist" ∉ tool_names).
  { apply (bool_decide_unpack _). vm_compute. exact I. }
  split; [exact Hnot|].
  exact (unknown_operation_is_local "does_not_exist" (Some ∅) (λ _, inr VNull) Hnot).
Defined.

(** ** Path fields and payload *)

(** C3.  For every operation and every argument substituted into the path,
    that argument is not forwarded: the body and query of the request do
    not depend on it, and no top-level member of them bears its name,
    unless the body is another argument sent whole (the [template] of
    [sync_application_message_template]), whose own members are its
    own. *)
Theorem path_fields_not_forwarded (name k : string) :
  path_field name k →
  (∀ params v remote r r',
      r ∈ outbound name (Some params) remote →
      r' ∈ outbound name (Some (<[k:=v]> params)) remote →
      payload r' = payload r)
  ∧ (∀ params remote r,
       r ∈ outbound name (Some params) remote →
       payload_fields r !! k = None
       ∨ ∃ k', k' ≠ k ∧ req_data r = default VUndefined (params !! k')).
Proof.
  intros Hpath.
  destruct (find_case name tool_cases) as [h|] eqn:Hfind.
  - destruct (tool_cases_elim (λ _ h, handler_partition h)
                tool_cases_partition _ _ Hfind k) as [Hindep Habsent].
    { by apply (url_varies_path_field _ _ _ Hfind). }
    split.
    + intros p v rm r r'. rewrite !(requests_of_outbound _ _ _ _ Hfind).
      apply Hindep.
    + intros p rm r. rewrite (requests_of_outbound _ _ _ _ Hfind).
      apply Habsent.
  - destruct Hpath as (p & v & rm & Hne).
    by rewrite !outbound_unknown in Hne.
Qed.

Lemma path_fields_not_forwarded_witness :
  path_field "update_conversation" "conversation_id"
  ∧ (∀ params v remote r r',
        r ∈ outbound "update_conversation" (Some params) remote →
        r' ∈ outbound "update_conversation"
               (Some (<["conversation_id":=v]> params)) remote →
        payload r' = payload r)
  ∧ (∀ params remote r,
       r ∈ outbound "update_conversation" (Some params) remote →
       payload_fields r !! "conversation_id" = None
       ∨ ∃ k', k' ≠ "conversation_id"
               ∧ req_data r = default VUndefined (params !! k')).
Proof.
  assert (Hpath : path_field "update_conversation" "conversation_id").
  { exists ∅, (VStr "cnv_1"), (λ _, inr VNull). vm_compute. discriminate. }
  split; [exact Hpath|].
  exact (path_fields_not_forwarded "update_conversation" "conversation_id" Hpath).
Defined.

(** ** Failure normalisation *)

(** C1, as stated, fails: a 409 and a 404 whose bodies carry the same
    message give [edit_draft] the very same response, so nothing computed
    from the response can call one a version conflict and the other a plain
    remote failure. *)
Lemma draft_conflict_same_as_not_found :
  let args : obj :=
    <["version" := VStr "v2"]> (<["body" := VStr "hello"]>
      {[ "draft_id" := VStr "msg_1" ]}) in
  let body := VObj {[ "message" := VStr "Draft could not be saved" ]} in
  let on_409 := response "edit_draft" (Some args) (rejecting 409 body) in
  let on_404 := response "edit_draft" (Some args) (rejecting 404 body) in
  on_409 = on_404
  ∧ ∀ kind_of : thrown + tool_response → failure_kind,
      ¬ (kind_of on_409 = VersionConflict ∧ kind_of on_404 = RemoteFailure).
Proof.
  assert (Heq :
    response "edit_draft"
      (Some (<["version" := VStr "v2"]> (<["body" := VStr "hello"]>
        {[ "draft_id" := VStr "msg_1" ]})))
      (rejecting 409 (VObj {[ "message" := VStr "Draft could not be saved" ]}))
    = response "edit_draft"
      (Some (<["version" := VStr "v2"]> (<["body" := VStr "hello"]>
        {[ "draft_id" := VStr "msg_1" ]})))
      (rejecting 404 (VObj {[ "message" := VStr "Draft could not be saved" ]})))
    by (vm_compute; reflexivity).
  cbv zeta. split; [exact Heq|].
  intros kind_of [H409 H404]. rewrite Heq in H409. congruence.
Qed.

(** The text of a failed call: the remote [message] when truthy and
    convertible, the transport text when it is falsy or missing. *)
Lemma failed_call_text (name : string) args remote r msg st body :
  r ∈ outbound name args remote →
  remote r = inl (AxiosError msg (Some (AxiosResponse st body))) →
  (truthy (opt_member body "message") = false →
   response name args remote =
     inr {| content := [Text ("Error: " ++ msg)]; isError := Some true |})
  ∧ (∀ message,
       truthy (opt_member body "message") = true →
       to_string (opt_member body "message") = Some message →
       response name args remote =
         inr {| content := [Text ("Error: " ++ message)];
                isError := Some true |}).
Proof.
  intros Hr He. rewrite (response_of_failed_call _ _ _ _ _ Hr He).
  cbn [response_data_message error_response error_message data].
  unfold js_or. split.
  - by intros ->.
  - by intros message -> ->.
Qed.

(** C1, amended.  On [edit_draft] and [delete_draft] a 409 and a 404 both
    surface as an error-flagged text response [Error: m]: [m] is the string
    form of the [message] of the remote body when that is truthy, and the
    transport error text when it is falsy or missing; the status plays no
    part. *)
Theorem draft_failure_is_message_only
    (name : string) (params : obj) (remote : remote_api) (r : request)
    (msg : string) (st : Z) (body : value) :
  name = "edit_draft" ∨ name = "delete_draft" →
  st = 409%Z ∨ st = 404%Z →
  r ∈ outbound name (Some params) remote →
  remote r = inl (AxiosError msg (Some (AxiosResponse st body))) →
  (truthy (opt_member body "message") = false →
   response name (Some params) remote =
     inr {| content := [Text ("Error: " ++ msg)]; isError := Some true |})
  ∧ (∀ message,
       truthy (opt_member body "message") = true →
       to_string (opt_member body "message") = Some message →
       response name (Some params) remote =
         inr {| content := [Text ("Error: " ++ message)];
                isError := Some true |}).
Proof. intros _ _. apply failed_call_text. Qed.

Lemma draft_failure_is_message_only_witness :
  response "delete_draft"
    (Some (<["version" := VStr "v2"]> {[ "draft_id" := VStr "msg_1" ]}))
    (rejecting 409 VNull) =
  inr {| content := [Text "Error: Request failed with status code 409"];
         isError := Some true |}.
Proof.
  refine (proj1 (draft_failure_is_message_only "delete_draft"
           (<["version" := VStr "v2"]> {[ "draft_id" := VStr "msg_1" ]})
           (rejecting 409 VNull)
           (Request DELETE "/drafts/msg_1" VUndefined
              (VObj {[ "version" := VStr "v2" ]}))
           "Request failed with status code 409"
           409 VNull (or_intror eq_refl) (or_introl eq_refl) _ eq_refl)
           eq_refl).
  vm_compute. apply list_elem_of_here.
Defined.

(** C4, as stated, fails: two failures with different status codes and the
    same remote message surface identically, so the response does not carry
    the status. *)
Lemma remote_status_not_surfaced :
  let args : obj := {[ "contact_id" := VStr "crd_123" ]} in
  let body := VObj {[ "message" := VStr "Service error" ]} in
  let on_500 := response "get_contact" (Some args) (rejecting 500 body) in
  let on_503 := response "get_contact" (Some args) (rejecting 503 body) in
  on_500 = on_503
  ∧ ∀ status_of : thrown + tool_response → Z,
      ¬ (status_of on_500 = 500%Z ∧ status_of on_503 = 503%Z).
Proof.
  assert (Heq :
    response "get_contact" (Some {[ "contact_id" := VStr "crd_123" ]})
      (rejecting 500 (VObj {[ "message" := VStr "Service error" ]}))
    = response "get_contact" (Some {[ "contact_id" := VStr "crd_123" ]})
      (rejecting 503 (VObj {[ "message" := VStr "Service error" ]})))
    by (vm_compute; reflexivity).
  cbv zeta. split; [exact Heq|].
  intros status_of [H500 H503]. rewrite Heq in H500. congruence.
Qed.

(** C4, amended.  Whatever the operation, when the remote answers the
    request with a non-success status the client receives an error-flagged
    text [Error: m]: [m] is the string form of the remote body's [message]
    when that is truthy, and the transport error text when it is falsy or
    missing.  The status code is not part of it. *)
Theorem remote_failure_surfaces_message
    (name : string) (args : option obj) (remote : remote_api)
    (r : request) (msg : string) (st : Z) (body : value) :
  r ∈ outbound name args remote →
  remote r = inl (AxiosError msg (Some (AxiosResponse st body))) →
  (truthy (opt_member body "message") = false →
   response name args remote =
     inr {| content := [Text ("Error: " ++ msg)]; isError := Some true |})
  ∧ (∀ message,
       truthy (opt_member body "message") = true →
       to_string (opt_member body "message") = Some message →
       response name args remote =
         inr {| content := [Text ("Error: " ++ message)];
                isError := Some true |}).
Proof. apply failed_call_text. Qed.

Lemma remote_failure_surfaces_message_witness :
  response "get_contact" (Some {[ "contact_id" := VStr "crd_123" ]})
    (rejecting 404 (VObj {[ "message" := VStr "Contact not found" ]})) =
  inr {| content := [Text "Error: Contact not found"]; isError := Some true |}.
Proof.
  refine (proj2 (remote_failure_surfaces_message "get_contact"
            (Some {[ "contact_id" := VStr "crd_123" ]})
            (rejecting 404 (VObj {[ "message" := VStr "Contact not found" ]}))
            (Request GET "/contacts/crd_123" VUndefined VUndefined)
            "Request failed with status code 404" 404
            (VObj {[ "message" := VStr "Contact not found" ]}) _ eq_refl)
            "Contact not found" eq_refl eq_refl).
  vm_compute. apply list_elem_of_here.
Defined.

(** ** Removal operations *)

(** C5, as stated, fails for [delete_contact_handle]: the operation has no
    identifier-list argument.  Every argument its descriptor declares is a
    string, and what its DELETE carries in the body is the pair [handle]
    and [source]. *)
Lemma delete_contact_handle_has_no_identifier_list :
  let d := descriptor "delete_contact_handle" in
  let args : obj :=
    <["source" := VStr "email"]> (<["handle" := VStr "ada@example.com"]>
      {[ "contact_id" := VStr "crd_1" ]}) in
  Forall (λ k,
            opt_member
              (opt_member (opt_member (opt_member d "inputSchema") "properties") k)
              "type" = VStr "string")
         (declared d)
  ∧ outbound "delete_contact_handle" (Some args) (λ _, inr VNull) =
      [Request DELETE "/contacts/crd_1/handles" VUndefined
         (VObj (<["source" := VStr "email"]>
                  {[ "handle" := VStr "ada@example.com" ]}))].
Proof.
  cbv zeta. split.
  - assert (Hd : declared (descriptor "delete_contact_handle")
                 = ["source"; "contact_id"; "handle"])
      by (vm_compute; reflexivity).
    rewrite Hd. repeat (apply List.Forall_cons; [vm_compute; reflexivity|]).
    apply List.Forall_nil.
  - vm_compute. reflexivity.
Qed.

(** C5, amended.  Each remove-style operation places the arguments naming
    what to remove in the body, not the query, of a DELETE: the identifier
    list for seven of them, the pair [handle] and [source] for
    [delete_contact_handle].  The request is issued once the path argument
    has a string form. *)
Theorem removals_carry_body (params : obj) (remote : remote_api) :
  outbound "remove_conversation_tag" (Some params) remote =
    removal_request params "conversation_id" "/conversations/" "/tags"
      {[ "tag_ids" := default VUndefined (params !! "tag_ids") ]}
  ∧ outbound "delete_conversation_followers" (Some params) remote =
    removal_request params "conversation_id" "/conversations/" "/followers"
      {[ "teammate_ids" := default VUndefined (params !! "teammate_ids") ]}
  ∧ outbound "delete_contact_handle" (Some params) remote =
    removal_request params "contact_id" "/contacts/" "/handles"
      (<["source" := default VUndefined (params !! "source")]>
         {[ "handle" := default VUndefined (params !! "handle") ]})
  ∧ outbound "remove_conversation_links" (Some params) remote =
    removal_request params "conversation_id" "/conversations/" "/links"
      {[ "link_ids" := default VUndefined (params !! "link_ids") ]}
  ∧ outbound "remove_contacts_from_list" (Some params) remote =
    removal_request params "list_id" "/contact_lists/" "/contacts"
      {[ "contact_ids" := default VUndefined (params !! "contact_ids") ]}
  ∧ outbound "remove_contacts_from_group" (Some params) remote =
    removal_request params "group_id" "/contact_groups/" "/contacts"
      {[ "contact_ids" := default VUndefined (params !! "contact_ids") ]}
  ∧ outbound "remove_contact_from_account" (Some params) remote =
    removal_request params "account_id" "/accounts/" "/contacts"
      {[ "contact_ids" := default VUndefined (params !! "contact_ids") ]}
  ∧ outbound "remove_inbox_access" (Some params) remote =
    removal_request params "inbox_id" "/inboxes/" "/access"
      {[ "teammate_ids" := default VUndefined (params !! "teammate_ids") ]}.
Proof.
  repeat split;
    [ rewrite (requests_of_outbound _ removeConversationTag) by reflexivity
    | rewrite (requests_of_outbound _ deleteConversationFollowers) by reflexivity
    | rewrite (requests_of_outbound _ deleteContactHandle) by reflexivity
    | rewrite (requests_of_outbound _ removeConversationLinks) by reflexivity
    | rewrite (requests_of_outbound _ removeContactsFromList) by reflexivity
    | rewrite (requests_of_outbound _ removeContactsFromGroup) by reflexivity
    | rewrite (requests_of_outbound _ removeContactFromAccount) by reflexivity
    | rewrite (requests_of_outbound _ removeInboxAccess) by reflexivity ];
    unfold requests_of, removal_request; unfold_call; unfold prop;
    destruct (to_string _); reflexivity.
Qed.

Lemma removals_carry_body_witness :
  outbound "remove_conversation_tag"
    (Some (<["tag_ids" := VArr [VStr "tag_1"; VStr "tag_2"]]>
             {[ "conversation_id" := VStr "cnv_1" ]}))
    (λ _, inr VNull) =
  [Request DELETE "/conversations/cnv_1/tags" VUndefined
     (VObj {[ "tag_ids" := VArr [VStr "tag_1"; VStr "tag_2"] ]})].
Proof.
  rewrite (proj1 (removals_carry_body
                    (<["tag_ids" := VArr [VStr "tag_1"; VStr "tag_2"]]>
                       {[ "conversation_id" := VStr "cnv_1" ]})
                    (λ _, inr VNull))).
  vm_compute. reflexivity.
Defined.

(** ** Replying to a conversation *)

Lemma reply_request (params : obj) (remote : remote_api) :
  outbound "reply_to_conversation" (Some params) remote =
    match to_string (default VUndefined (params !! "conversation_id")) with
    | Some id =>
        [Request POST
           ("/conversations/" ++ id ++ "/"
            ++ if strict_eq_str (default VUndefined (params !! "type")) "comment"
               then "comments" else "messages")
           VUndefined
           (VObj (delete "type" (delete "conversation_id" params)))]
    | None => []
    end.
Proof.
  rewrite (requests_of_outbound _ replyToConversation) by reflexivity.
  unfold requests_of. unfold_call. unfold prop. by destruct (to_string _).
Qed.

(** C6.  The two concrete replies: [type: "comment"] posts to the comments
    sub-resource, [type: "reply"] to the messages sub-resource; both bodies
    are [{ body: "hi" }], without [type] and without the path field. *)
Theorem reply_scenarios (remote : remote_api) :
  outbound "reply_to_conversation"
    (Some (<["body" := VStr "hi"]> (<["type" := VStr "comment"]>
       {[ "conversation_id" := VStr "cnv_1" ]}))) remote =
    [Request POST "/conversations/cnv_1/comments" VUndefined
       (VObj {[ "body" := VStr "hi" ]})]
  ∧ outbound "reply_to_conversation"
    (Some (<["body" := VStr "hi"]> (<["type" := VStr "reply"]>
       {[ "conversation_id" := VStr "cnv_1" ]}))) remote =
    [Request POST "/conversations/cnv_1/messages" VUndefined
       (VObj {[ "body" := VStr "hi" ]})].
Proof. split; rewrite reply_request; vm_compute; reflexivity. Qed.

(** C9.  A reply is one POST, issued once the conversation identifier has
    a string form, to the sub-resource [endpoint] of that conversation:
    [endpoint] is [comments] exactly when the [type] argument is the string
    ["comment"], and [messages] for every other value, a missing [type]
    included. *)
Theorem reply_routes_by_type (params : obj) (remote : remote_api) :
  ∃ endpoint,
    (endpoint = "comments" ↔ params !! "type" = Some (VStr "comment"))
    ∧ (endpoint = "messages" ↔ params !! "type" ≠ Some (VStr "comment"))
    ∧ outbound "reply_to_conversation" (Some params) remote =
        match to_string (default VUndefined (params !! "conversation_id")) with
        | Some id =>
            [Request POST ("/conversations/" ++ id ++ "/" ++ endpoint)
               VUndefined
               (VObj (delete "type" (delete "conversation_id" params)))]
        | None => []
        end.
Proof.
  exists (if strict_eq_str (default VUndefined (params !! "type")) "comment"
          then "comments" else "messages").
  split; [|split; [|apply reply_request]].
  - destruct (strict_eq_str _ _) eqn:Htype.
    + apply strict_eq_str_true in Htype. split; [|done]. intros _.
      destruct (params !! "type") as [v|]; [|done]. cbn in Htype. by subst.
    + split; [done|]. intros Heq. rewrite Heq in Htype. done.
  - destruct (strict_eq_str _ _) eqn:Htype.
    + apply strict_eq_str_true in Htype. split; [done|]. intros Hne.
      destruct (params !! "type") as [v|]; [|done]. cbn in Htype. by subst.
    + split; [|done]. intros _ Heq. rewrite Heq in Htype. done.
Qed.

Lemma reply_routes_by_type_witness :
  outbound "reply_to_conversation"
    (Some (<["body" := VStr "hi"]> (<["type" := VStr "note"]>
       {[ "conversation_id" := VStr "cnv_1" ]}))) (λ _, inr VNull) =
    [Request POST "/conversations/cnv_1/messages" VUndefined
       (VObj {[ "body" := VStr "hi" ]})].
Proof.
  destruct (reply_routes_by_type
              (<["body" := VStr "hi"]> (<["type" := VStr "note"]>
                 {[ "conversation_id" := VStr "cnv_1" ]}))
              (λ _, inr VNull)) as (endpoint & _ & Hmessages & Hsent).
  assert (Hendpoint : endpoint = "messages").
  { apply Hmessages. vm_compute. discriminate. }
  rewrite Hsent, Hendpoint. vm_compute. reflexivity.
Defined.

(** ** Reading one contact *)



(** ** Start-up *)

(** C8.  Without the credential variable the process exits with status 1
    while starting, before any server exists to take a call; a process that
    serves calls was started with a non-empty credential. *)
Theorem missing_credential_is_fatal (env : gmap string string) :
  env !! "FRONTAPP_API_TOKEN" = None →
  main env =
    Exited 1 ["Error: FRONTAPP_API_TOKEN environment variable is required"]
  ∧ (∀ server log, main env ≠ Serving server log)
  ∧ (∀ env' server log,
       main env' = Serving server log →
       ∃ token,
         env' !! "FRONTAPP_API_TOKEN" = Some token ∧ token ≠ ""
         ∧ server = new_FrontappMCPServer token).
Proof.
  intros Habsent. unfold main. rewrite Habsent.
  split; [reflexivity|]. split; [discriminate|].
  intros env' server log.
  destruct (env' !! "FRONTAPP_API_TOKEN") as [token|]; [|discriminate].
  destruct (String.eqb_spec token ""); [discriminate|].
  intros [= <- _]. eauto.
Qed.

Lemma missing_credential_is_fatal_witness :
  main (∅ : gmap string string) =
    Exited 1 ["Error: FRONTAPP_API_TOKEN environment variable is required"].
Proof.
  exact (proj1 (missing_credential_is_fatal ∅ (lookup_empty _))).
Defined.

(** ** Resources *)

(** Reading a URI other than the four listed ones throws out of the
    resource handler, which has no [catch]: the handler's outcome is the
    error itself, and no request is issued. *)
Lemma unknown_resource_throws (uri : string) (remote : remote_api) :
  uri ∉ resource_uris →
  run (read_resource uri) remote =
    (inl (JsError ("Unknown resource: " ++ uri)), []).
Proof.
  intros Hnot. unfold resource_uris in Hnot.
  apply not_elem_of_cons in Hnot as [H1%String.eqb_neq Hnot].
  apply not_elem_of_cons in Hnot as [H2%String.eqb_neq Hnot].
  apply not_elem_of_cons in Hnot as [H3%String.eqb_neq Hnot].
  apply not_elem_of_cons in Hnot as [H4%String.eqb_neq _].
  unfold read_resource. by rewrite H1, H2, H3, H4.
Qed.

(** What the call handler's [catch] does with a failure of the [switch]
    body: an error-flagged text, provided the text can be built.  An error
    thrown locally always has a text. *)
Lemma tool_failure_is_normalised (name : string) args remote (e : thrown) log :
  run (dispatch name args) remote = (inl e, log) →
  (∀ message,
     to_string (js_or (response_data_message e) (VStr (error_message e)))
     = Some message →
     run (call_tool name args) remote =
       (inr {| content := [Text ("Error: " ++ message)];
               isError := Some true |}, log))
  ∧ (∀ text, e = JsError text →
       run (call_tool name args) remote =
         (inr {| content := [Text ("Error: " ++ text)];
                 isError := Some true |}, log)).
Proof.
  intros Hrun. rewrite run_call_tool, Hrun. split.
  - by intros message ->.
  - by intros text ->.
Qed.

(** C10.  The code departs from the claim on the tool-call side: when the
    remote's error body holds a [message] object with an own [toString]
    member, building the text [Error: ...] throws inside the [catch] block,
    so the failure of the call leaves the handler as a raw [TypeError]
    instead of an error-flagged text.  (An unknown resource URI does throw
    uncaught, as the claim says.) *)
Theorem tool_failure_escapes_catch :
  let hostile :=
    VObj {[ "message" := VObj {[ "toString" := VNum "1" ]} ]} in
  run (call_tool "get_contact" (Some {[ "contact_id" := VStr "crd_123" ]}))
      (rejecting 404 hostile)
  = (inl (JsError cannot_convert),
     [Request GET "/contacts/crd_123" VUndefined VUndefined])
  ∧ run (read_resource "frontapp://contacts") (rejecting 404 hostile)
    = (inl (JsError "Unknown resource: frontapp://contacts"), []).
Proof. split; vm_compute; reflexivity. Qed.

(** * Further properties *)

(** ** Discovery *)

(** X1.  The names announced by discovery are pairwise distinct and are the
    labels of the dispatch switch, in the same order. *)
Theorem discovery_agrees_with_dispatch :
  announced_names = tool_cases.*1 ∧ NoDup announced_names.
Proof. split; [apply announced_names_cases | decide_member]. Qed.

(** X2.  Every announced name has a descriptor carrying that name, whose
    input schema is of type [object] and requires only argument names it
    declares, each once. *)
Theorem descriptors_well_formed (name : string) :
  name ∈ announced_names →
  strict_eq_str (opt_member (descriptor name) "name") name = true
  ∧ strict_eq_str
      (opt_member (opt_member (descriptor name) "inputSchema") "type")
      "object" = true
  ∧ Forall (λ k, k ∈ declared (descriptor name)) (required (descriptor name))
  ∧ NoDup (required (descriptor name)).
Proof. revert name. apply Forall_forall. decide_member. Qed.

Lemma descriptors_well_formed_witness :
  Forall (λ k, k ∈ declared (descriptor "edit_draft"))
         (required (descriptor "edit_draft")).
Proof.
  refine (proj1 (proj2 (proj2 (descriptors_well_formed "edit_draft" _)))).
  decide_member.
Defined.

(** X3.  Every argument substituted into the path of an operation is
    declared required by the operation's descriptor. *)
Theorem path_fields_are_required (name k : string) :
  path_field name k → k ∈ required (descriptor name).
Proof.
  intros Hpath.
  destruct (find_case name tool_cases) as [h|] eqn:Hfind.
  - apply (tool_cases_elim handler_required tool_cases_required _ _ Hfind).
    by apply (url_varies_path_field _ _ _ Hfind).
  - destruct Hpath as (p & v & rm & Hne).
    by rewrite !outbound_unknown in Hne.
Qed.

Lemma path_fields_are_required_witness :
  "type" ∈ required (descriptor "reply_to_conversation").
Proof.
  apply (path_fields_are_required "reply_to_conversation" "type").
  exists ∅, (VStr "comment"), (λ _, inr VNull). vm_compute. discriminate.
Defined.

(** X4.  An announced operation either lets every argument it is given
    show in its request, or reacts to exactly the arguments its descriptor
    declares. *)
Theorem declared_arguments_drive_requests (name : string) :
  name ∈ announced_names →
  (∀ k, influences name k)
  ∨ (∀ k, influences name k ↔ k ∈ declared (descriptor name)).
Proof.
  intros [h Hfind]%announced_find_case.
  destruct (tool_cases_elim handler_declared tool_cases_declared _ _ Hfind)
    as [Hopen|Hclosed].
  - left. intros k. by apply (request_varies_influences _ _ _ Hfind).
  - right. intros k. by rewrite (request_varies_influences _ _ _ Hfind).
Qed.

Lemma declared_arguments_drive_requests_witness :
  (∀ k, influences "delete_draft" k)
  ∨ (∀ k, influences "delete_draft" k
          ↔ k ∈ declared (descriptor "delete_draft")).
Proof.
  apply (declared_arguments_drive_requests "delete_draft"). decide_member.
Defined.

(** ** One call *)



(** X6.  Called without an arguments object, an announced operation either
    fails before any request, with the engine's error about the first
    required argument it reads, or issues one request with neither query
    nor body; the latter whenever its descriptor requires nothing. *)
Theorem call_without_arguments (name : string) (remote : remote_api) :
  name ∈ announced_names →
  (∃ k, k ∈ required (descriptor name)
        ∧ outbound name None remote = []
        ∧ (response name None remote =
             inr {| content := [Text ("Error: " ++ cannot_read k)];
                    isError := Some true |}
           ∨ response name None remote =
             inr {| content := [Text ("Error: " ++ cannot_destructure k)];
                    isError := Some true |}))
  ∨ (∃ r, outbound name None remote = [r]
          ∧ req_params r = VUndefined ∧ req_data r = VUndefined).
Proof.
  intros [h Hfind]%announced_find_case.
  unfold outbound, response.
  rewrite run_call_tool, (run_dispatch _ _ _ _ Hfind).
  destruct (tool_cases_elim handler_missing tool_cases_missing _ _ Hfind remote)
    as [(k & Hk & [Hrun|Hrun])|(r & Hrun & Hq & Hb)]; rewrite Hrun.
  - left. exists k. eauto.
  - left. exists k. eauto.
  - right. exists r. by destruct (remote r).
Qed.

Lemma call_without_arguments_witness :
  (∃ k, k ∈ required (descriptor "list_tags")
        ∧ outbound "list_tags" None (λ _, inr VNull) = []
        ∧ (response "list_tags" None (λ _, inr VNull) =
             inr {| content := [Text ("Error: " ++ cannot_read k)];
                    isError := Some true |}
           ∨ response "list_tags" None (λ _, inr VNull) =
             inr {| content := [Text ("Error: " ++ cannot_destructure k)];
                    isError := Some true |}))
  ∨ (∃ r, outbound "list_tags" None (λ _, inr VNull) = [r]
          ∧ req_params r = VUndefined ∧ req_data r = VUndefined).
Proof.
  apply (call_without_arguments "list_tags" (λ _, inr VNull)). decide_member.
Defined.

Lemma outbound_method (name : string) args remote r :
  r ∈ outbound name args remote →
  (req_method r = GET ↔ read_only name = true)
  ∧ (req_method r = DELETE ↔ removal name = true)
  ∧ (req_method r = GET → req_data r = VUndefined)
  ∧ (req_method r ≠ GET → req_params r = VUndefined).
Proof.
  rewrite outbound_dispatch.
  destruct (find_case name tool_cases) as [h|] eqn:Hfind.
  - rewrite (run_dispatch _ _ _ _ Hfind).
    apply (tool_cases_elim handler_method tool_cases_methods _ _ Hfind).
  - unfold dispatch. rewrite Hfind. by intros ?%elem_of_nil.
Qed.

(** X7.  The method of a request follows the name of the operation: GET
    exactly for the [list_], [get_] and [search_] operations, DELETE exactly
    for the [delete_] and [remove_] operations. *)
Theorem method_follows_name
    (name : string) (args : option obj) (remote : remote_api) (r : request) :
  r ∈ outbound name args remote →
  (req_method r = GET ↔ read_only name = true)
  ∧ (req_method r = DELETE ↔ removal name = true).
Proof. intros Hr. destruct (outbound_method _ _ _ _ Hr) as (? & ? & _). done. Qed.

Lemma method_follows_name_witness :
  (req_method (Request GET "/tags" VUndefined VUndefined) = GET
   ↔ read_only "list_tags" = true)
  ∧ (req_method (Request GET "/tags" VUndefined VUndefined) = DELETE
     ↔ removal "list_tags" = true).
Proof.
  apply (method_follows_name "list_tags" None (λ _, inr VNull)).
  vm_compute. apply list_elem_of_here.
Defined.

(** X8.  A GET request never has a body, and no other request has a query
    object. *)
Theorem payload_placement
    (name : string) (args : option obj) (remote : remote_api) (r : request) :
  r ∈ outbound name args remote →
  (req_method r = GET → req_data r = VUndefined)
  ∧ (req_method r ≠ GET → req_params r = VUndefined).
Proof. intros Hr. destruct (outbound_method _ _ _ _ Hr) as (_ & _ & ?). done. Qed.

Lemma payload_placement_witness :
  let r := Request POST "/tags" VUndefined (VObj {[ "name" := VStr "vip" ]}) in
  (req_method r = GET → req_data r = VUndefined)
  ∧ (req_method r ≠ GET → req_params r = VUndefined).
Proof.
  apply (payload_placement "create_tag" (Some {[ "name" := VStr "vip" ]})
           (λ _, inr VNull)).
  vm_compute. apply list_elem_of_here.
Defined.

(** X10.  A failure that brings no usable remote message (no response at
    all, a body that is no object, or a body whose [message] is missing or
    falsy) surfaces as the error's own text. *)
Theorem failure_without_message_surfaces_error_text
    (name : string) (args : option obj) (remote : remote_api)
    (r : request) (e : thrown) :
  r ∈ outbound name args remote →
  remote r = inl e →
  truthy (response_data_message e) = false →
  response name args remote =
    inr {| content := [Text ("Error: " ++ error_message e)];
           isError := Some true |}.
Proof.
  intros Hr He Hfalsy. rewrite (response_of_failed_call _ _ _ _ _ Hr He).
  unfold js_or. by rewrite Hfalsy.
Qed.

Lemma failure_without_message_surfaces_error_text_witness :
  response "list_tags" None (λ _, inl (AxiosError "connect ECONNREFUSED" None)) =
    inr {| content := [Text "Error: connect ECONNREFUSED"];
           isError := Some true |}.
Proof.
  refine (failure_without_message_surfaces_error_text "list_tags" None
            (λ _, inl (AxiosError "connect ECONNREFUSED" None))
            (Request GET "/tags" VUndefined VUndefined)
            (AxiosError "connect ECONNREFUSED" None) _ eq_refl eq_refl).
  vm_compute. apply list_elem_of_here.
Defined.

(** X11.  An operation that forwards what it is given forwards every
    argument not used for the path unchanged, present or absent alike; the
    one exception is [version] of [edit_draft], which is always set. *)
Theorem other_arguments_forwarded_verbatim
    (name k : string) (params : obj) (remote : remote_api) (r : request) :
  (∀ k', influences name k') →
  ¬ path_field name k →
  (name, k) ≠ ("edit_draft", "version") →
  r ∈ outbound name (Some params) remote →
  payload_fields r !! k = params !! k.
Proof.
  intros Hopen Hnp Hnk Hr.
  destruct (find_case name tool_cases) as [h|] eqn:Hfind.
  - apply (tool_cases_elim handler_forwarding tool_cases_forwarding _ _ Hfind)
      with remote.
    + intros k'. by apply (request_varies_influences _ _ _ Hfind).
    + by rewrite <- (url_varies_path_field _ _ _ Hfind).
    + done.
    + by rewrite <- (requests_of_outbound _ _ _ _ Hfind).
  - rewrite outbound_unknown in Hr by done. by apply elem_of_nil in Hr.
Qed.

Lemma other_arguments_forwarded_verbatim_witness :
  let params : obj :=
    <["status" := VStr "archived"]> {[ "conversation_id" := VStr "cnv_1" ]} in
  payload_fields
    (Request PATCH "/conversations/cnv_1" VUndefined
       (VObj {[ "status" := VStr "archived" ]})) !! "status"
  = params !! "status".
Proof.
  refine (other_arguments_forwarded_verbatim "update_conversation" "status"
            (<["status" := VStr "archived"]> {[ "conversation_id" := VStr "cnv_1" ]})
            (λ _, inr VNull) _ _ _ _ _).
  - assert (Hopen : ∀ k, request_varies updateConversation k) by open_case.
    intros k. by apply (request_varies_influences _ updateConversation).
  - intros Hpath.
    apply (url_varies_path_field _ updateConversation) in Hpath; [|reflexivity].
    destruct Hpath as (p & v & rm & Hne).
    unfold requests_of in Hne. unfold_call_in Hne.
    rewrite prop_insert_ne in Hne by done.
    revert Hne. split_conversions; cbv beta iota; intros Hne; by apply Hne.
  - discriminate.
  - vm_compute. apply list_elem_of_here.
Defined.

(** X12.  [search_conversations] sends its [query] argument under the name
    [q], beside [limit], as the query of one GET; nothing else it is given
    is sent. *)
Theorem search_sends_q_and_limit (params : obj) (remote : remote_api) :
  outbound "search_conversations" (Some params) remote =
    [Request GET "/conversations/search"
       (VObj (<["limit" := prop params "limit"]>
                {[ "q" := prop params "query" ]}))
       VUndefined].
Proof. rewrite outbound_dispatch. reflexivity. Qed.

(** ** Resources *)

(** X13.  Reading an announced resource issues one GET without body and
    resolves with one content item that echoes the URI, has the announced
    MIME type and holds the decoded body as JSON text; when the remote
    fails, the error leaves the handler as it came. *)
Theorem resource_read_outcome (d : value) (remote : remote_api) :
  d ∈ resources →
  ∃ r,
    req_method r = GET ∧ req_data r = VUndefined
    ∧ run (read_resource (string_of (opt_member d "uri"))) remote =
        (match remote r with
         | inr body =>
             inr [ResourceContent (string_of (opt_member d "uri"))
                    (string_of (opt_member d "mimeType"))
                    (JSON_stringify body)]
         | inl error => inl error
         end,
         [r]).
Proof.
  unfold resources. intros Hd.
  apply elem_of_cons in Hd as [->|Hd].
  { exists (Request GET "/conversations" (VObj {[ "limit" := VNum "20" ]}) VUndefined).
    split; [reflexivity|]. split; [reflexivity|].
    vm_compute. destruct (remote _); reflexivity. }
  apply elem_of_cons in Hd as [->|Hd].
  { exists (Request GET "/teammates" VUndefined VUndefined).
    split; [reflexivity|]. split; [reflexivity|].
    vm_compute. destruct (remote _); reflexivity. }
  apply elem_of_cons in Hd as [->|Hd].
  { exists (Request GET "/inboxes" VUndefined VUndefined).
    split; [reflexivity|]. split; [reflexivity|].
    vm_compute. destruct (remote _); reflexivity. }
  apply elem_of_cons in Hd as [->|Hd].
  { exists (Request GET "/tags" VUndefined VUndefined).
    split; [reflexivity|]. split; [reflexivity|].
    vm_compute. destruct (remote _); reflexivity. }
  by apply elem_of_nil in Hd.
Qed.

Lemma resource_read_outcome_witness :
  ∃ r,
    req_method r = GET ∧ req_data r = VUndefined
    ∧ run (read_resource "frontapp://tags") (λ _, inr VNull) =
        (match (λ _, inr VNull) r with
         | inr body =>
             inr [ResourceContent "frontapp://tags" "application/json"
                    (JSON_stringify body)]
         | inl error => inl error
         end,
         [r]).
Proof.
  refine (resource_read_outcome
            (js_object
               [ ("uri", VStr "frontapp://tags"); ("name", VStr "Tags");
                 ("description", VStr "List of all tags");
                 ("mimeType", VStr "application/json") ])
            (λ _, inr VNull) _).
  do 3 apply list_elem_of_further. apply list_elem_of_here.
Defined.

(** The read of a resource and the tool call it stands for both issue
    the request [R] and resolve from the remote's answer to it. *)
Ltac shortcut_case R :=
  unfold outbound, response; rewrite run_call_tool;
  match goal with
  | |- context [run (read_resource ?u) ?rm] =>
      let Hres := fresh "Hres" in
      assert (Hres : run (read_resource u) rm
                     = (match rm R with
                        | inr body =>
                            inr [ResourceContent u "application/json"
                                   (JSON_stringify body)]
                        | inl error => inl error
                        end, [R]))
        by (vm_compute; destruct (rm _); reflexivity);
      rewrite Hres; clear Hres;
      match goal with
      | |- context [run (dispatch ?n ?a) rm] =>
          let Hrun := fresh "Hrun" in
          assert (Hrun : run (dispatch n a) rm = (rm R, [R]))
            by (vm_compute; reflexivity);
          rewrite Hrun; clear Hrun
      end;
      destruct (rm R) as [e|body]; cbn;
      (split; [reflexivity | by intros contents [= <-]])
  end.

(** X14.  Each resource is a shortcut for a tool call: reading it issues
    the request of that call and, on success, yields the same text. *)
Theorem resources_are_tool_shortcuts
    (uri tool : string) (args : option obj) (remote : remote_api) :
  (uri, (tool, args)) ∈ shortcuts →
  (run (read_resource uri) remote).2 = outbound tool args remote
  ∧ ∀ contents,
      (run (read_resource uri) remote).1 = inr contents →
      response tool args remote =
        inr {| content := text <$> contents; isError := None |}.
Proof.
  unfold shortcuts.
  intros Hs. repeat (apply elem_of_cons in Hs as [[= -> -> ->]|Hs]);
    [ shortcut_case
        (Request GET "/conversations" (VObj {[ "limit" := VNum "20" ]}) VUndefined)
    | shortcut_case (Request GET "/teammates" VUndefined VUndefined)
    | shortcut_case (Request GET "/inboxes" VUndefined VUndefined)
    | shortcut_case (Request GET "/tags" VUndefined VUndefined)
    | by apply elem_of_nil in Hs ].
Qed.

Lemma resources_are_tool_shortcuts_witness :
  (run (read_resource "frontapp://conversations/recent") (λ _, inr VNull)).2
  = outbound "list_conversations" (Some {[ "limit" := VNum "20" ]})
      (λ _, inr VNull).
Proof.
  refine (proj1 (resources_are_tool_shortcuts
                   "frontapp://conversations/recent" "list_conversations"
                   (Some {[ "limit" := VNum "20" ]}) (λ _, inr VNull) _)).
  apply list_elem_of_here.
Defined.

(** ** Start-up *)

(** X15.  Start-up ends with exit status 1 exactly when the credential
    variable is missing or empty; with any other value the server is
    built with that value as bearer token and connected. *)
Theorem startup_outcomes (env : gmap string string) :
  (main env =
     Exited 1 ["Error: FRONTAPP_API_TOKEN environment variable is required"]
   ↔ env !! "FRONTAPP_API_TOKEN" = None
     ∨ env !! "FRONTAPP_API_TOKEN" = Some "")
  ∧ (∀ token,
       env !! "FRONTAPP_API_TOKEN" = Some token → token ≠ "" →
       main env =
         Serving {| baseURL := "https://api2.frontapp.com";
                    authorization := "Bearer " ++ token;
                    content_type := "application/json" |}
                 ["Frontapp MCP server running on stdio"]).
Proof.
  unfold main.
  destruct (env !! "FRONTAPP_API_TOKEN") as [token|]; [|naive_solver].
  destruct (String.eqb_spec token "") as [->|Hne].
  - naive_solver.
  - split.
    + split; [discriminate|]. intros [[=]|[= ->]]. done.
    + intros ? [= <-] _. reflexivity.
Qed.

Lemma startup_outcomes_witness :
  main {[ "FRONTAPP_API_TOKEN" := "" ]} =
    Exited 1 ["Error: FRONTAPP_API_TOKEN environment variable is required"].
Proof.
  apply (proj1 (startup_outcomes {[ "FRONTAPP_API_TOKEN" := "" ]})).
  right. reflexivity.
Defined.
